(** * Olist order features: a shallow embedding of [olist/order.py]

    The class [Order] derives one feature table per order dimension from the
    raw Olist tables and joins them into a training table.  The tables are
    pandas DataFrames; this development models the fragment of pandas the
    class uses and then the class itself, method by method.

    Modelling conventions.
    - A cell is a nullable scalar.  [NA] stands for NaN, None and NaT alike.
    - Floating point numbers are idealised as rationals ([Q]); equality of
      numeric results is therefore stated up to [Qeq] where two different
      expressions are compared.
    - A timestamp is a count of nanoseconds since the epoch, a time
      difference a count of nanoseconds (time zones are not modelled).
    - A DataFrame is an ordered list of column names and a list of rows; a
      row maps column names to cells.  Row labels (the pandas index) are not
      modelled: every operation used by [Order] either keeps the rows
      aligned by position or resets the index.
    - DataFrames are objects on a heap: [self.data] maps dataset names to
      references, [.copy()] allocates, [df[col] = ...] updates in place. *)

From Stdlib Require Import QArith Qminmax Qabs Ascii String.
From stdpp Require Import gmap strings list fin_maps sorting.

Open Scope string_scope.
Open Scope list_scope.

(** ** Cells *)

(** A timestamp is an instant in nanoseconds since the epoch; [Time] is
    a timestamp without time zone, [TimeTz] one with a UTC offset (the
    instant is then in UTC).  [Delta] is a time difference in
    nanoseconds. *)
Inductive cell :=
| NA
| Str (s : string)
| Int (z : Z)
| Num (q : Q)
| Time (ns : Z)
| Delta (ns : Z)
| TimeTz (off : Z) (ns : Z).

#[global] Instance Q_eq_dec : EqDecision Q.
Proof. solve_decision. Defined.

#[global] Instance cell_eq_dec : EqDecision cell.
Proof. solve_decision. Defined.

Definition is_na (c : cell) : bool :=
  match c with NA => true | _ => false end.

(** The numeric value of a cell, when it has one. *)
Definition to_num (c : cell) : option Q :=
  match c with
  | Int z => Some (inject_Z z)
  | Num q => Some q
  | _ => None
  end.

(** Key form of a cell: pandas compares join and group keys by value, so
    [5] and [5.0] are the same key. *)
Definition canon (c : cell) : cell :=
  match c with
  | Num q => let r := Qred q in
             if decide (Qden r = 1%positive) then Int (Qnum r) else Num r
  | _ => c
  end.

Definition key_eqb (a b : cell) : bool := bool_decide (canon a = canon b).

(** ** Errors *)

(** [KeyError k] is the error of a lookup of the single label [k];
    [KeyErrorOf ks] is the [KeyError] of a selection of several labels,
    whose message lists the labels [ks] that were not found. *)
Inductive error :=
| KeyError (k : string)
| KeyErrorOf (ks : list string)
| TypeError
| ValueError
| AttributeError
| OverflowError
| Dangling.

Inductive result (A : Type) :=
| Ok (a : A)
| Err (e : error).
Arguments Ok {A} a.
Arguments Err {A} e.

#[global] Instance result_ret : MRet result := λ A a, Ok a.
#[global] Instance result_bind : MBind result :=
  λ A B k r, match r with Ok a => k a | Err e => Err e end.

(** [mapR f l] applies a fallible function to every element, left to
    right, and stops at the first error. *)
Fixpoint mapR {A B} (f : A → result B) (l : list A) : result (list B) :=
  match l with
  | [] => Ok []
  | x :: l' => y ← f x; ys ← mapR f l'; Ok (y :: ys)
  end.

(** ** Rows and frames *)

Abbreviation row := (gmap string cell).
Abbreviation series := (list cell).

Definition cell_at (r : row) (c : string) : cell := default NA (r !! c).

Record frame := Frame { columns : list string; rows : list row }.

#[global] Instance frame_eq_dec : EqDecision frame.
Proof. solve_decision. Defined.

(** [mk_row] builds a row from (column, cell) pairs; the first pair for a
    column wins, as the first of two equally named columns does in pandas
    label lookup. *)
Definition mk_row (l : list (string * cell)) : row := list_to_map l.

Definition project (cols : list string) (r : row) : row :=
  mk_row (map (λ c, (c, cell_at r c)) cols).

Definition has_col (c : string) (f : frame) : bool :=
  bool_decide (c ∈ columns f).

(** ** Series operations *)

(** [s == v] with a scalar: a null never compares equal. *)
Definition eq_scalar (s : series) (v : cell) : list bool :=
  map (λ c, negb (is_na c) && key_eqb c v) s.

(** [mask.astype(int)] *)
Definition astype_int (m : list bool) : series :=
  map (λ b : bool, Int (if b then 1 else 0)) m.

(** Timestamps and time differences are int64 numbers of nanoseconds; the
    least int64 stands for the null ([NaT]). *)
Definition int64_min : Z := - 2 ^ 63.
Definition int64_max : Z := 2 ^ 63 - 1.

Definition in_int64 (z : Z) : bool := (int64_min <=? z)%Z && (z <=? int64_max)%Z.

(** The difference of two timestamps: pandas checks the int64 subtraction
    and raises [OverflowError]; a difference that is the least int64 reads
    as null. *)
Definition sub_stamp (x y : Z) : result cell :=
  let d := (x - y)%Z in
  if in_int64 d then Ok (if (d =? int64_min)%Z then NA else Delta d)
  else Err OverflowError.

(** [a - b] on two cells.  Differences of numbers are kept exact. *)
Definition sub_cell (a b : cell) : result cell :=
  match a, b with
  | Str _, _ | _, Str _ => Err TypeError
  | NA, _ | _, NA => Ok NA
  | Time x, Time y => sub_stamp x y
  | TimeTz _ x, TimeTz _ y => sub_stamp x y
  | Time x, Delta y => Ok (Time (x - y))
  | Delta x, Delta y => Ok (Delta (x - y))
  | Int x, Int y => Ok (Int (x - y))
  | Int x, Num y => Ok (Num (inject_Z x - y))
  | Num x, Int y => Ok (Num (x - inject_Z y))
  | Num x, Num y => Ok (Num (x - y))
  | _, _ => Err TypeError
  end.

Fixpoint sub_cells (a b : series) : result series :=
  match a, b with
  | [], [] => Ok []
  | x :: a', y :: b' => d ← sub_cell x y; ds ← sub_cells a' b'; Ok (d :: ds)
  | _, _ => Err ValueError
  end.

(** A column of timestamps has a time zone when one of its timestamps has
    one; a column of nulls only has none. *)
Definition is_aware (c : cell) : bool :=
  match c with TimeTz _ _ => true | _ => false end.

Definition aware (s : series) : bool := existsb is_aware s.

(** The time zone of a timestamp: none, or a UTC offset. *)
Definition zone_of (c : cell) : option (option Z) :=
  match c with
  | Time _ => Some None
  | TimeTz o _ => Some (Some o)
  | _ => None
  end.

(** The timestamps of a column agree on the time zone. *)
Definition uniform (s : series) : bool :=
  match omap zone_of s with
  | [] => true
  | z :: zs => forallb (λ z', bool_decide (z' = z)) zs
  end.

(** [a - b] on two series of one frame (aligned by position).  A column
    with a time zone and a column without cannot be subtracted, whatever
    their cells. *)
Definition series_sub (a b : series) : result series :=
  if xorb (aware a) (aware b) then Err TypeError else sub_cells a b.

(** ** float64 rounding

    [f64 q] is the float64 nearest to [q], ties going to the even
    significand: the result of a float64 operation whose exact result is
    [q].  Significands have 53 bits; the exponent range is not modelled
    (the quotients below are far inside it). *)
Definition f64 (q : Q) : Q :=
  let n := Qnum q in
  let d := Zpos (Qden q) in
  if (n =? 0)%Z then 0%Q else
  let a := Z.abs n in
  let k := (Z.log2 a - Z.log2 d - 52)%Z in
  let scale e := if (0 <=? e)%Z then (a, d * 2 ^ e)%Z else (a * 2 ^ (- e), d)%Z in
  let e := let '(N, D) := scale k in if (2 ^ 52 * D <=? N)%Z then k else (k - 1)%Z in
  let '(N, D) := scale e in
  let m := (N / D)%Z in
  let r := (N mod D)%Z in
  let m' := if (2 * r <? D)%Z then m
            else if (D <? 2 * r)%Z then (m + 1)%Z
            else if Z.even m then m else (m + 1)%Z in
  let s := (Z.sgn n * m')%Z in
  Qred (if (0 <=? e)%Z then inject_Z (s * 2 ^ e) else s # Z.to_pos (2 ^ (- e))).

(** [Timedelta.total_seconds()]: the int64 nanoseconds, as float64,
    divided by 10^9 (pandas 2). *)
Definition total_seconds (ns : Z) : Q :=
  f64 (f64 (inject_Z ns) / inject_Z 1000000000).

(** [s.dt.total_seconds()]: only time differences have the accessor. *)
Definition dt_total_seconds (s : series) : result series :=
  mapR (λ c, match c with
             | NA => Ok NA
             | Delta ns => Ok (Num (total_seconds ns))
             | _ => Err AttributeError
             end) s.

(** [s / d] with a numeric scalar: a float64 division. *)
Definition div_scalar (s : series) (d : Q) : result series :=
  mapR (λ c, match c with
             | NA => Ok NA
             | Int z => Ok (Num (f64 (f64 (inject_Z z) / d)))
             | Num q => Ok (Num (f64 (q / d)))
             | _ => Err TypeError
             end) s.

Definition isna (s : series) : list bool := map is_na s.

Definition Qltb (x y : Q) : bool :=
  match (x ?= y)%Q with Lt => true | _ => false end.

(** [s > v] with a numeric scalar: a null compares false. *)
Definition gt_scalar (s : series) (v : Q) : result (list bool) :=
  mapR (λ c, match c with
             | NA => Ok false
             | Int z => Ok (Qltb v (inject_Z z))
             | Num q => Ok (Qltb v q)
             | _ => Err TypeError
             end) s.

(** An argument of [np.where]: a scalar is broadcast, an array must have
    the shape of the condition. *)
Inductive operand := Scalar (v : cell) | Array (s : series).

Definition broadcast (n : nat) (o : operand) : result series :=
  match o with
  | Scalar v => Ok (replicate n v)
  | Array s => if decide (length s = n) then Ok s else Err ValueError
  end.

Fixpoint choose (m : list bool) (x y : series) : series :=
  match m, x, y with
  | b :: m', u :: x', v :: y' => (if b then u else v) :: choose m' x' y'
  | _, _, _ => []
  end.

Definition np_where (m : list bool) (x y : operand) : result series :=
  xs ← broadcast (length m) x; ys ← broadcast (length m) y; Ok (choose m xs ys).

(** ** Frame operations *)

(** The first of the requested labels that is not a column, if any. *)
Definition missing_col (cols : list string) (f : frame) : option string :=
  List.find (λ c, negb (has_col c f)) cols.

(** [df[c]]: the column as a series. *)
Definition getitem_col (c : string) (f : frame) : result series :=
  if has_col c f then Ok (map (λ r, cell_at r c) (rows f)) else Err (KeyError c).

(** [df[[c1, ..., cn]]]: a new frame with these columns, in this order. *)
(** The requested labels that are not columns, each once, in the order of
    the request. *)
Definition missing_cols (cols : list string) (f : frame) : list string :=
  rev (remove_dups (rev (List.filter (λ c, negb (has_col c f)) cols))).

(** [df[cols]]: when labels are missing, the [KeyError] lists all of them. *)
Definition getitem_cols (cols : list string) (f : frame) : result frame :=
  match missing_col cols f with
  | Some _ => Err (KeyErrorOf (missing_cols cols f))
  | None => Ok (Frame cols (map (project cols) (rows f)))
  end.

Fixpoint keep_rows (m : list bool) (rs : list row) : list row :=
  match m, rs with
  | b :: m', r :: rs' => if b then r :: keep_rows m' rs' else keep_rows m' rs'
  | _, _ => []
  end.

(** [df[mask]]: the rows where the boolean series is true. *)
Definition getitem_mask (m : list bool) (f : frame) : result frame :=
  if decide (length m = length (rows f))
  then Ok (Frame (columns f) (keep_rows m (rows f)))
  else Err ValueError.

(** [df[c] = s]: replaces the column, or appends it as the last one. *)
Definition setitem (c : string) (s : series) (f : frame) : result frame :=
  if decide (length s = length (rows f))
  then Ok (Frame (if has_col c f then columns f else columns f ++ [c])
                 (zip_with (λ (r : row) v, <[c := v]> r) (rows f) s))
  else Err ValueError.

(** [df.rename(columns=m)] *)
Definition rename_col (m : list (string * string)) (c : string) : string :=
  match List.find (λ p, bool_decide (p.1 = c)) m with
  | Some p => p.2
  | None => c
  end.

Definition rename (m : list (string * string)) (f : frame) : frame :=
  Frame (map (rename_col m) (columns f))
        (map (λ r, mk_row (map (λ c, (rename_col m c, cell_at r c)) (columns f)))
             (rows f)).

Definition row_complete (cols : list string) (r : row) : bool :=
  forallb (λ c, negb (is_na (cell_at r c))) cols.

(** [df.dropna()]: keeps the rows without a null in any column. *)
Definition dropna (f : frame) : frame :=
  Frame (columns f) (List.filter (row_complete (columns f)) (rows f)).

(** [left.merge(right, on=on, how="left")].  Every left row is kept, in
    order; it is paired with each right row of the same key, in the right
    frame's order, or with nulls when there is none.  Null keys match each
    other.  Columns other than the key that both frames have get the
    suffixes [_x] and [_y]. *)
Definition matches (on : string) (R : frame) (lr : row) : list row :=
  List.filter (λ rr, key_eqb (cell_at lr on) (cell_at rr on)) (rows R).

(** Some left row has no partner: its right columns are filled with
    nulls.  A right column of integers (int64) cannot hold them and becomes
    a column of float64, with all its cells. *)
Definition unmatched (on : string) (L R : frame) : bool :=
  existsb (λ lr, match matches on R lr with [] => true | _ => false end) (rows L).

Definition int_column (c : string) (f : frame) : bool :=
  forallb (λ r, match cell_at r c with Int _ => true | _ => false end) (rows f).

Definition upcast (c : cell) : cell :=
  match c with Int z => Num (f64 (inject_Z z)) | _ => c end.

Definition right_cell (on : string) (L R : frame) (c : string) (r : row) : cell :=
  if unmatched on L R && int_column c R then upcast (cell_at r c) else cell_at r c.

Definition join_row (on : string) (L R : frame) (lr : row) (rr : option row) : row :=
  let clash c := bool_decide (c ≠ on) && has_col c L && has_col c R in
  mk_row (map (λ c, (if clash c then c +:+ "_x" else c, cell_at lr c)) (columns L)
          ++ map (λ c, (if clash c then c +:+ "_y" else c,
                        match rr with Some r => right_cell on L R c r | None => NA end))
                 (List.filter (λ c, bool_decide (c ≠ on)) (columns R))).

Definition merge_left (on : string) (L R : frame) : result frame :=
  if negb (has_col on L) then Err (KeyError on) else
  if negb (has_col on R) then Err (KeyError on) else
  let clash c := bool_decide (c ≠ on) && has_col c L && has_col c R in
  Ok (Frame
        (map (λ c, if clash c then c +:+ "_x" else c) (columns L)
         ++ map (λ c, if clash c then c +:+ "_y" else c)
                (List.filter (λ c, bool_decide (c ≠ on)) (columns R)))
        (flat_map (λ lr, match matches on R lr with
                         | [] => [join_row on L R lr None]
                         | ms => map (λ rr, join_row on L R lr (Some rr)) ms
                         end) (rows L))).

(** ** Grouping *)

(** The order in which group keys are listed: numbers by value, then
    timestamps, time differences and strings (by code point). *)
Definition rank (c : cell) : nat :=
  match c with
  | NA => 0 | Int _ | Num _ => 1 | Time _ | TimeTz _ _ => 2 | Delta _ => 3
  | Str _ => 4
  end.

Definition cell_leb (a b : cell) : bool :=
  match a, b with
  | Str s, Str t => String.leb s t
  | Time x, Time y | Delta x, Delta y | TimeTz _ x, TimeTz _ y => (x <=? y)%Z
  | _, _ => match to_num a, to_num b with
            | Some x, Some y => Qle_bool x y
            | _, _ => (rank a <=? rank b)%nat
            end
  end.

Definition key_of (by_ : string) (r : row) : cell := canon (cell_at r by_).

(** Sorting the group keys compares them.  Text sorts after everything
    else; the other keys are compared with each other, which fails unless
    they are all numbers, all timestamps without time zone, all timestamps
    with one, or all time differences. *)
Definition kind (c : cell) : nat :=
  match c with
  | NA => 0 | Int _ | Num _ => 1 | Time _ => 2 | Delta _ => 3 | Str _ => 4
  | TimeTz _ _ => 5
  end.

Definition is_text (c : cell) : bool :=
  match c with Str _ => true | _ => false end.

Definition sortable (ks : list cell) : bool :=
  match List.filter (λ k, negb (is_text k)) ks with
  | [] => true
  | k :: ks' => forallb (λ k', (kind k' =? kind k)%nat) ks'
  end.

(** [df.groupby(by)]: the keys are the distinct non-null values of the
    column, sorted; a row with a null key belongs to no group. *)
Definition group_keys (by_ : string) (f : frame) : list cell :=
  merge_sort (λ a b, cell_leb a b)
    (remove_dups (List.filter (λ k, negb (is_na k)) (map (key_of by_) (rows f)))).

Definition group_rows (by_ : string) (f : frame) (k : cell) : list row :=
  List.filter (λ r, bool_decide (key_of by_ r = k)) (rows f).

(** One output row per group: the key, then each aggregate under its
    output name.  This is [groupby(by)[...].agg().reset_index()].  Keys
    that cannot be sorted are a [TypeError]. *)
Definition groupby_agg (by_ : string) (aggs : list (string * (list row → result cell)))
    (f : frame) : result frame :=
  if negb (has_col by_ f) then Err (KeyError by_) else
  if negb (sortable (group_keys by_ f)) then Err TypeError else
  rs ← mapR (λ k, vs ← mapR (λ a : string * (list row → result cell),
                                v ← a.2 (group_rows by_ f k); Ok (a.1, v)) aggs;
                  Ok (mk_row ((by_, k) :: vs)))
            (group_keys by_ f);
  Ok (Frame (by_ :: map fst aggs) rs).

(** The non-null numeric values of a series; other values cannot be
    aggregated numerically. *)
Fixpoint numbers (s : series) : result (list Q) :=
  match s with
  | [] => Ok []
  | NA :: s' => numbers s'
  | c :: s' => match to_num c with
               | Some q => qs ← numbers s'; Ok (q :: qs)
               | None => Err TypeError
               end
  end.

Fixpoint integers (s : series) : option (list Z) :=
  match s with
  | [] => Some []
  | Int z :: s' => zs ← integers s'; Some (z :: zs)
  | _ => None
  end.

Definition Qsum (l : list Q) : Q := foldr Qplus 0%Q l.

(** [.size()] *)
Definition agg_size (rs : list row) : result cell :=
  Ok (Int (Z.of_nat (length rs))).

(** [.nunique()]: distinct non-null values. *)
Definition agg_nunique (c : string) (rs : list row) : result cell :=
  Ok (Int (Z.of_nat (length (remove_dups
        (List.filter (λ k, negb (is_na k)) (map (key_of c) rs)))))).

(** [.sum()]: nulls are skipped; the sum of no value is 0. *)
Definition agg_sum (c : string) (rs : list row) : result cell :=
  let s := map (λ r, cell_at r c) rs in
  match integers s with
  | Some zs => Ok (Int (foldr Z.add 0%Z zs))
  | None => qs ← numbers s; Ok (Num (Qsum qs))
  end.

(** [.mean()]: nulls are skipped; the mean of no value is null. *)
Definition agg_mean (c : string) (rs : list row) : result cell :=
  qs ← numbers (map (λ r, cell_at r c) rs);
  Ok (match qs with
      | [] => NA
      | _ => Num (Qsum qs / inject_Z (Z.of_nat (length qs)))
      end).

(** [df.groupby(by)[cols].agg()]: grouping by a label, or selecting
    columns, that the frame does not have is a [KeyError]. *)
Definition groupby_cols (by_ : string) (cols : list string)
    (aggs : list (string * (list row → result cell))) (f : frame) : result frame :=
  if negb (has_col by_ f) then Err (KeyError by_) else
  match missing_col cols f with
  | Some c => Err (KeyError c)
  | None => groupby_agg by_ aggs f
  end.

(** [df.apply(g, axis=1)] *)
Definition apply_rows (g : row → result cell) (f : frame) : result series :=
  mapR g (rows f).

(** [r[c]] inside a row-wise function. *)
Definition row_getitem (f : frame) (r : row) (c : string) : result cell :=
  if has_col c f then Ok (cell_at r c) else Err (KeyError c).

(** ** The object heap

    A DataFrame variable holds a reference.  Methods that return a frame
    allocate it; item assignment updates the referenced frame in place. *)

Abbreviation loc := nat.
Abbreviation heap := (list frame).

Definition M (A : Type) : Type := heap → result (A * heap).

#[global] Instance M_ret : MRet M := λ A a h, Ok (a, h).
#[global] Instance M_bind : MBind M :=
  λ A B k m h, match m h with Ok (a, h') => k a h' | Err e => Err e end.

Definition lift {A} (r : result A) : M A :=
  λ h, match r with Ok a => Ok (a, h) | Err e => Err e end.

Definition alloc (f : frame) : M loc := λ h, Ok (length h, h ++ [f]).

Definition load (l : loc) : M frame :=
  λ h, match h !! l with Some f => Ok (f, h) | None => Err Dangling end.

Definition store (l : loc) (f : frame) : M unit :=
  λ h, match h !! l with Some _ => Ok ((), <[l := f]> h) | None => Err Dangling end.

Fixpoint for_each {A} (l : list A) (body : A → M unit) : M unit :=
  match l with
  | [] => mret ()
  | x :: l' => _ ← body x; for_each l' body
  end.

Definition df_copy (l : loc) : M loc := f ← load l; alloc f.

Definition df_getitem_col (l : loc) (c : string) : M series :=
  f ← load l; lift (getitem_col c f).

Definition df_getitem_cols (l : loc) (cols : list string) : M loc :=
  f ← load l; g ← lift (getitem_cols cols f); alloc g.

Definition df_getitem_mask (l : loc) (m : list bool) : M loc :=
  f ← load l; g ← lift (getitem_mask m f); alloc g.

Definition df_setitem (l : loc) (c : string) (s : series) : M unit :=
  f ← load l; g ← lift (setitem c s f); store l g.

Definition df_rename (l : loc) (m : list (string * string)) : M loc :=
  f ← load l; alloc (rename m f).

Definition df_merge (l r : loc) (on : string) : M loc :=
  f ← load l; g ← load r; j ← lift (merge_left on f g); alloc j.

Definition df_groupby (l : loc) (by_ : string) (cols : list string)
    (aggs : list (string * (list row → result cell))) : M loc :=
  f ← load l; g ← lift (groupby_cols by_ cols aggs f); alloc g.

Definition df_dropna (l : loc) : M loc :=
  f ← load l; alloc (dropna f).

Definition df_apply (l : loc) (g : frame → row → result cell) : M series :=
  f ← load l; lift (apply_rows (g f) f).

(** [d[name]] on the dataset dictionary. *)
Definition dict_getitem (d : gmap string loc) (name : string) : M loc :=
  lift (match d !! name with Some l => Ok l | None => Err (KeyError name) end).

(** ** The class [Order] *)

(** An instance holds the dataset dictionary built by [Olist().get_data()]:
    dataset name to DataFrame. *)
Record Order := { data : gmap string loc }.

Section order.

(** [pd.to_datetime] reads a cell as a timestamp or fails; it may look at
    the whole column to settle on a format.  The parser is pandas', not
    this repository's.  [parse_datetime i s c] is what the [i]-th call of
    [pd.to_datetime] in a run of [get_wait_time] reads in the cell [c] of
    the column [s]: the instant, in nanoseconds since the epoch, and the
    UTC offset when the text carries one.  The call matters because pandas
    reads "now" and "today" from the wall clock: the reader of one run is
    not the reader of the next. *)
Variable parse_datetime : nat → series → cell → option (Z * option Z).

(** The great-circle distance in km between two points given as
    (longitude, latitude) pairs in degrees: the numeric kernel of
    [olist.utils.haversine_distance]. *)
Variable great_circle_km : Q → Q → Q → Q → Q.

(** [errors="coerce"]: what cannot be read, or lies outside the int64
    range of timestamps, becomes null. *)
Definition coerce_datetime (i : nat) (s : series) (c : cell) : cell :=
  match c with
  | NA => NA
  | _ => match parse_datetime i s c with
         | Some (t, z) =>
             if in_int64 t && negb (t =? int64_min)%Z
             then match z with None => Time t | Some o => TimeTz o t end
             else NA
         | None => NA
         end
  end.

(** [pd.to_datetime(s, errors="coerce")]: the timestamps read must agree
    on the time zone (none, or one UTC offset); mixed zones are a
    [ValueError] that [errors="coerce"] does not catch. *)
Definition to_datetime (i : nat) (s : series) : result series :=
  let t := map (coerce_datetime i s) s in
  if uniform t then Ok t else Err ValueError.

(** Modelled from the spec: [olist.utils.haversine_distance] is imported by
    [order.py] but is not among the sources.  Per the spec it is a pure
    scalar function of two (lng, lat) points, and a null coordinate yields
    a null distance. *)
Definition haversine_distance (lng1 lat1 lng2 lat2 : cell) : result cell :=
  match lng1, lat1, lng2, lat2 with
  | NA, _, _, _ | _, NA, _, _ | _, _, NA, _ | _, _, _, NA => Ok NA
  | _, _, _, _ =>
      match to_num lng1, to_num lat1, to_num lng2, to_num lat2 with
      | Some a, Some b, Some c, Some d => Ok (Num (great_circle_km a b c d))
      | _, _, _, _ => Err TypeError
      end
  end.

(** [(a - b).dt.total_seconds() / 86400] *)
Definition days_between (a b : series) : result series :=
  d ← series_sub a b; s ← dt_total_seconds d; div_scalar s 86400.

Definition get_wait_time (self : Order) (is_delivered : bool) : M loc :=
  orders ← dict_getitem (data self) "orders" ≫= df_copy;
  let cols := ["order_id"; "order_status"; "order_purchase_timestamp";
               "order_delivered_customer_date"; "order_estimated_delivery_date"] in
  df ← df_getitem_cols orders cols ≫= df_copy;
  df ← (if is_delivered
        then st ← df_getitem_col df "order_status";
             df_getitem_mask df (eq_scalar st (Str "delivered")) ≫= df_copy
        else mret df);
  _ ← for_each [(0%nat, "order_purchase_timestamp");
                (1%nat, "order_delivered_customer_date");
                (2%nat, "order_estimated_delivery_date")]
         (λ '(i, col), s ← df_getitem_col df col;
                       t ← lift (to_datetime i s);
                       df_setitem df col t);
  delivered ← df_getitem_col df "order_delivered_customer_date";
  purchase ← df_getitem_col df "order_purchase_timestamp";
  w ← lift (days_between delivered purchase);
  _ ← df_setitem df "wait_time" w;
  estimated ← df_getitem_col df "order_estimated_delivery_date";
  purchase ← df_getitem_col df "order_purchase_timestamp";
  e ← lift (days_between estimated purchase);
  _ ← df_setitem df "expected_wait_time" e;
  w ← df_getitem_col df "wait_time";
  e ← df_getitem_col df "expected_wait_time";
  delay ← lift (series_sub w e);
  pos ← lift (gt_scalar delay 0);
  inner ← lift (np_where pos (Array delay) (Scalar (Num 0)));
  d ← lift (np_where (isna delay) (Scalar NA) (Array inner));
  _ ← df_setitem df "delay_vs_expected" d;
  df_getitem_cols df ["order_id"; "wait_time"; "expected_wait_time";
                      "delay_vs_expected"; "order_status"].

Definition get_review_score (self : Order) : M loc :=
  reviews ← dict_getitem (data self) "order_reviews" ≫= df_copy;
  df ← df_getitem_cols reviews ["order_id"; "review_score"] ≫= df_copy;
  s ← df_getitem_col df "review_score";
  _ ← df_setitem df "dim_is_five_star" (astype_int (eq_scalar s (Int 5)));
  s ← df_getitem_col df "review_score";
  _ ← df_setitem df "dim_is_one_star" (astype_int (eq_scalar s (Int 1)));
  df_getitem_cols df ["order_id"; "dim_is_five_star"; "dim_is_one_star";
                      "review_score"].

Definition get_number_items (self : Order) : M loc :=
  t ← dict_getitem (data self) "order_items";
  items ← df_getitem_cols t ["order_id"] ≫= df_copy;
  df_groupby items "order_id" [] [("number_of_items", agg_size)].

Definition get_number_sellers (self : Order) : M loc :=
  t ← dict_getitem (data self) "order_items";
  items ← df_getitem_cols t ["order_id"; "seller_id"] ≫= df_copy;
  df_groupby items "order_id" ["seller_id"]
    [("number_of_sellers", agg_nunique "seller_id")].

Definition get_price_and_freight (self : Order) : M loc :=
  t ← dict_getitem (data self) "order_items";
  items ← df_getitem_cols t ["order_id"; "price"; "freight_value"] ≫= df_copy;
  df_groupby items "order_id" ["price"; "freight_value"]
    [("price", agg_sum "price"); ("freight_value", agg_sum "freight_value")].

(** The function applied to every row in step 7. *)
Definition line_distance (f : frame) (r : row) : result cell :=
  slng ← row_getitem f r "seller_lng";
  slat ← row_getitem f r "seller_lat";
  clng ← row_getitem f r "customer_lng";
  clat ← row_getitem f r "customer_lat";
  haversine_distance slng slat clng clat.

(** Steps 1 to 7 of [get_distance_seller_customer]: one row per item line
    with the seller's and the customer's coordinates and their distance. *)
Definition distance_lines (self : Order) : M loc :=
  t ← dict_getitem (data self) "orders";
  orders ← df_getitem_cols t ["order_id"; "customer_id"] ≫= df_copy;
  t ← dict_getitem (data self) "customers";
  customers ← df_getitem_cols t ["customer_id"; "customer_zip_code_prefix"] ≫= df_copy;
  t ← dict_getitem (data self) "sellers";
  sellers ← df_getitem_cols t ["seller_id"; "seller_zip_code_prefix"] ≫= df_copy;
  t ← dict_getitem (data self) "order_items";
  items ← df_getitem_cols t ["order_id"; "seller_id"] ≫= df_copy;
  geo ← dict_getitem (data self) "geolocation" ≫= df_copy;
  geo_zip ← df_groupby geo "geolocation_zip_code_prefix"
              ["geolocation_lat"; "geolocation_lng"]
              [("geolocation_lat", agg_mean "geolocation_lat");
               ("geolocation_lng", agg_mean "geolocation_lng")];
  t ← df_merge orders customers "customer_id";
  order_customer ← df_rename t [("customer_zip_code_prefix", "customer_zip")];
  t ← df_merge items sellers "seller_id";
  order_seller ← df_rename t [("seller_zip_code_prefix", "seller_zip")];
  oc ← df_getitem_cols order_customer ["order_id"; "customer_zip"];
  df ← df_merge order_seller oc "order_id";
  sgeo ← df_rename geo_zip [("geolocation_zip_code_prefix", "seller_zip");
                            ("geolocation_lat", "seller_lat");
                            ("geolocation_lng", "seller_lng")];
  df ← df_merge df sgeo "seller_zip";
  cgeo ← df_rename geo_zip [("geolocation_zip_code_prefix", "customer_zip");
                            ("geolocation_lat", "customer_lat");
                            ("geolocation_lng", "customer_lng")];
  df ← df_merge df cgeo "customer_zip";
  km ← df_apply df line_distance;
  _ ← df_setitem df "distance_km" km;
  mret df.

Definition get_distance_seller_customer (self : Order) : M loc :=
  df ← distance_lines self;
  df_groupby df "order_id" ["distance_km"]
    [("distance_seller_customer", agg_mean "distance_km")].

(** The joins of [get_training_data], before the incomplete rows are
    dropped. *)
Definition merge_features (self : Order)
    (is_delivered with_distance_seller_customer : bool) : M loc :=
  df ← get_wait_time self is_delivered;
  r ← get_review_score self;
  df ← df_merge df r "order_id";
  r ← get_number_items self;
  df ← df_merge df r "order_id";
  r ← get_number_sellers self;
  df ← df_merge df r "order_id";
  r ← get_price_and_freight self;
  df ← df_merge df r "order_id";
  if with_distance_seller_customer
  then r ← get_distance_seller_customer self; df_merge df r "order_id"
  else mret df.

Definition training_columns (with_distance_seller_customer : bool) : list string :=
  ["order_id"; "wait_time"; "expected_wait_time"; "delay_vs_expected";
   "order_status"; "dim_is_five_star"; "dim_is_one_star"; "review_score";
   "number_of_items"; "number_of_sellers"; "price"; "freight_value"]
  ++ (if with_distance_seller_customer then ["distance_seller_customer"] else []).

Definition get_training_data (self : Order)
    (is_delivered with_distance_seller_customer : bool) : M loc :=
  df ← merge_features self is_delivered with_distance_seller_customer;
  df ← df_dropna df;
  df_getitem_cols df (training_columns with_distance_seller_customer).

(** *** What the methods compute

    Each method reads some datasets and returns a new frame.  The functions
    below give that frame as a function of the datasets alone; the
    refinement lemmas further down relate them to the methods. *)

Definition parse_column (i : nat) (c : string) (df : frame) : result frame :=
  s ← getitem_col c df; t ← to_datetime i s; setitem c t df.

Definition elapsed_column (name later earlier : string) (df : frame) : result frame :=
  a ← getitem_col later df;
  b ← getitem_col earlier df;
  w ← days_between a b;
  setitem name w df.

Definition delay_column (df : frame) : result frame :=
  w ← getitem_col "wait_time" df;
  e ← getitem_col "expected_wait_time" df;
  delay ← series_sub w e;
  pos ← gt_scalar delay 0;
  inner ← np_where pos (Array delay) (Scalar (Num 0));
  d ← np_where (isna delay) (Scalar NA) (Array inner);
  setitem "delay_vs_expected" d df.

Definition wait_time_table (is_delivered : bool) (orders : frame) : result frame :=
  df ← getitem_cols ["order_id"; "order_status"; "order_purchase_timestamp";
                     "order_delivered_customer_date";
                     "order_estimated_delivery_date"] orders;
  df ← (if is_delivered
        then st ← getitem_col "order_status" df;
             getitem_mask (eq_scalar st (Str "delivered")) df
        else Ok df);
  df ← parse_column 0 "order_purchase_timestamp" df;
  df ← parse_column 1 "order_delivered_customer_date" df;
  df ← parse_column 2 "order_estimated_delivery_date" df;
  df ← elapsed_column "wait_time" "order_delivered_customer_date"
         "order_purchase_timestamp" df;
  df ← elapsed_column "expected_wait_time" "order_estimated_delivery_date"
         "order_purchase_timestamp" df;
  df ← delay_column df;
  getitem_cols ["order_id"; "wait_time"; "expected_wait_time";
                "delay_vs_expected"; "order_status"] df.

Definition flag_column (name : string) (score : Z) (df : frame) : result frame :=
  s ← getitem_col "review_score" df;
  setitem name (astype_int (eq_scalar s (Int score))) df.

Definition review_table (reviews : frame) : result frame :=
  df ← getitem_cols ["order_id"; "review_score"] reviews;
  df ← flag_column "dim_is_five_star" 5 df;
  df ← flag_column "dim_is_one_star" 1 df;
  getitem_cols ["order_id"; "dim_is_five_star"; "dim_is_one_star";
                "review_score"] df.

Definition items_table (items : frame) : result frame :=
  df ← getitem_cols ["order_id"] items;
  groupby_cols "order_id" [] [("number_of_items", agg_size)] df.

Definition sellers_table (items : frame) : result frame :=
  df ← getitem_cols ["order_id"; "seller_id"] items;
  groupby_cols "order_id" ["seller_id"]
    [("number_of_sellers", agg_nunique "seller_id")] df.

Definition price_table (items : frame) : result frame :=
  df ← getitem_cols ["order_id"; "price"; "freight_value"] items;
  groupby_cols "order_id" ["price"; "freight_value"]
    [("price", agg_sum "price"); ("freight_value", agg_sum "freight_value")] df.

(** The item lines from the selected columns of the four tables and the
    geolocation table. *)
Definition lines_table (orders customers sellers items geo : frame) : result frame :=
  geo_zip ← groupby_cols "geolocation_zip_code_prefix"
              ["geolocation_lat"; "geolocation_lng"]
              [("geolocation_lat", agg_mean "geolocation_lat");
               ("geolocation_lng", agg_mean "geolocation_lng")] geo;
  t ← merge_left "customer_id" orders customers;
  let order_customer := rename [("customer_zip_code_prefix", "customer_zip")] t in
  t ← merge_left "seller_id" items sellers;
  let order_seller := rename [("seller_zip_code_prefix", "seller_zip")] t in
  oc ← getitem_cols ["order_id"; "customer_zip"] order_customer;
  df ← merge_left "order_id" order_seller oc;
  df ← merge_left "seller_zip" df
         (rename [("geolocation_zip_code_prefix", "seller_zip");
                  ("geolocation_lat", "seller_lat");
                  ("geolocation_lng", "seller_lng")] geo_zip);
  df ← merge_left "customer_zip" df
         (rename [("geolocation_zip_code_prefix", "customer_zip");
                  ("geolocation_lat", "customer_lat");
                  ("geolocation_lng", "customer_lng")] geo_zip);
  km ← apply_rows (line_distance df) df;
  setitem "distance_km" km df.

Definition distance_table (lines : frame) : result frame :=
  groupby_cols "order_id" ["distance_km"]
    [("distance_seller_customer", agg_mean "distance_km")] lines.

(** The datasets as the methods find them: the frame a name refers to. *)
Definition dataset (self : Order) (h : heap) (name : string) : result frame :=
  match data self !! name with
  | None => Err (KeyError name)
  | Some l => match h !! l with Some f => Ok f | None => Err Dangling end
  end.

Definition wait_time_of (self : Order) (h : heap) (is_delivered : bool) :=
  dataset self h "orders" ≫= wait_time_table is_delivered.
Definition review_of (self : Order) (h : heap) :=
  dataset self h "order_reviews" ≫= review_table.
Definition items_of (self : Order) (h : heap) :=
  dataset self h "order_items" ≫= items_table.
Definition sellers_of (self : Order) (h : heap) :=
  dataset self h "order_items" ≫= sellers_table.
Definition price_of (self : Order) (h : heap) :=
  dataset self h "order_items" ≫= price_table.

Definition lines_of (self : Order) (h : heap) : result frame :=
  o ← dataset self h "orders";
  o ← getitem_cols ["order_id"; "customer_id"] o;
  c ← dataset self h "customers";
  c ← getitem_cols ["customer_id"; "customer_zip_code_prefix"] c;
  s ← dataset self h "sellers";
  s ← getitem_cols ["seller_id"; "seller_zip_code_prefix"] s;
  i ← dataset self h "order_items";
  i ← getitem_cols ["order_id"; "seller_id"] i;
  g ← dataset self h "geolocation";
  lines_table o c s i g.

Definition distance_of (self : Order) (h : heap) : result frame :=
  lines_of self h ≫= distance_table.

Definition features_of (self : Order) (h : heap)
    (is_delivered with_distance_seller_customer : bool) : result frame :=
  df ← wait_time_of self h is_delivered;
  r ← review_of self h;
  df ← merge_left "order_id" df r;
  r ← items_of self h;
  df ← merge_left "order_id" df r;
  r ← sellers_of self h;
  df ← merge_left "order_id" df r;
  r ← price_of self h;
  df ← merge_left "order_id" df r;
  if with_distance_seller_customer
  then r ← distance_of self h; merge_left "order_id" df r
  else Ok df.

Definition training_of (self : Order) (h : heap)
    (is_delivered with_distance_seller_customer : bool) : result frame :=
  df ← features_of self h is_delivered with_distance_seller_customer;
  getitem_cols (training_columns with_distance_seller_customer) (dropna df).

End order.

(** ** A concrete timestamp reader and distance kernel

    The theorems below hold for every [parse_datetime] and every
    [great_circle_km].  To run the methods on example data, this section
    fixes a reader for the format of the Olist files,
    [YYYY-MM-DD HH:MM:SS], optionally followed by a UTC offset, and a
    simple stand-in for the distance. *)

Definition digit (a : ascii) : option Z :=
  let n := (Z.of_N (N_of_ascii a) - 48)%Z in
  if decide (0 ≤ n ≤ 9)%Z then Some n else None.

Fixpoint number_from (acc : Z) (s : string) : option Z :=
  match s with
  | EmptyString => Some acc
  | String a s' => d ← digit a; number_from (10 * acc + d) s'
  end.

Definition field (s : string) (start len : nat) : option Z :=
  number_from 0 (substring start len s).

Definition is_leap (y : Z) : bool :=
  ((y mod 4 =? 0) && negb (y mod 100 =? 0) || (y mod 400 =? 0))%Z.

Definition days_in_month (y m : Z) : Z :=
  if (m =? 2)%Z then (if is_leap y then 29 else 28)
  else if ((m =? 4) || (m =? 6) || (m =? 9) || (m =? 11))%Z then 30 else 31.

(** Days from 1970-01-01 to the given civil date (proleptic Gregorian). *)
Definition days_from_civil (y m d : Z) : Z :=
  let y' := (if m <=? 2 then y - 1 else y)%Z in
  let era := (y' / 400)%Z in
  let yoe := (y' - era * 400)%Z in
  let doy := ((153 * (if m >? 2 then m - 3 else m + 9) + 2) / 5 + d - 1)%Z in
  let doe := (yoe * 365 + yoe / 4 - yoe / 100 + doy)%Z in
  (era * 146097 + doe - 719468)%Z.

(** [YYYY-MM-DD HH:MM:SS] to nanoseconds since the epoch. *)
Definition civil_ns (s : string) : option Z :=
  if decide (String.length s = 19%nat
             ∧ substring 4 1 s = "-" ∧ substring 7 1 s = "-"
             ∧ substring 10 1 s = " "
             ∧ substring 13 1 s = ":" ∧ substring 16 1 s = ":")
  then
    y ← field s 0 4; m ← field s 5 2; d ← field s 8 2;
    hh ← field s 11 2; mm ← field s 14 2; ss ← field s 17 2;
    if decide (1 ≤ m ≤ 12 ∧ 1 ≤ d ≤ days_in_month y m
               ∧ hh < 24 ∧ mm < 60 ∧ ss < 60)%Z
    then Some (((days_from_civil y m d * 86400 + hh * 3600 + mm * 60 + ss)
                * 1000000000)%Z)
    else None
  else None.

(** A UTC offset [+HH:MM] or [-HH:MM], in nanoseconds. *)
Definition offset_ns (s : string) : option Z :=
  if decide (String.length s = 6%nat ∧ substring 3 1 s = ":")
  then
    hh ← field s 1 2; mm ← field s 4 2;
    if decide (hh < 24 ∧ mm < 60)%Z
    then
      let o := ((hh * 3600 + mm * 60) * 1000000000)%Z in
      if decide (substring 0 1 s = "+") then Some o
      else if decide (substring 0 1 s = "-") then Some (- o)%Z
      else None
    else None
  else None.

(** The reader: the text "now" is the reading of the wall clock at the
    call; a timestamp may be followed by a UTC offset. *)
Definition clock_datetime (clock : nat → Z) (i : nat) (_ : series) (c : cell)
    : option (Z * option Z) :=
  match c with
  | Str s =>
      if decide (s = "now") then Some (clock i, None)
      else if decide (String.length s = 25%nat)
      then t ← civil_ns (substring 0 19 s);
           o ← offset_ns (substring 19 6 s);
           Some ((t - o)%Z, Some o)
      else t ← civil_ns s; Some (t, None)
  | Time t => Some (t, None)
  | TimeTz o t => Some (t, Some o)
  | _ => None
  end.

(** The reader with the clock stopped at the epoch. *)
Definition iso_datetime : nat → series → cell → option (Z * option Z) :=
  clock_datetime (λ _, 0%Z).

(** Stand-in distance: 111 km per degree along each axis. *)
Definition grid_km (lng1 lat1 lng2 lat2 : Q) : Q :=
  (111 * (Qabs (lng2 - lng1) + Qabs (lat2 - lat1)))%Q.

(** ** A weakest-precondition calculus for the heap monad *)

(** [wp m h Q E]: run from [h], [m] either returns a value and a heap
    satisfying [Q] or raises an error satisfying [E]. *)
Definition wp {A} (m : M A) (h : heap) (Q : A → heap → Prop) (E : error → Prop) : Prop :=
  match m h with Ok (a, h') => Q a h' | Err e => E e end.

(** [computes m h r]: run from [h], the method [m] raises [e] when [r] is
    [Err e]; when [r] is [Ok f] it returns a reference to [f] and leaves
    every object of [h] as it was. *)
Definition computes (m : M loc) (h : heap) (r : result frame) : Prop :=
  wp m h (λ l h', h `prefix_of` h' ∧ ∃ f, r = Ok f ∧ h' !! l = Some f)
         (λ e, r = Err e).

(** Every dataset of the dictionary is a live object. *)
Definition valid (self : Order) (h : heap) : Prop :=
  map_Forall (λ _ l, (l < length h)%nat) (data self).

(** The frame a method call returns, read back from the heap it left. *)
Definition outcome (m : M loc) (h : heap) : result frame :=
  match m h with
  | Ok (l, h') => match h' !! l with Some f => Ok f | None => Err Dangling end
  | Err e => Err e
  end.

(** All cells of a table, row by row. *)
Definition cells (t : frame) : series :=
  flat_map (λ r, map (cell_at r) (columns t)) (rows t).

Definition null_free (t : frame) : Prop := Forall (λ v, v ≠ NA) (cells t).

(** The indicator of [review_score == k] as an integer. *)
Definition flag (k : Z) (score : cell) : cell :=
  Int (if negb (is_na score) && key_eqb score (Int k) then 1 else 0).

(** The output row of [get_review_score] for a row of the reviews table. *)
Definition review_row (r : row) : row :=
  mk_row [("order_id", cell_at r "order_id");
          ("dim_is_five_star", flag 5 (cell_at r "review_score"));
          ("dim_is_one_star", flag 1 (cell_at r "review_score"));
          ("review_score", cell_at r "review_score")].

(** [has_value c k]: the cell holds the number [k]. *)
Definition has_value (c : cell) (k : Z) : Prop :=
  ∃ q, to_num c = Some q ∧ (q == inject_Z k)%Q.

(** *** The wait-time table, row by row *)

(** A time difference of [ns] nanoseconds in days: two float64
    divisions, by 10^9 and by 86400. *)
Definition elapsed_days (ns : Z) : cell :=
  if (ns =? int64_min)%Z then NA else Num (f64 (total_seconds ns / 86400)).

(** [(later - earlier)] in days, for two cells of parsed columns whose
    subtraction does not fail. *)
Definition days (later earlier : cell) : cell :=
  match later, earlier with
  | Time x, Time y | TimeTz _ x, TimeTz _ y => elapsed_days (x - y)
  | _, _ => NA
  end.

(** The instant of a timestamp. *)
Definition instant (c : cell) : option Z :=
  match c with Time t | TimeTz _ t => Some t | _ => None end.

(** The difference of two timestamps fits an int64. *)
Definition fits (later earlier : cell) : bool :=
  match instant later, instant earlier with
  | Some x, Some y => in_int64 (x - y)
  | _, _ => true
  end.

(** The error of [later - earlier] on two parsed columns, if any. *)
Definition elapsed_error (later earlier : series) : option error :=
  if xorb (aware later) (aware earlier) then Some TypeError
  else if forallb (λ ab : cell * cell, fits ab.1 ab.2) (zip later earlier) then None
  else Some OverflowError.

(** [delay_vs_expected] from [wait_time] and [expected_wait_time]. *)
Definition delay (w e : cell) : cell :=
  match w, e with
  | Num x, Num y => if Qltb 0 (x - y) then Num (x - y) else Num 0
  | _, _ => NA
  end.

Definition is_delivered_status (c : cell) : bool :=
  negb (is_na c) && key_eqb c (Str "delivered").

(** The orders [get_wait_time] keeps. *)
Definition kept_orders (is_delivered : bool) (orders : frame) : list row :=
  if is_delivered
  then List.filter (λ r, is_delivered_status (cell_at r "order_status")) (rows orders)
  else rows orders.

Definition is_stamp (c : cell) : Prop :=
  match c with NA | Time _ | TimeTz _ _ => True | _ => False end.

Definition num_or_na (c : cell) : Prop :=
  match c with NA | Num _ => True | _ => False end.

(** The difference of two timestamps of columns that can be subtracted,
    when it fits an int64. *)
Definition delta (later earlier : cell) : cell :=
  match later, earlier with
  | Time x, Time y | TimeTz _ x, TimeTz _ y =>
      if (x - y =? int64_min)%Z then NA else Delta (x - y)
  | _, _ => NA
  end.

(** Not a timestamp with a time zone against one without. *)
Definition compatible (a b : cell) : Prop :=
  match a, b with
  | Time _, TimeTz _ _ | TimeTz _ _, Time _ => False
  | _, _ => True
  end.

(** What [read_csv] makes of a column of text. *)
Definition text_or_null (c : cell) : bool :=
  match c with NA | Str _ => true | _ => false end.

(** The cell [a] is the cell [b], or [b] made a float64. *)
Definition same_or_upcast (a b : cell) : Prop := a = b ∨ a = upcast b.

(** What [read_csv] makes of a column of text or numbers. *)
Definition text_or_number (c : cell) : bool :=
  match c with NA | Str _ | Int _ | Num _ => true | _ => false end.

Section wait_rows.

Variable parse_datetime : nat → series → cell → option (Z * option Z).

(** The cell that the [i]-th call of [pd.to_datetime] makes of the column
    [col] of the kept order [r]; [ks] are all the kept orders. *)
Definition read (i : nat) (ks : list row) (col : string) (r : row) : cell :=
  coerce_datetime parse_datetime i (map (λ r, cell_at r col) ks) (cell_at r col).

(** The three parsed columns of the kept orders. *)
Definition purchased (ks : list row) : series :=
  map (read 0 ks "order_purchase_timestamp") ks.
Definition delivered (ks : list row) : series :=
  map (read 1 ks "order_delivered_customer_date") ks.
Definition estimated (ks : list row) : series :=
  map (read 2 ks "order_estimated_delivery_date") ks.

(** The output row of [get_wait_time] for a kept order [r] among the kept
    orders [ks]. *)
Definition wait_row (ks : list row) (r : row) : row :=
  let p := read 0 ks "order_purchase_timestamp" r in
  let d := read 1 ks "order_delivered_customer_date" r in
  let e := read 2 ks "order_estimated_delivery_date" r in
  mk_row [("order_id", cell_at r "order_id");
          ("wait_time", days d p);
          ("expected_wait_time", days e p);
          ("delay_vs_expected", delay (days d p) (days e p));
          ("order_status", cell_at r "order_status")].

Definition wait_rows (is_delivered : bool) (orders : frame) : list row :=
  let ks := kept_orders is_delivered orders in
  map (wait_row ks) ks.

(** The error of the parsing and subtracting steps of [get_wait_time] on
    the kept orders, if any: mixed time zones in a column, then a column
    with a time zone against one without, or a difference that overflows. *)
Definition wait_error (ks : list row) : option error :=
  if negb (uniform (purchased ks) && uniform (delivered ks) && uniform (estimated ks))
  then Some ValueError
  else match elapsed_error (delivered ks) (purchased ks) with
       | Some e => Some e
       | None => elapsed_error (estimated ks) (purchased ks)
       end.

(** The calls of [pd.to_datetime] and their columns. *)
Definition stamp_columns : list (nat * string) :=
  [(0%nat, "order_purchase_timestamp"); (1%nat, "order_delivered_customer_date");
   (2%nat, "order_estimated_delivery_date")].

(** The cell is text or null, and what the reader reads in it has no UTC
    offset and lies less than 2^62 ns from the epoch (the years 1824 to
    2116). *)
Definition plain_cell (ks : list row) (i : nat) (col : string) (r : row) : bool :=
  text_or_null (cell_at r col)
  && match parse_datetime i (map (λ r, cell_at r col) ks) (cell_at r col) with
     | Some (t, None) => (- 2 ^ 62 <? t)%Z && (t <? 2 ^ 62)%Z
     | Some (_, Some _) => false
     | None => true
     end.

(** All timestamp cells of the orders [ks] are plain. *)
Definition plain_stamps (ks : list row) : bool :=
  forallb (λ ic : nat * string, forallb (plain_cell ks ic.1 ic.2) ks) stamp_columns.

End wait_rows.

(** Two calls of [get_wait_time], whose readers are [P1] and [P2], make the
    same cells of the three timestamp columns of the orders [ks]. *)
Definition same_reading (P1 P2 : nat → series → cell → option (Z * option Z))
    (ks : list row) : bool :=
  forallb (λ ic : nat * string,
             forallb (λ r, bool_decide (read P1 ic.1 ks ic.2 r = read P2 ic.1 ks ic.2 r))
                     ks)
          stamp_columns.

(** The number of rows of a table whose key is [k]. *)
Definition count_key (on : string) (k : cell) (rs : list row) : nat :=
  length (List.filter (λ r, bool_decide (key_of on r = k)) rs).

(** No column of the left frame other than the key is also a column of the
    right frame: a merge then renames nothing. *)
Definition no_clash (on : string) (L R : frame) : bool :=
  forallb (λ c, bool_decide (c = on) || negb (has_col c R)) (columns L).

(** ** Example data

    A small dataset: four orders (one not delivered, one with an unreadable
    delivery date), two of them reviewed, one of them twice; item lines
    from two sellers; one customer whose zip code has no coordinates. *)

Definition table (cols : list string) (cells : list (list cell)) : frame :=
  Frame cols (map (λ vs, mk_row (zip cols vs)) cells).

Definition ex_orders : frame :=
  table ["order_id"; "customer_id"; "order_status"; "order_purchase_timestamp";
         "order_delivered_customer_date"; "order_estimated_delivery_date"]
    [[Str "o1"; Str "c1"; Str "delivered"; Str "2018-01-01 00:00:00";
      Str "2018-01-03 12:00:00"; Str "2018-01-05 00:00:00"];
     [Str "o2"; Str "c1"; Str "delivered"; Str "2018-01-01 00:00:00";
      Str "2018-01-09 00:00:00"; Str "2018-01-05 00:00:00"];
     [Str "o3"; Str "c1"; Str "shipped"; Str "2018-01-01 00:00:00";
      NA; Str "2018-01-05 00:00:00"];
     [Str "o4"; Str "c2"; Str "delivered"; Str "2018-01-01 00:00:00";
      Str "not a date"; Str "2018-01-05 00:00:00"]].

Definition ex_reviews : frame :=
  table ["review_id"; "order_id"; "review_score"]
    [[Str "r1"; Str "o1"; Int 5];
     [Str "r2"; Str "o2"; Int 1];
     [Str "r3"; Str "o2"; Int 3];
     [Str "r4"; Str "o4"; Int 7]].

Definition ex_items : frame :=
  table ["order_id"; "seller_id"; "price"; "freight_value"]
    [[Str "o1"; Str "s1"; Num 10; Num (1 # 2)];
     [Str "o1"; Str "s2"; Num 5; Num (1 # 2)];
     [Str "o2"; Str "s1"; Num 3; Num 1];
     [Str "o4"; Str "s1"; Num 3; Num 1]].

Definition ex_customers : frame :=
  table ["customer_id"; "customer_zip_code_prefix"]
    [[Str "c1"; Int 100]; [Str "c2"; Int 999]].

Definition ex_sellers : frame :=
  table ["seller_id"; "seller_zip_code_prefix"]
    [[Str "s1"; Int 200]; [Str "s2"; Int 300]].

Definition ex_geolocation : frame :=
  table ["geolocation_zip_code_prefix"; "geolocation_lat"; "geolocation_lng"]
    [[Int 100; Num 0; Num 0]; [Int 100; Num 2; Num 0];
     [Int 200; Num 1; Num 1]; [Int 300; Num 3; Num 0]].

Definition ex_heap : heap :=
  [ex_orders; ex_reviews; ex_items; ex_customers; ex_sellers; ex_geolocation].

Definition ex_self : Order :=
  {| data := list_to_map [("orders", 0%nat); ("order_reviews", 1%nat);
                          ("order_items", 2%nat); ("customers", 3%nat);
                          ("sellers", 4%nat); ("geolocation", 5%nat)] |}.

Definition value (r : result frame) : frame :=
  match r with Ok t => t | Err _ => Frame [] [] end.

(** The cells of a table as a list of rows, for display. *)
Definition grid (t : frame) : list (list cell) :=
  map (λ r, map (cell_at r) (columns t)) (rows t).

Definition ex_wait : frame :=
  value (outcome (get_wait_time iso_datetime ex_self true) ex_heap).
Definition ex_review : frame :=
  value (outcome (get_review_score ex_self) ex_heap).
Definition ex_number_items : frame :=
  value (outcome (get_number_items ex_self) ex_heap).
Definition ex_number_sellers : frame :=
  value (outcome (get_number_sellers ex_self) ex_heap).
Definition ex_lines : frame :=
  value (outcome (distance_lines grid_km ex_self) ex_heap).
Definition ex_distance : frame :=
  value (outcome (get_distance_seller_customer grid_km ex_self) ex_heap).
Definition ex_features : frame :=
  value (outcome (merge_features iso_datetime grid_km ex_self true false) ex_heap).
Definition ex_training : frame :=
  value (outcome (get_training_data iso_datetime grid_km ex_self true false) ex_heap).
Definition ex_training_distance : frame :=
  value (outcome (get_training_data iso_datetime grid_km ex_self true true) ex_heap).

(** A store with one order, for running a method twice. *)
Definition one_heap : heap :=
  [table ["order_id"; "order_status"; "order_purchase_timestamp";
          "order_delivered_customer_date"; "order_estimated_delivery_date"]
     [[Str "o1"; Str "delivered"; Str "2018-01-01 00:00:00";
       Str "2018-01-03 12:00:00"; Str "2018-01-05 00:00:00"]];
   table ["order_id"; "review_score"] [[Str "o1"; Int 4]];
   table ["order_id"; "seller_id"; "price"; "freight_value"]
     [[Str "o1"; Str "s1"; Num 10; Num 2]]].

Definition one_orders : frame := default (Frame [] []) (one_heap !! 0%nat).

Definition one_self : Order :=
  {| data := list_to_map [("orders", 0%nat); ("order_reviews", 1%nat);
                          ("order_items", 2%nat)] |}.

(** The reference and the heap a successful run returns. *)
Definition run_loc (r : result (loc * heap)) : loc :=
  match r with Ok (l, _) => l | Err _ => 0%nat end.
Definition run_heap (r : result (loc * heap)) : heap :=
  match r with Ok (_, h) => h | Err _ => [] end.
Definition is_ok {A} (r : result A) : bool :=
  match r with Ok _ => true | Err _ => false end.

Definition one_heap_after : heap :=
  run_heap (get_training_data iso_datetime grid_km one_self true false one_heap).
Definition one_loc : loc :=
  run_loc (get_training_data iso_datetime grid_km one_self true false one_heap).

Definition ex_order_row : row := default ∅ (kept_orders true ex_orders !! 0%nat).
Definition ex_item_row : row := default ∅ (rows ex_items !! 0%nat).
Definition ex_wait_row : row := default ∅ (rows ex_wait !! 1%nat).
Definition ex_review_row : row := default ∅ (rows ex_review !! 0%nat).

(** A store with one delivered order whose three timestamps are given. *)
Definition order_heap (purchase delivered estimated : cell) : heap :=
  [table ["order_id"; "order_status"; "order_purchase_timestamp";
          "order_delivered_customer_date"; "order_estimated_delivery_date"]
     [[Str "o1"; Str "delivered"; purchase; delivered; estimated]];
   table ["order_id"; "review_score"] [[Str "o1"; Int 4]];
   table ["order_id"; "seller_id"; "price"; "freight_value"]
     [[Str "o1"; Str "s1"; Num 10; Num 2]]].

(** An order delivered eight hours after the purchase. *)
Definition third_heap : heap :=
  order_heap (Str "2018-01-01 00:00:00") (Str "2018-01-01 08:00:00")
             (Str "2018-01-05 00:00:00").

(** An order whose purchase timestamp carries a UTC offset, and whose other
    timestamps carry none. *)
Definition offset_heap : heap :=
  order_heap (Str "2018-01-01 00:00:00+00:00") (Str "2018-01-03 12:00:00")
             (Str "2018-01-05 00:00:00").

(** An order whose purchase timestamp is the text "now", and two readings
    of the clock a day apart: 2018-01-02 and 2018-01-03, at midnight. *)
Definition now_heap : heap :=
  order_heap (Str "now") (Str "2018-01-03 12:00:00") (Str "2018-01-05 00:00:00").

Definition first_run : nat → series → cell → option (Z * option Z) :=
  clock_datetime (λ _, 1514851200000000000%Z).
Definition second_run : nat → series → cell → option (Z * option Z) :=
  clock_datetime (λ _, 1514937600000000000%Z).

Definition now_heap_after : heap :=
  run_heap (get_training_data first_run grid_km one_self true false now_heap).

(** ** The class [Olist] and the constructor of [Order]

    [Olist.get_data] lists the data directory, keeps the paths whose suffix
    is ".csv", derives a key from each file name and reads each file into
    a DataFrame; [Order.__init__] stores the dictionary.  (The class body
    defines [get_data] twice; the second definition, modelled here, is the
    one in effect.)  A path is
    modelled by its file name.  The listing of the directory (which is
    taken to exist), pathlib's [suffix] and [pd.read_csv] are parameters. *)

(** [s.replace(old, new)] for a non-empty [old]: the occurrences of [old]
    are replaced from left to right, without overlap.  [skip] counts the
    characters of a replaced occurrence that are still to be passed. *)
Fixpoint replace_from (old new : string) (skip : nat) (s : string) : string :=
  match s with
  | EmptyString => EmptyString
  | String a s' =>
      match skip with
      | S k => replace_from old new k s'
      | O => if String.prefix old s
             then new +:+ replace_from old new (String.length old - 1) s'
             else String a (replace_from old new 0 s')
      end
  end.

Definition replace (old new s : string) : string := replace_from old new 0 s.

Definition key_name (n : string) : string :=
  replace "olist_" "" (replace "_dataset" "" (replace ".csv" "" n)).

(** The dict comprehension: a later file replaces an earlier one that has
    the same key. *)
Fixpoint read_all (read_csv : string → result frame) (kps : list (string * string))
    (acc : gmap string loc) : M (gmap string loc) :=
  match kps with
  | [] => mret acc
  | (k, p) :: kps' =>
      f ← lift (read_csv p);
      l ← alloc f;
      read_all read_csv kps' (<[k := l]> acc)
  end.

Section olist.

Variable listing : list string.
Variable suffix : string → string.
Variable read_csv : string → result frame.

Definition file_paths : list string :=
  List.filter (λ p, String.eqb (suffix p) ".csv") listing.

Definition key_names : list string := map key_name file_paths.

Definition get_data : M (gmap string loc) :=
  read_all read_csv (zip key_names file_paths) ∅.

Definition __init__ : M Order :=
  d ← get_data; mret {| data := d |}.

(** The last of the listed csv files whose key is [k]. *)
Definition file_of (k : string) : option string :=
  last (List.filter (λ p, bool_decide (key_name p = k)) file_paths).

End olist.

(** [old in s]: [old] occurs in [s] as a substring. *)
Fixpoint occurs (old s : string) : bool :=
  String.prefix old s
  || match s with
     | EmptyString => false
     | String _ s' => occurs old s'
     end.

(** ** More example data *)

Definition ex_price : frame :=
  value (outcome (get_price_and_freight ex_self) ex_heap).

Definition ex_price_row : row := default ∅ (rows ex_price !! 0%nat).
Definition ex_training_row : row := default ∅ (rows ex_training !! 0%nat).
Definition ex_distance_row : row := default ∅ (rows ex_training_distance !! 0%nat).

(** An orders table without the timestamp columns. *)
Definition short_orders : frame :=
  table ["order_id"; "order_status"] [[Str "o1"; Str "delivered"]].

Definition short_heap : heap := [short_orders].

Definition short_self : Order :=
  {| data := list_to_map [("orders", 0%nat)] |}.

(** pathlib's [suffix] of a file name: the name from its last dot on,
    unless the name starts or ends with this dot. *)
Fixpoint rfind_dot (s : string) : option nat :=
  match s with
  | EmptyString => None
  | String a s' =>
      match rfind_dot s' with
      | Some i => Some (S i)
      | None => if Ascii.eqb a "." then Some 0%nat else None
      end
  end.

Definition path_suffix (name : string) : string :=
  match rfind_dot name with
  | Some i => if (0 <? i)%nat && (i <? String.length name - 1)%nat
              then String.substring i (String.length name - i) name
              else ""
  | None => ""
  end.

(** A data directory: two Olist files, a file that is no csv file, and a
    second file whose key is "orders"; [empty.csv] cannot be parsed. *)
Definition ex_listing : list string :=
  ["olist_orders_dataset.csv"; "README.md"; "olist_order_reviews_dataset.csv";
   "orders.csv"].

Definition ex_read_csv (p : string) : result frame :=
  if decide (p = "olist_orders_dataset.csv") then Ok ex_orders
  else if decide (p = "olist_order_reviews_dataset.csv") then Ok ex_reviews
  else if decide (p = "orders.csv") then Ok short_orders
  else Err ValueError.

(** The instance and the heap a successful [Order()] returns. *)
Definition new_self (r : result (Order * heap)) : Order :=
  match r with Ok (s, _) => s | Err _ => {| data := ∅ |} end.
Definition new_heap (r : result (Order * heap)) : heap :=
  match r with Ok (_, h) => h | Err _ => [] end.

Definition ex_new_self : Order :=
  new_self (__init__ ex_listing path_suffix ex_read_csv []).
Definition ex_new_heap : heap :=
  new_heap (__init__ ex_listing path_suffix ex_read_csv []).

(** * Proofs *)

(** ** The calculus *)

Lemma wp_bind {A B} (m : M A) (k : A → M B) h Q E :
  wp m h (λ a h', wp (k a) h' Q E) E → wp (m ≫= k) h Q E.
Proof.
  unfold wp, mbind, M_bind. destruct (m h) as [[a h']|e]; auto.
Qed.

Lemma wp_ret {A} (a : A) h (Q : A → heap → Prop) E : Q a h → wp (mret a) h Q E.
Proof. auto. Qed.

Lemma wp_lift {A} (r : result A) h (Q : A → heap → Prop) E :
  match r with Ok a => Q a h | Err e => E e end → wp (lift r) h Q E.
Proof. unfold wp, lift. destruct r; auto. Qed.

Lemma wp_alloc f h L (Q : loc → heap → Prop) E :
  Q (length h + length L)%nat (h ++ (L ++ [f])) → wp (alloc f) (h ++ L) Q E.
Proof. unfold wp, alloc. by rewrite length_app, app_assoc. Qed.

Lemma wp_load l f H (Q : frame → heap → Prop) E :
  H !! l = Some f → Q f H → wp (load l) H Q E.
Proof. unfold wp, load. by intros ->. Qed.

Lemma wp_store i f g h L (Q : unit → heap → Prop) E :
  L !! i = Some f → Q () (h ++ <[i := g]> L) →
  wp (store (length h + i) g) (h ++ L) Q E.
Proof.
  intros HL HQ. unfold wp, store.
  rewrite lookup_app_r by lia.
  replace (length h + i - length h)%nat with i by lia.
  rewrite HL. by rewrite insert_app_r.
Qed.

Lemma wp_start {A} (m : M A) h Q E : wp m (h ++ []) Q E → wp m h Q E.
Proof. by rewrite app_nil_r. Qed.

Lemma wp_tail {A} (m : M A) h Q E : wp (m ≫= mret) h Q E → wp m h Q E.
Proof.
  unfold wp, mbind, M_bind, mret, M_ret. destruct (m h) as [[a h']|e]; auto.
Qed.

Lemma lookup_suffix {A} (h L : list A) i x :
  L !! i = Some x → (h ++ L) !! (length h + i)%nat = Some x.
Proof.
  intros. rewrite lookup_app_r by lia.
  by replace (length h + i - length h)%nat with i by lia.
Qed.

(** Calling a method whose result is known. *)
Lemma wp_call {B} (m : M loc) (k : loc → M B) H r Q E :
  computes m H r →
  match r with
  | Ok f => ∀ l h', H `prefix_of` h' → h' !! l = Some f → wp (k l) (h' ++ []) Q E
  | Err e => E e
  end →
  wp (m ≫= k) H Q E.
Proof.
  unfold computes, wp, mbind, M_bind. destruct (m H) as [[l h']|e].
  - intros (Hp & f & -> & Hl) Hk. specialize (Hk l h' Hp Hl).
    by rewrite app_nil_r in Hk.
  - by intros ->.
Qed.

Lemma computes_intro (m : M loc) h r :
  wp m (h ++ [])
     (λ l h', h `prefix_of` h' ∧ ∃ f, r = Ok f ∧ h' !! l = Some f)
     (λ e, r = Err e) →
  computes m h r.
Proof. unfold computes. by rewrite app_nil_r. Qed.

Lemma prefix_base {A} (h H L : list A) : h `prefix_of` H → h `prefix_of` H ++ L.
Proof. intros. by apply prefix_app_r. Qed.

Lemma lookup_base {A} (H L : list A) l x :
  H !! l = Some x → (H ++ L) !! l = Some x.
Proof. apply lookup_app_l_Some. Qed.

Lemma lookup_prefix {A} (H H' : list A) l x :
  H `prefix_of` H' → H !! l = Some x → H' !! l = Some x.
Proof. intros. by eapply prefix_lookup_Some. Qed.

(** Looking up a reference: in the objects allocated since the base
    heap, in the base heap, or in a heap the base heap extends. *)
Ltac heap_lookup_here :=
  first [ eassumption
        | apply lookup_suffix; reflexivity
        | apply lookup_base; eassumption ].

Ltac heap_lookup :=
  first [ heap_lookup_here
        | apply lookup_base;
          match goal with
          | Hp : ?X `prefix_of` ?H |- ?H !! _ = Some _ =>
              apply (lookup_prefix X H _ _ Hp); heap_lookup_here
          end ].

Ltac prefix_solve :=
  first [ reflexivity | assumption
        | apply prefix_base; first [reflexivity | assumption] ].

Lemma wp_dict d name H (Q : loc → heap → Prop) E :
  match d !! name with Some l => Q l H | None => E (KeyError name) end →
  wp (dict_getitem d name) H Q E.
Proof. unfold wp, dict_getitem, lift. by destruct (d !! name). Qed.

Lemma valid_lookup self h name l :
  valid self h → data self !! name = Some l → ∃ f, h !! l = Some f.
Proof. intros Hv Hd. apply lookup_lt_is_Some_2. eauto. Qed.

Ltac wp_pure :=
  cbn [mbind result_bind mret result_ret for_each length app Nat.add].

Ltac is_call m :=
  lazymatch m with
  | get_wait_time _ _ _ => idtac
  | get_review_score _ => idtac
  | get_number_items _ => idtac
  | get_number_sellers _ => idtac
  | get_price_and_freight _ => idtac
  | distance_lines _ _ => idtac
  | get_distance_seller_customer _ _ => idtac
  | merge_features _ _ _ _ _ => idtac
  end.

Ltac wp_step :=
  lazymatch goal with
  | |- wp (mbind _ ?m) _ _ _ => tryif is_call m then fail else apply wp_bind
  | |- wp (mret _) _ _ _ => apply wp_ret
  | |- wp (lift ?r) _ _ _ =>
      apply wp_lift; destruct r eqn:?; wp_pure
  | |- wp (alloc _) _ _ _ => apply wp_alloc; wp_pure
  | |- wp (load _) _ _ _ => eapply wp_load; [heap_lookup|]
  | |- wp (store _ _) _ _ _ =>
      eapply wp_store; [reflexivity|]; cbn [insert list_insert]
  | |- wp (df_copy _) _ _ _ => unfold df_copy
  | |- wp (df_getitem_col _ _) _ _ _ => unfold df_getitem_col
  | |- wp (df_getitem_cols _ _) _ _ _ => unfold df_getitem_cols
  | |- wp (df_getitem_mask _ _) _ _ _ => unfold df_getitem_mask
  | |- wp (df_setitem _ _ _) _ _ _ => unfold df_setitem
  | |- wp (df_rename _ _) _ _ _ => unfold df_rename
  | |- wp (df_merge _ _ _) _ _ _ => unfold df_merge
  | |- wp (df_groupby _ _ _ _) _ _ _ => unfold df_groupby
  | |- wp (df_dropna _) _ _ _ => unfold df_dropna
  | |- wp (df_apply _ _) _ _ _ => unfold df_apply
  | |- wp (for_each _ _) _ _ _ => wp_pure
  | Hv : valid ?self ?h |- wp (dict_getitem (data ?self) ?name) _ _ _ =>
      apply wp_dict;
      let l := fresh "l" in let Hd := fresh "Hd" in
      destruct (data self !! name) as [l|] eqn:Hd;
      [ let f := fresh "f" in let Hf := fresh "Hf" in
        destruct (valid_lookup self h name l Hv Hd) as [f Hf];
        rewrite ?Hf | ]; wp_pure
  | |- _ `prefix_of` _ ∧ _ =>
      split; [prefix_solve | eexists; split; [reflexivity | heap_lookup]]
  | |- @eq (result _) _ _ => reflexivity
  end.


(** ** The methods compute their tables *)

Section refinement.

Variable parse_datetime : nat → series → cell → option (Z * option Z).
Variable great_circle_km : Q → Q → Q → Q → Q.
Variable self : Order.

Lemma get_wait_time_computes h is_delivered :
  valid self h →
  computes (get_wait_time parse_datetime self is_delivered) h
           (wait_time_of parse_datetime self h is_delivered).
Proof.
  intros Hv. apply computes_intro.
  unfold get_wait_time, wait_time_of, dataset, wait_time_table,
    parse_column, elapsed_column, delay_column.
  destruct is_delivered; repeat wp_step.
Qed.

Lemma get_review_score_computes h :
  valid self h → computes (get_review_score self) h (review_of self h).
Proof.
  intros Hv. apply computes_intro.
  unfold get_review_score, review_of, dataset, review_table, flag_column.
  repeat wp_step.
Qed.

Lemma get_number_items_computes h :
  valid self h → computes (get_number_items self) h (items_of self h).
Proof.
  intros Hv. apply computes_intro.
  unfold get_number_items, items_of, dataset, items_table.
  repeat wp_step.
Qed.

Lemma get_number_sellers_computes h :
  valid self h → computes (get_number_sellers self) h (sellers_of self h).
Proof.
  intros Hv. apply computes_intro.
  unfold get_number_sellers, sellers_of, dataset, sellers_table.
  repeat wp_step.
Qed.

Lemma get_price_and_freight_computes h :
  valid self h → computes (get_price_and_freight self) h (price_of self h).
Proof.
  intros Hv. apply computes_intro.
  unfold get_price_and_freight, price_of, dataset, price_table.
  repeat wp_step.
Qed.

Lemma distance_lines_computes h :
  valid self h →
  computes (distance_lines great_circle_km self) h
           (lines_of great_circle_km self h).
Proof.
  intros Hv. apply computes_intro.
  unfold distance_lines, lines_of, dataset, lines_table.
  repeat wp_step.
Qed.


Lemma valid_ext h h' : valid self h → h `prefix_of` h' → valid self h'.
Proof.
  intros Hv Hp name l Hd. specialize (Hv name l Hd). cbn beta in *.
  apply prefix_length in Hp. lia.
Qed.

Lemma dataset_ext h h' name :
  valid self h → h `prefix_of` h' → dataset self h' name = dataset self h name.
Proof.
  intros Hv Hp. unfold dataset. destruct (data self !! name) as [l|] eqn:Hd; [|done].
  destruct (valid_lookup self h name l Hv Hd) as [f Hf].
  by rewrite Hf, (lookup_prefix h h' l f Hp Hf).
Qed.

Lemma wait_time_of_ext h h' d :
  valid self h → h `prefix_of` h' →
  wait_time_of parse_datetime self h' d = wait_time_of parse_datetime self h d.
Proof. intros. unfold wait_time_of. by rewrite (dataset_ext h h'). Qed.

Lemma review_of_ext h h' :
  valid self h → h `prefix_of` h' → review_of self h' = review_of self h.
Proof. intros. unfold review_of. by rewrite (dataset_ext h h'). Qed.

Lemma items_of_ext h h' :
  valid self h → h `prefix_of` h' → items_of self h' = items_of self h.
Proof. intros. unfold items_of. by rewrite (dataset_ext h h'). Qed.

Lemma sellers_of_ext h h' :
  valid self h → h `prefix_of` h' → sellers_of self h' = sellers_of self h.
Proof. intros. unfold sellers_of. by rewrite (dataset_ext h h'). Qed.

Lemma price_of_ext h h' :
  valid self h → h `prefix_of` h' → price_of self h' = price_of self h.
Proof. intros. unfold price_of. by rewrite (dataset_ext h h'). Qed.

Lemma lines_of_ext h h' :
  valid self h → h `prefix_of` h' →
  lines_of great_circle_km self h' = lines_of great_circle_km self h.
Proof. intros. unfold lines_of. by rewrite !(dataset_ext h h'). Qed.

Lemma distance_of_ext h h' :
  valid self h → h `prefix_of` h' →
  distance_of great_circle_km self h' = distance_of great_circle_km self h.
Proof. intros. unfold distance_of. by rewrite (lines_of_ext h h'). Qed.

(** A call of a method whose table is known: the table is named, the
    heap the call leaves becomes the new base. *)
Ltac wp_call_with lem ext h :=
  eapply wp_call;
  [ apply lem; eapply valid_ext; [eassumption | prefix_solve]
  | rewrite (ext h) by (first [assumption | prefix_solve]);
    match goal with
    | |- match ?r with _ => _ end =>
        destruct r eqn:?;
        [ let Hp := fresh "Hp" in
          let Hb := fresh "Hb" in
          intros ? ? Hp ?; rewrite ?app_nil_r in Hp;
          first [ assert (Hb := prefix_app_l _ _ _ Hp) | assert (Hb := Hp) ];
          try match goal with
              | H0 : h `prefix_of` ?X, H1 : ?X `prefix_of` ?Y |- _ =>
                  lazymatch goal with
                  | _ : h `prefix_of` Y |- _ => fail
                  | _ => assert (h `prefix_of` Y) by (by etransitivity)
                  end
              end
        | ]; wp_pure
    end ].

Lemma get_distance_seller_customer_computes h :
  valid self h →
  computes (get_distance_seller_customer great_circle_km self) h
           (distance_of great_circle_km self h).
Proof.
  intros Hv. apply computes_intro.
  unfold get_distance_seller_customer, distance_of, distance_table.
  wp_call_with distance_lines_computes lines_of_ext h.
  all: repeat wp_step.
Qed.

Lemma merge_features_computes h d w :
  valid self h →
  computes (merge_features parse_datetime great_circle_km self d w) h
           (features_of parse_datetime great_circle_km self h d w).
Proof.
  intros Hv. apply computes_intro. unfold merge_features, features_of.
  wp_call_with get_wait_time_computes wait_time_of_ext h; [|done].
  wp_call_with get_review_score_computes review_of_ext h; [|done].
  repeat wp_step.
  wp_call_with get_number_items_computes items_of_ext h; [|done].
  repeat wp_step.
  wp_call_with get_number_sellers_computes sellers_of_ext h; [|done].
  repeat wp_step.
  wp_call_with get_price_and_freight_computes price_of_ext h; [|done].
  repeat wp_step.
  destruct w.
  - wp_call_with get_distance_seller_customer_computes distance_of_ext h; [|done].
    repeat wp_step.
  - repeat wp_step.
Qed.

Lemma features_of_ext h h' d w :
  valid self h → h `prefix_of` h' →
  features_of parse_datetime great_circle_km self h' d w
  = features_of parse_datetime great_circle_km self h d w.
Proof.
  intros. unfold features_of.
  by rewrite (wait_time_of_ext h h'), (review_of_ext h h'), (items_of_ext h h'),
    (sellers_of_ext h h'), (price_of_ext h h'), (distance_of_ext h h').
Qed.

Lemma get_training_data_computes h d w :
  valid self h →
  computes (get_training_data parse_datetime great_circle_km self d w) h
           (training_of parse_datetime great_circle_km self h d w).
Proof.
  intros Hv. apply computes_intro. unfold get_training_data, training_of.
  wp_call_with merge_features_computes features_of_ext h; [|done].
  repeat wp_step.
Qed.

End refinement.

Lemma computes_outcome m h r : computes m h r → outcome m h = r.
Proof.
  unfold computes, wp, outcome. destruct (m h) as [[l h']|e].
  - by intros (_ & f & -> & ->).
  - done.
Qed.

(** ** Rows *)

Lemma cell_at_insert (r : row) c v c' :
  cell_at (<[c := v]> r) c' = if decide (c = c') then v else cell_at r c'.
Proof. unfold cell_at. rewrite lookup_insert. by case_decide. Qed.

Lemma cell_at_mk_row_cons c v l c' :
  cell_at (mk_row ((c, v) :: l)) c' = if decide (c = c') then v else cell_at (mk_row l) c'.
Proof. unfold mk_row. simpl. apply cell_at_insert. Qed.

Lemma cell_at_project cols r c :
  c ∈ cols → cell_at (project cols r) c = cell_at r c.
Proof.
  unfold project. induction cols as [|c' cols IH]; intros Hin.
  - by apply elem_of_nil in Hin.
  - cbn [map]. rewrite cell_at_mk_row_cons. case_decide; [by subst|].
    apply IH. apply elem_of_cons in Hin as [?|?]; congruence.
Qed.

Lemma missing_col_None cols f c :
  missing_col cols f = None → c ∈ cols → c ∈ columns f.
Proof.
  unfold missing_col. intros H Hin.
  apply list_elem_of_In in Hin. apply (find_none _ _ H c) in Hin.
  apply negb_false_iff, bool_decide_eq_true in Hin. done.
Qed.

Lemma getitem_cols_Ok cols f t :
  getitem_cols cols f = Ok t →
  t = Frame cols (map (project cols) (rows f)) ∧ ∀ c, c ∈ cols → c ∈ columns f.
Proof.
  unfold getitem_cols. destruct (missing_col cols f) eqn:Hm; [done|].
  intros [= <-]. split; [done|]. intros c. by apply missing_col_None.
Qed.

(** ** The training table *)

Lemma row_complete_spec cols r c :
  row_complete cols r = true → c ∈ cols → cell_at r c ≠ NA.
Proof.
  unfold row_complete. rewrite forallb_forall. intros H Hin Hna.
  apply list_elem_of_In, H in Hin. by rewrite Hna in Hin.
Qed.

Lemma select_dropna_null_free cols f t :
  getitem_cols cols (dropna f) = Ok t → null_free t.
Proof.
  intros [-> Hsub]%getitem_cols_Ok. unfold null_free, cells. cbn [columns rows].
  apply Forall_forall. intros v Hv.
  apply list_elem_of_In, in_flat_map in Hv as (r' & Hr' & Hv).
  apply in_map_iff in Hv as (c & <- & Hc).
  apply in_map_iff in Hr' as (r & <- & Hr).
  apply list_elem_of_In in Hc.
  rewrite cell_at_project by done.
  unfold dropna in Hr. cbn [rows] in Hr. apply filter_In in Hr as [_ Hr].
  apply (row_complete_spec _ _ _ Hr). by apply Hsub.
Qed.

Section training.

Variable parse_datetime : nat → series → cell → option (Z * option Z).
Variable great_circle_km : Q → Q → Q → Q → Q.

Lemma training_outcome self h d w :
  valid self h →
  outcome (get_training_data parse_datetime great_circle_km self d w) h
  = training_of parse_datetime great_circle_km self h d w.
Proof. intros. by apply computes_outcome, get_training_data_computes. Qed.

(** C1: whatever the datasets and the two flags, the table returned by
    [get_training_data] has no null cell: the rows with a null in any column
    are dropped after the joins. *)
Theorem training_data_null_free self h d w t :
  valid self h →
  outcome (get_training_data parse_datetime great_circle_km self d w) h = Ok t →
  null_free t.
Proof.
  intros Hv. rewrite training_outcome by done. unfold training_of.
  destruct (features_of _ _ _ _ _ _) as [df|e]; [|done].
  apply select_dropna_null_free.
Qed.

(** C7: the columns of the training table are, in this order, the twelve
    fixed ones, followed by [distance_seller_customer] exactly when the
    flag [with_distance_seller_customer] is set. *)
Theorem training_data_columns self h d w t :
  valid self h →
  outcome (get_training_data parse_datetime great_circle_km self d w) h = Ok t →
  columns t =
    ["order_id"; "wait_time"; "expected_wait_time"; "delay_vs_expected";
     "order_status"; "dim_is_five_star"; "dim_is_one_star"; "review_score";
     "number_of_items"; "number_of_sellers"; "price"; "freight_value"]
    ++ (if w then ["distance_seller_customer"] else [])
  ∧ ("distance_seller_customer" ∈ columns t ↔ w = true).
Proof.
  intros Hv. rewrite training_outcome by done. unfold training_of.
  destruct (features_of _ _ _ _ _ _) as [df|e]; [|done].
  intros [-> _]%getitem_cols_Ok. cbn [columns]. split; [done|].
  destruct w; cbn [app];
    match goal with
    | |- ?P ↔ _ => destruct (decide P) as [Hin|Hin] eqn:Hdec;
                   vm_compute in Hdec; try discriminate Hdec
    end.
  - done.
  - split; [done|discriminate].
Qed.

End training.

Section idempotence.

Variable parse_datetime : nat → series → cell → option (Z * option Z).
Variable great_circle_km : Q → Q → Q → Q → Q.

Lemma training_of_ext self h h' d w :
  valid self h → h `prefix_of` h' →
  training_of parse_datetime great_circle_km self h' d w
  = training_of parse_datetime great_circle_km self h d w.
Proof. intros. unfold training_of. by rewrite (features_of_ext _ _ _ h h'). Qed.

End idempotence.

(** ** Row-wise frames *)

Lemma cell_at_insert_eq (r : row) c v : cell_at (<[c := v]> r) c = v.
Proof. rewrite cell_at_insert. by rewrite decide_True. Qed.

Lemma cell_at_insert_ne (r : row) c v c' :
  c ≠ c' → cell_at (<[c := v]> r) c' = cell_at r c'.
Proof. intros. rewrite cell_at_insert. by rewrite decide_False. Qed.

Lemma cell_at_mk_row_eq c v l : cell_at (mk_row ((c, v) :: l)) c = v.
Proof. apply cell_at_insert_eq. Qed.

Lemma cell_at_mk_row_ne c v l c' :
  c ≠ c' → cell_at (mk_row ((c, v) :: l)) c' = cell_at (mk_row l) c'.
Proof. apply cell_at_insert_ne. Qed.

Lemma cell_at_mk_row_nil c : cell_at (mk_row []) c = NA.
Proof. done. Qed.

Ltac in_cols := by (apply (bool_decide_unpack _); vm_compute).
Ltac str_neq := congruence.
Ltac cell_norm :=
  repeat first
    [ rewrite cell_at_insert_eq
    | rewrite cell_at_insert_ne by str_neq
    | rewrite cell_at_mk_row_eq
    | rewrite cell_at_mk_row_ne by str_neq
    | rewrite cell_at_project by in_cols ].

Section rowwise.

Context {A : Type} (F : A → row) (rs : list A).

Lemma getitem_col_Frame c cols :
  c ∈ cols → getitem_col c (Frame cols (map F rs)) = Ok (map (λ x, cell_at (F x) c) rs).
Proof.
  intros Hin. unfold getitem_col, has_col. cbn [columns rows].
  by rewrite bool_decide_eq_true_2, map_map.
Qed.

Lemma zip_with_map_map {B C} (f : row → B → C) (g : A → B) :
  zip_with f (map F rs) (map g rs) = map (λ x, f (F x) (g x)) rs.
Proof. induction rs; cbn; congruence. Qed.

Lemma setitem_map c (g : A → cell) cols cols' :
  (if bool_decide (c ∈ cols) then cols else cols ++ [c]) = cols' →
  setitem c (map g rs) (Frame cols (map F rs))
  = Ok (Frame cols' (map (λ x, <[c := g x]> (F x)) rs)).
Proof.
  intros <-. unfold setitem, has_col. cbn [columns rows].
  rewrite decide_True by (by rewrite !length_map). by rewrite zip_with_map_map.
Qed.

End rowwise.

Lemma getitem_cols_Frame cols cols' rs :
  forallb (λ c, bool_decide (c ∈ cols')) cols = true →
  getitem_cols cols (Frame cols' rs) = Ok (Frame cols (map (project cols) rs)).
Proof.
  intros H. unfold getitem_cols.
  destruct (missing_col _ _) as [c|] eqn:Hm; [|done].
  unfold missing_col in Hm. apply find_some in Hm as [Hin Hc].
  rewrite forallb_forall in H. apply H in Hin.
  unfold has_col in Hc. cbn [columns] in Hc. by rewrite Hin in Hc.
Qed.

Ltac rbind := cbn [mbind result_bind mret result_ret].

Lemma review_table_closed reviews :
  review_table reviews =
  match missing_col ["order_id"; "review_score"] reviews with
  | Some _ => Err (KeyErrorOf (missing_cols ["order_id"; "review_score"] reviews))
  | None => Ok (Frame ["order_id"; "dim_is_five_star"; "dim_is_one_star";
                       "review_score"]
                      (map review_row (rows reviews)))
  end.
Proof.
  unfold review_table.
  destruct (getitem_cols _ reviews) as [df|e] eqn:Hdf; unfold getitem_cols in Hdf;
    destruct (missing_col _ reviews); try discriminate Hdf; rbind; [|congruence].
  injection Hdf as <-.
  unfold flag_column.
  rewrite getitem_col_Frame by in_cols. rbind.
  unfold astype_int, eq_scalar. rewrite ?map_map.
  erewrite setitem_map by (vm_compute; reflexivity). rbind.
  rewrite getitem_col_Frame by in_cols. rbind.
  rewrite ?map_map.
  erewrite setitem_map by (vm_compute; reflexivity). rbind.
  rewrite ?map_map.
  rewrite getitem_cols_Frame by (vm_compute; reflexivity).
  rewrite ?map_map.
  reflexivity.
Qed.

(** ** Keys *)

Lemma Qred_inject_Z z : Qred (inject_Z z) = inject_Z z.
Proof.
  unfold Qred, inject_Z.
  pose proof (Z.ggcd_gcd z 1) as Hg.
  pose proof (Z.ggcd_correct_divisors z 1) as Hd.
  destruct (Z.ggcd z 1) as [g [a b]]. cbn in *.
  rewrite Z.gcd_1_r in Hg. subst g. destruct Hd as [-> Hb].
  rewrite !Z.mul_1_l in *. by rewrite <- Hb.
Qed.

Lemma canon_Int_iff c k : canon c = Int k ↔ has_value c k.
Proof.
  unfold has_value. destruct c as [| |z|q| | |]; cbn.
  - split; [done|]. by intros (? & ? & _).
  - split; [done|]. by intros (? & ? & _).
  - split.
    + intros [= ->]. by eexists.
    + intros (? & [= <-] & Hq). by apply inject_Z_injective in Hq as ->.
  - split.
    + intros H. exists q. split; [done|]. case_decide as Hden; [|done].
      injection H as <-. rewrite <- (Qred_correct q) at 1.
      destruct (Qred q) as [n d]. cbn in *. by subst d.
    + intros (? & [= <-] & Hq). apply Qred_complete in Hq.
      rewrite Qred_inject_Z in Hq. rewrite Hq. cbn. by rewrite decide_True.
  - split; [done|]. by intros (? & ? & _).
  - split; [done|]. by intros (? & ? & _).
  - split; [done|]. by intros (? & ? & _).
Qed.

Lemma flag_cases k c : flag k c = Int 0 ∨ flag k c = Int 1.
Proof. unfold flag. destruct (_ && _); auto. Qed.

Lemma flag_one_iff k c : flag k c = Int 1 ↔ has_value c k.
Proof.
  rewrite <- canon_Int_iff. unfold flag, key_eqb. cbn [canon].
  destruct c; cbn; try (split; [discriminate|discriminate]).
  all: case_bool_decide; split; try done; congruence.
Qed.

(** ** The review features *)

Lemma review_outcome self h :
  valid self h →
  outcome (get_review_score self) h = dataset self h "order_reviews" ≫= review_table.
Proof. intros. by apply computes_outcome, get_review_score_computes. Qed.

Lemma review_rows self h t :
  valid self h → outcome (get_review_score self) h = Ok t →
  ∃ reviews, dataset self h "order_reviews" = Ok reviews
             ∧ columns t = ["order_id"; "dim_is_five_star"; "dim_is_one_star";
                            "review_score"]
             ∧ rows t = map review_row (rows reviews).
Proof.
  intros Hv. rewrite review_outcome by done.
  destruct (dataset self h "order_reviews") as [reviews|e]; [|done].
  cbn [mbind result_bind]. rewrite review_table_closed.
  destruct (missing_col _ _); [done|]. intros [= <-]. by exists reviews.
Qed.

(** C5: in every row of the table returned by [get_review_score] the two
    indicators are 0 or 1 and never both 1; [dim_is_five_star] is 1 exactly
    when [review_score] is 5, [dim_is_one_star] is 1 exactly when it is 1;
    a score outside 1 to 5 (or a missing one) gives 0 for both. *)
Theorem review_indicators self h t r :
  valid self h →
  outcome (get_review_score self) h = Ok t →
  r ∈ rows t →
  let score := cell_at r "review_score" in
  let five := cell_at r "dim_is_five_star" in
  let one := cell_at r "dim_is_one_star" in
  (five = Int 0 ∨ five = Int 1)
  ∧ (one = Int 0 ∨ one = Int 1)
  ∧ ¬ (five = Int 1 ∧ one = Int 1)
  ∧ (five = Int 1 ↔ has_value score 5)
  ∧ (one = Int 1 ↔ has_value score 1)
  ∧ (¬ (∃ q, to_num score = Some q ∧ (1 <= q <= 5)%Q) → five = Int 0 ∧ one = Int 0).
Proof.
  intros Hv Ht Hr.
  destruct (review_rows self h t Hv Ht) as (reviews & _ & _ & Hrows).
  rewrite Hrows in Hr. apply list_elem_of_In, in_map_iff in Hr as (r0 & <- & _).
  change (cell_at (review_row r0) "review_score") with (cell_at r0 "review_score").
  change (cell_at (review_row r0) "dim_is_five_star")
    with (flag 5 (cell_at r0 "review_score")).
  change (cell_at (review_row r0) "dim_is_one_star")
    with (flag 1 (cell_at r0 "review_score")).
  cbn zeta. set (s := cell_at r0 "review_score").
  repeat split; try apply flag_cases; try (by apply flag_one_iff).
  - intros [H5 H1]. apply flag_one_iff in H5 as (q & Hq & H5).
    apply flag_one_iff in H1 as (q' & Hq' & H1).
    rewrite Hq in Hq'. injection Hq' as <-. rewrite H5 in H1. discriminate H1.
  - destruct (flag_cases 5 s) as [?|H5]; [done|]. exfalso. apply H.
    apply flag_one_iff in H5 as (q & Hq & H5). exists q. split; [done|].
    rewrite H5. split; discriminate.
  - destruct (flag_cases 1 s) as [?|H1]; [done|]. exfalso. apply H.
    apply flag_one_iff in H1 as (q & Hq & H1). exists q. split; [done|].
    rewrite H1. split; discriminate.
Qed.

(** ** Series, pointwise *)

Section pointwise.

Context {A : Type} (ks : list A).

Lemma mapR_map {B C} (f : B → result C) (a : A → B) (g : A → C) :
  (∀ x, f (a x) = Ok (g x)) → mapR f (map a ks) = Ok (map g ks).
Proof. intros H. induction ks as [|x l IH]; [done|]. cbn. by rewrite H, IH. Qed.

Lemma sub_cells_map (a b d : A → cell) :
  (∀ x, sub_cell (a x) (b x) = Ok (d x)) →
  sub_cells (map a ks) (map b ks) = Ok (map d ks).
Proof. intros H. induction ks as [|x l IH]; [done|]. cbn. by rewrite H, IH. Qed.

Lemma aware_map_false (a : A → cell) :
  (∀ x, is_aware (a x) = false) → aware (map a ks) = false.
Proof.
  intros H. unfold aware. induction ks as [|x l IH]; [done|]. cbn.
  by rewrite H, IH.
Qed.

Lemma series_sub_map (a b d : A → cell) :
  (∀ x, is_aware (a x) = false) → (∀ x, is_aware (b x) = false) →
  (∀ x, sub_cell (a x) (b x) = Ok (d x)) →
  series_sub (map a ks) (map b ks) = Ok (map d ks).
Proof.
  intros Ha Hb H. unfold series_sub. rewrite !aware_map_false by done.
  by apply sub_cells_map.
Qed.

Lemma choose_map (m : A → bool) (a b : A → cell) :
  choose (map m ks) (map a ks) (map b ks) = map (λ x, if m x then a x else b x) ks.
Proof. induction ks as [|x l IH]; [done|]. cbn. by rewrite IH. Qed.

Lemma replicate_map (v : cell) : replicate (length ks) v = map (λ _, v) ks.
Proof. induction ks as [|x l IH]; [done|]. cbn. by rewrite IH. Qed.

Lemma np_where_array_scalar (m : A → bool) (a : A → cell) v :
  np_where (map m ks) (Array (map a ks)) (Scalar v)
  = Ok (map (λ x, if m x then a x else v) ks).
Proof.
  unfold np_where, broadcast. rewrite !length_map, decide_True by done.
  cbn. by rewrite replicate_map, choose_map.
Qed.

Lemma np_where_scalar_array (m : A → bool) (a : A → cell) v :
  np_where (map m ks) (Scalar v) (Array (map a ks))
  = Ok (map (λ x, if m x then v else a x) ks).
Proof.
  unfold np_where, broadcast. rewrite !length_map, decide_True by done.
  cbn. by rewrite replicate_map, choose_map.
Qed.

Lemma forallb_zip_map {B C} (g : B * C → bool) (a : A → B) (b : A → C) :
  forallb g (zip (map a ks) (map b ks)) = forallb (λ x, g (a x, b x)) ks.
Proof. induction ks as [|x l IH]; [done|]. cbn. by rewrite IH. Qed.

(** The difference of two compatible columns of timestamps: the first
    difference that does not fit is an [OverflowError]. *)
Lemma sub_cells_stamps (a b : A → cell) :
  (∀ x, x ∈ ks → is_stamp (a x) ∧ is_stamp (b x) ∧ compatible (a x) (b x)) →
  sub_cells (map a ks) (map b ks)
  = if forallb (λ x, fits (a x) (b x)) ks
    then Ok (map (λ x, delta (a x) (b x)) ks)
    else Err OverflowError.
Proof.
  induction ks as [|x l IH]; intros H; [done|]. cbn [map sub_cells forallb].
  destruct (H x) as (Ha & Hb & Hc); [apply list_elem_of_here|].
  rewrite IH by (intros y Hy; apply H; by apply list_elem_of_further).
  unfold fits, delta. destruct (a x), (b x); cbn in *; try done;
    try (by destruct (forallb _ l));
    unfold sub_stamp; destruct (in_int64 _); cbn; try done;
    by destruct (forallb _ l).
Qed.

End pointwise.

(** ** Time zones of a column *)

Lemma uniform_agree s c1 c2 z1 z2 :
  uniform s = true → c1 ∈ s → c2 ∈ s →
  zone_of c1 = Some z1 → zone_of c2 = Some z2 → z1 = z2.
Proof.
  unfold uniform. intros Hu H1 H2 Hz1 Hz2.
  assert (z1 ∈ omap zone_of s) as Hi1 by (apply list_elem_of_omap; eauto).
  assert (z2 ∈ omap zone_of s) as Hi2 by (apply list_elem_of_omap; eauto).
  destruct (omap zone_of s) as [|z zs]; [by apply elem_of_nil in Hi1|].
  rewrite forallb_forall in Hu.
  assert (∀ y, y ∈ z :: zs → y = z) as Hall.
  { intros y [->|Hy]%elem_of_cons; [done|].
    apply list_elem_of_In, Hu in Hy. by apply bool_decide_eq_true in Hy. }
  by rewrite (Hall z1 Hi1), (Hall z2 Hi2).
Qed.

Lemma aware_true s : aware s = true ↔ ∃ o t, TimeTz o t ∈ s.
Proof.
  unfold aware. rewrite existsb_exists. split.
  - intros (c & Hc & Ha). destruct c; try done. eexists _, _. by apply list_elem_of_In.
  - intros (o & t & H). exists (TimeTz o t). split; [by apply list_elem_of_In|done].
Qed.

(** Two columns that agree on having a time zone, each uniform, hold no
    timestamp with a zone against one without. *)
Lemma zones_compatible s t c c' :
  uniform s = true → uniform t = true → aware s = aware t →
  c ∈ s → c' ∈ t → compatible c c'.
Proof.
  intros Us Ut Hst Hc Hc'.
  destruct c as [| | | |x| |o x], c' as [| | | |y| |o' y]; try done; cbn.
  - assert (aware t = true) as Ht by (apply aware_true; eauto).
    rewrite Ht in Hst. apply aware_true in Hst as (o & z & Hz).
    by pose proof (uniform_agree s _ _ _ _ Us Hc Hz eq_refl eq_refl).
  - assert (aware s = true) as Hs by (apply aware_true; eauto).
    rewrite Hs in Hst. symmetry in Hst. apply aware_true in Hst as (o' & z & Hz).
    by pose proof (uniform_agree t _ _ _ _ Ut Hc' Hz eq_refl eq_refl).
Qed.

(** ** The wait-time table *)

Lemma keep_rows_map {A} (g : A → bool) (F : A → row) (ks : list A) :
  keep_rows (map g ks) (map F ks) = map F (List.filter g ks).
Proof.
  induction ks as [|x l IH]; [done|]. cbn. destruct (g x); cbn; by rewrite IH.
Qed.

Lemma getitem_mask_map {A} (g : A → bool) (F : A → row) cols (ks : list A) :
  getitem_mask (map g ks) (Frame cols (map F ks))
  = Ok (Frame cols (map F (List.filter g ks))).
Proof.
  unfold getitem_mask. cbn [columns rows].
  rewrite decide_True by (by rewrite !length_map). by rewrite keep_rows_map.
Qed.

Lemma days_num_or_na a b : num_or_na (days a b).
Proof.
  destruct a, b; try done; cbn; unfold elapsed_days; by destruct (_ =? _)%Z.
Qed.

Section series_steps.

Context {A : Type} (ks : list A).

Lemma days_between_map (a b : A → cell) :
  (∀ x, is_stamp (a x)) → (∀ x, is_stamp (b x)) →
  uniform (map a ks) = true → uniform (map b ks) = true →
  days_between (map a ks) (map b ks)
  = match elapsed_error (map a ks) (map b ks) with
    | Some e => Err e
    | None => Ok (map (λ x, days (a x) (b x)) ks)
    end.
Proof.
  intros Ha Hb Ua Ub. unfold days_between, series_sub, elapsed_error.
  destruct (xorb _ _) eqn:Hx; [done|].
  apply xorb_eq in Hx. rewrite forallb_zip_map. cbn [fst snd].
  rewrite sub_cells_stamps.
  2:{ intros x Hx'. split; [done|]. split; [done|].
      apply (zones_compatible (map a ks) (map b ks)); try done.
      - apply list_elem_of_In, in_map. by apply list_elem_of_In.
      - apply list_elem_of_In, in_map. by apply list_elem_of_In. }
  destruct (forallb _ ks); [|done]. cbn [mbind result_bind].
  unfold dt_total_seconds.
  rewrite (mapR_map _ _ _
             (λ x, match delta (a x) (b x) with
                   | Delta ns => Num (total_seconds ns)
                   | _ => NA end)).
  2:{ intros x. specialize (Ha x). specialize (Hb x).
      destruct (a x), (b x); cbn in *; try done; by destruct (_ =? _)%Z. }
  cbn [mbind result_bind]. unfold div_scalar.
  apply mapR_map. intros x. specialize (Ha x). specialize (Hb x).
  destruct (a x), (b x); cbn in *; try done;
    unfold elapsed_days; by destruct (_ =? _)%Z.
Qed.

Lemma delay_map (w e : A → cell) :
  (∀ x, num_or_na (w x)) → (∀ x, num_or_na (e x)) →
  (d ← series_sub (map w ks) (map e ks);
   pos ← gt_scalar d 0;
   inner ← np_where pos (Array d) (Scalar (Num 0));
   np_where (isna d) (Scalar NA) (Array inner))
  = Ok (map (λ x, delay (w x) (e x)) ks).
Proof.
  intros Hw He.
  rewrite (series_sub_map _ w e
             (λ x, match w x, e x with Num u, Num v => Num (u - v) | _, _ => NA end)).
  2:{ intros x. specialize (Hw x). by destruct (w x). }
  2:{ intros x. specialize (He x). by destruct (e x). }
  2:{ intros x. specialize (Hw x). specialize (He x). destruct (w x), (e x); cbn in *; done. }
  cbn [mbind result_bind]. unfold gt_scalar.
  rewrite (mapR_map _ _ _
             (λ x, match w x, e x with
                   | Num u, Num v => Qltb 0 (u - v)
                   | _, _ => false end)).
  2:{ intros x. specialize (Hw x). specialize (He x).
      destruct (w x), (e x); cbn in *; done. }
  cbn [mbind result_bind]. rewrite np_where_array_scalar.
  cbn [mbind result_bind]. unfold isna. rewrite map_map, np_where_scalar_array.
  f_equal. apply map_ext. intros x. specialize (Hw x). specialize (He x).
  unfold delay. destruct (w x), (e x); cbn in *; done.
Qed.

End series_steps.
Section wait_table.

Variable parse_datetime : nat → series → cell → option (Z * option Z).

Lemma coerce_is_stamp i s c : is_stamp (coerce_datetime parse_datetime i s c).
Proof.
  unfold coerce_datetime. destruct c; try done;
    destruct (parse_datetime _ _ _) as [[t [o|]]|]; try done;
    by destruct (_ && _).
Qed.

Context {A : Type} (F : A → row) (ks : list A).

Lemma parse_column_map i c cols :
  c ∈ cols →
  parse_column parse_datetime i c (Frame cols (map F ks))
  = let s := map (λ x, cell_at (F x) c) ks in
    if uniform (map (λ x, coerce_datetime parse_datetime i s (cell_at (F x) c)) ks)
    then Ok (Frame cols
               (map (λ x, <[c := coerce_datetime parse_datetime i s (cell_at (F x) c)]>
                            (F x)) ks))
    else Err ValueError.
Proof.
  intros Hin. unfold parse_column. rewrite getitem_col_Frame by done.
  cbn [mbind result_bind]. unfold to_datetime. cbn zeta. rewrite map_map.
  destruct (uniform _); [|done]. cbn [mbind result_bind].
  apply setitem_map. by rewrite bool_decide_eq_true_2.
Qed.

Lemma elapsed_column_map name later earlier cols cols' :
  later ∈ cols → earlier ∈ cols →
  (if bool_decide (name ∈ cols) then cols else cols ++ [name]) = cols' →
  (∀ x, is_stamp (cell_at (F x) later)) →
  (∀ x, is_stamp (cell_at (F x) earlier)) →
  uniform (map (λ x, cell_at (F x) later) ks) = true →
  uniform (map (λ x, cell_at (F x) earlier) ks) = true →
  elapsed_column name later earlier (Frame cols (map F ks))
  = match elapsed_error (map (λ x, cell_at (F x) later) ks)
                        (map (λ x, cell_at (F x) earlier) ks) with
    | Some e => Err e
    | None =>
        Ok (Frame cols'
              (map (λ x, <[name := days (cell_at (F x) later) (cell_at (F x) earlier)]>
                           (F x)) ks))
    end.
Proof.
  intros Hl He Hc Hsl Hse Ul Ue. unfold elapsed_column.
  rewrite !getitem_col_Frame by done. cbn [mbind result_bind].
  rewrite days_between_map by done.
  destruct (elapsed_error _ _); [done|]. cbn [mbind result_bind].
  by apply setitem_map.
Qed.

Lemma delay_column_map cols cols' :
  "wait_time" ∈ cols → "expected_wait_time" ∈ cols →
  (if bool_decide ("delay_vs_expected" ∈ cols) then cols
   else cols ++ ["delay_vs_expected"]) = cols' →
  (∀ x, num_or_na (cell_at (F x) "wait_time")) →
  (∀ x, num_or_na (cell_at (F x) "expected_wait_time")) →
  delay_column (Frame cols (map F ks))
  = Ok (Frame cols'
          (map (λ x, <["delay_vs_expected" :=
                         delay (cell_at (F x) "wait_time")
                               (cell_at (F x) "expected_wait_time")]> (F x))
               ks)).
Proof.
  intros Hw He Hc Hnw Hne. unfold delay_column.
  rewrite !getitem_col_Frame by done. cbn [mbind result_bind].
  pose proof (delay_map ks _ _ Hnw Hne) as Hd.
  destruct (series_sub _ _) as [d|]; cbn [mbind result_bind] in *; [|done].
  destruct (gt_scalar d 0) as [pos|]; cbn [mbind result_bind] in *; [|done].
  destruct (np_where pos _ _) as [inner|]; cbn [mbind result_bind] in *; [|done].
  rewrite Hd. cbn [mbind result_bind]. by apply setitem_map.
Qed.

End wait_table.

Section wait_closed.

Variable parse_datetime : nat → series → cell → option (Z * option Z).

Ltac stamp_goal :=
  intros ?; cell_norm; apply coerce_is_stamp.
Ltac num_goal :=
  intros ?; cell_norm; apply days_num_or_na.

Lemma wait_time_table_closed d orders :
  wait_time_table parse_datetime d orders =
  match missing_col ["order_id"; "order_status"; "order_purchase_timestamp";
                     "order_delivered_customer_date";
                     "order_estimated_delivery_date"] orders with
  | Some _ => Err (KeyErrorOf
                     (missing_cols ["order_id"; "order_status";
                                    "order_purchase_timestamp";
                                    "order_delivered_customer_date";
                                    "order_estimated_delivery_date"] orders))
  | None =>
      match wait_error parse_datetime (kept_orders d orders) with
      | Some e => Err e
      | None => Ok (Frame ["order_id"; "wait_time"; "expected_wait_time";
                           "delay_vs_expected"; "order_status"]
                          (wait_rows parse_datetime d orders))
      end
  end.
Proof.
  unfold wait_time_table.
  destruct (getitem_cols _ orders) as [df|e] eqn:Hdf; unfold getitem_cols in Hdf;
    destruct (missing_col _ orders); try discriminate Hdf; rbind; [|congruence].
  injection Hdf as <-.
  assert (∃ ks, ks = kept_orders d orders ∧
    (if d
     then st ← getitem_col "order_status"
                 (Frame ["order_id"; "order_status"; "order_purchase_timestamp";
                         "order_delivered_customer_date";
                         "order_estimated_delivery_date"]
                   (map (project ["order_id"; "order_status"; "order_purchase_timestamp";
                         "order_delivered_customer_date";
                         "order_estimated_delivery_date"]) (rows orders)));
          getitem_mask (eq_scalar st (Str "delivered"))
            (Frame ["order_id"; "order_status"; "order_purchase_timestamp";
                         "order_delivered_customer_date";
                         "order_estimated_delivery_date"]
                   (map (project ["order_id"; "order_status"; "order_purchase_timestamp";
                         "order_delivered_customer_date";
                         "order_estimated_delivery_date"]) (rows orders)))
     else Ok (Frame ["order_id"; "order_status"; "order_purchase_timestamp";
                         "order_delivered_customer_date";
                         "order_estimated_delivery_date"]
                   (map (project ["order_id"; "order_status"; "order_purchase_timestamp";
                         "order_delivered_customer_date";
                         "order_estimated_delivery_date"]) (rows orders))))
    = Ok (Frame ["order_id"; "order_status"; "order_purchase_timestamp";
                         "order_delivered_customer_date";
                         "order_estimated_delivery_date"]
            (map (project ["order_id"; "order_status"; "order_purchase_timestamp";
                         "order_delivered_customer_date";
                         "order_estimated_delivery_date"]) ks))) as (ks & Hks & ->).
  { eexists. split; [reflexivity|]. destruct d; [|done].
    rewrite getitem_col_Frame by in_cols. rbind.
    unfold eq_scalar. rewrite map_map. by rewrite getitem_mask_map. }
  rbind. unfold wait_error, wait_rows. cbv zeta. rewrite <- Hks. clear Hks.
  rewrite parse_column_map by in_cols. cbn zeta.
  match goal with |- context [uniform ?s] =>
    change s with (purchased parse_datetime ks) end.
  destruct (uniform (purchased parse_datetime ks)) eqn:U1; [|done]. rbind.
  rewrite parse_column_map by in_cols. cbn zeta.
  match goal with |- context [if uniform ?s then Ok _ else _] =>
    change s with (delivered parse_datetime ks) end.
  destruct (uniform (delivered parse_datetime ks)) eqn:U2; [|done]. rbind.
  rewrite parse_column_map by in_cols. cbn zeta.
  match goal with |- context [if uniform ?s then Ok _ else _] =>
    change s with (estimated parse_datetime ks) end.
  destruct (uniform (estimated parse_datetime ks)) eqn:U3; [|done]. rbind.
  cbn [andb negb].
  erewrite elapsed_column_map;
    [ | in_cols | in_cols | vm_compute; reflexivity | stamp_goal | stamp_goal
      | exact U2 | exact U1 ].
  match goal with |- context [match elapsed_error ?a ?b with _ => _ end ≫= _] =>
    change a with (delivered parse_datetime ks);
    change b with (purchased parse_datetime ks) end.
  destruct (elapsed_error (delivered parse_datetime ks) _) eqn:E1; [done|]. rbind.
  erewrite elapsed_column_map;
    [ | in_cols | in_cols | vm_compute; reflexivity | stamp_goal | stamp_goal
      | exact U3 | exact U1 ].
  match goal with |- context [match elapsed_error ?a ?b with _ => _ end ≫= _] =>
    change a with (estimated parse_datetime ks);
    change b with (purchased parse_datetime ks) end.
  destruct (elapsed_error (estimated parse_datetime ks) _) eqn:E2; [done|]. rbind.
  erewrite delay_column_map;
    [ | in_cols | in_cols | vm_compute; reflexivity | num_goal | num_goal ].
  rbind.
  rewrite getitem_cols_Frame by (vm_compute; reflexivity).
  rewrite map_map.
  reflexivity.
Qed.

End wait_closed.

Section wait_claims.

Variable parse_datetime : nat → series → cell → option (Z * option Z).

Lemma wait_outcome self h d :
  valid self h →
  outcome (get_wait_time parse_datetime self d) h
  = dataset self h "orders" ≫= wait_time_table parse_datetime d.
Proof. intros. by apply computes_outcome, get_wait_time_computes. Qed.

Lemma wait_table_rows self h d t :
  valid self h → outcome (get_wait_time parse_datetime self d) h = Ok t →
  ∃ orders, dataset self h "orders" = Ok orders
            ∧ columns t = ["order_id"; "wait_time"; "expected_wait_time";
                           "delay_vs_expected"; "order_status"]
            ∧ rows t = wait_rows parse_datetime d orders.
Proof.
  intros Hv. rewrite wait_outcome by done.
  destruct (dataset self h "orders") as [orders|e]; [|done].
  cbn [mbind result_bind]. rewrite wait_time_table_closed.
  destruct (missing_col _ _); [done|].
  destruct (wait_error _ _); [done|]. intros [= <-]. by exists orders.
Qed.

(** A returned table means that no step failed. *)
Lemma wait_table_no_error self h d t orders :
  valid self h → outcome (get_wait_time parse_datetime self d) h = Ok t →
  dataset self h "orders" = Ok orders →
  wait_error parse_datetime (kept_orders d orders) = None.
Proof.
  intros Hv Ht Ho. rewrite wait_outcome, Ho in Ht by done.
  cbn [mbind result_bind] in Ht. rewrite wait_time_table_closed in Ht.
  destruct (missing_col _ _); [done|]. by destruct (wait_error _ _).
Qed.

Lemma wait_error_None ks :
  wait_error parse_datetime ks = None →
  uniform (purchased parse_datetime ks) = true
  ∧ uniform (delivered parse_datetime ks) = true
  ∧ uniform (estimated parse_datetime ks) = true
  ∧ aware (delivered parse_datetime ks) = aware (purchased parse_datetime ks)
  ∧ aware (estimated parse_datetime ks) = aware (purchased parse_datetime ks).
Proof.
  unfold wait_error, elapsed_error.
  destruct (uniform (purchased _ _)), (uniform (delivered _ _)),
    (uniform (estimated _ _)); cbn [andb negb]; try done.
  destruct (xorb (aware (delivered _ _)) _) eqn:X1; [done|].
  destruct (forallb _ _); [|done].
  destruct (xorb (aware (estimated _ _)) _) eqn:X2; [done|].
  intros _. apply xorb_eq in X1, X2. done.
Qed.

Lemma Qltb_lt x y : Qltb x y = true ↔ (x < y)%Q.
Proof. unfold Qltb. rewrite Qlt_alt. by destruct (x ?= y)%Q. Qed.

Lemma delay_spec w e :
  num_or_na w → num_or_na e →
  (delay w e = NA ↔ w = NA ∨ e = NA)
  ∧ (∀ x y, w = Num x → e = Num y →
       ∃ q, delay w e = Num q ∧ (q == Qmax (x - y) 0)%Q)
  ∧ (delay w e = NA ∨ ∃ q, delay w e = Num q ∧ (0 <= q)%Q).
Proof.
  intros Hw He. destruct w as [| | |x| | |], e as [| | |y| | |]; try done; cbn.
  1-3: (split; [by intuition|]; split; [done|by left]).
  destruct (Qltb 0 (x - y)) eqn:Hlt.
  - apply Qltb_lt in Hlt. split; [by intuition|]. split.
    + intros ? ? [= <-] [= <-]. eexists. split; [done|].
      symmetry. apply Q.max_l. by apply Qlt_le_weak.
    + right. eexists. split; [done|]. by apply Qlt_le_weak.
  - assert (x - y <= 0)%Q as Hle.
    { apply Qnot_lt_le. intros H. apply Qltb_lt in H. congruence. }
    split; [by intuition|]. split.
    + intros ? ? [= <-] [= <-]. eexists. split; [done|].
      symmetry. by apply Q.max_r.
    + right. eexists. split; [done|]. apply Qle_refl.
Qed.

Lemma wait_row_cells ks r0 :
  let r := wait_row parse_datetime ks r0 in
  cell_at r "order_id" = cell_at r0 "order_id"
  ∧ cell_at r "order_status" = cell_at r0 "order_status"
  ∧ cell_at r "wait_time"
    = days (read parse_datetime 1 ks "order_delivered_customer_date" r0)
           (read parse_datetime 0 ks "order_purchase_timestamp" r0)
  ∧ cell_at r "expected_wait_time"
    = days (read parse_datetime 2 ks "order_estimated_delivery_date" r0)
           (read parse_datetime 0 ks "order_purchase_timestamp" r0).
Proof. by repeat split. Qed.

Lemma wait_row_delay ks r0 :
  let r := wait_row parse_datetime ks r0 in
  cell_at r "delay_vs_expected"
  = delay (cell_at r "wait_time") (cell_at r "expected_wait_time").
Proof. done. Qed.


Lemma wait_rows_lookup d orders i r0 :
  kept_orders d orders !! i = Some r0 →
  wait_rows parse_datetime d orders !! i
  = Some (wait_row parse_datetime (kept_orders d orders) r0).
Proof.
  intros H. unfold wait_rows. cbn zeta.
  change (@map row row) with (@fmap list _ row row).
  by rewrite list_lookup_fmap, H.
Qed.

Lemma days_NA_r c : days c NA = NA.
Proof. by destruct c. Qed.

Lemma days_instants a b x y :
  compatible a b → instant a = Some x → instant b = Some y →
  days a b = elapsed_days (x - y).
Proof. destruct a, b; cbn; try done; by intros _ [= ->] [= ->]. Qed.


(** All orders are kept when the delivered-only filter is off. *)
Lemma kept_orders_all orders : kept_orders false orders = rows orders.
Proof. done. Qed.

Lemma plain_read ks i col r :
  plain_stamps parse_datetime ks = true →
  (i, col) ∈ stamp_columns → r ∈ ks →
  read parse_datetime i ks col r = NA
  ∨ ∃ t, read parse_datetime i ks col r = Time t ∧ (- 2 ^ 62 < t < 2 ^ 62)%Z.
Proof.
  unfold plain_stamps. rewrite forallb_forall. intros H Hic Hr.
  apply list_elem_of_In, H in Hic. cbn [fst snd] in Hic.
  rewrite forallb_forall in Hic. apply list_elem_of_In, Hic in Hr.
  unfold plain_cell in Hr. apply andb_true_iff in Hr as [_ Hr].
  unfold read, coerce_datetime. destruct (cell_at r col) eqn:Hc; [by left|..];
    (destruct (parse_datetime _ _ _) as [[t [o|]]|]; [done| |by left];
     apply andb_true_iff in Hr as [H1%Z.ltb_lt H2%Z.ltb_lt];
     right; exists t;
     assert (in_int64 t && negb (t =? int64_min)%Z = true) as ->;
     [unfold in_int64, int64_min, int64_max;
      apply andb_true_iff; split;
      [apply andb_true_iff; split; apply Z.leb_le; lia
      |apply negb_true_iff, Z.eqb_neq; lia]
     |split; [done|lia]]).
Qed.

Lemma uniform_naive s :
  (∀ c, c ∈ s → c = NA ∨ ∃ t, c = Time t) → uniform s = true.
Proof.
  intros H. unfold uniform.
  assert (∀ z, z ∈ omap zone_of s → z = None) as Hz.
  { intros z (c & Hc & Hzc)%list_elem_of_omap.
    destruct (H c Hc) as [->|[t ->]]; cbn in Hzc; congruence. }
  destruct (omap zone_of s) as [|z zs]; [done|].
  apply forallb_forall. intros z' Hz'%list_elem_of_In. apply bool_decide_eq_true.
  rewrite (Hz z) by apply list_elem_of_here.
  apply Hz. by apply list_elem_of_further.
Qed.

Lemma aware_naive s :
  (∀ c, c ∈ s → c = NA ∨ ∃ t, c = Time t) → aware s = false.
Proof.
  intros H. destruct (aware s) eqn:E; [|done].
  apply aware_true in E as (o & t & Hc). by destruct (H _ Hc) as [?|[? ?]].
Qed.

(** Plain timestamps make no step fail. *)
Lemma plain_no_error ks :
  plain_stamps parse_datetime ks = true → wait_error parse_datetime ks = None.
Proof.
  intros Hp.
  assert (∀ i col, (i, col) ∈ stamp_columns →
            ∀ c, c ∈ map (read parse_datetime i ks col) ks →
                 c = NA ∨ ∃ t, c = Time t) as Hcol.
  { intros i col Hic c (r & <- & Hr)%list_elem_of_In%in_map_iff.
    apply list_elem_of_In in Hr.
    destruct (plain_read ks i col r Hp Hic Hr) as [->|(t & -> & _)]; eauto. }
  assert (∀ i col, (i, col) ∈ stamp_columns →
            forallb (λ ab : cell * cell, fits ab.1 ab.2)
              (zip (map (read parse_datetime i ks col) ks)
                   (map (read parse_datetime 0 ks "order_purchase_timestamp") ks))
            = true) as Hfits.
  { intros i col Hic. rewrite forallb_zip_map. cbn [fst snd].
    apply forallb_forall. intros r Hr%list_elem_of_In. unfold fits.
    destruct (plain_read ks i col r Hp Hic Hr) as [->|(x & -> & Hx)]; [done|].
    destruct (plain_read ks 0 "order_purchase_timestamp" r Hp) as [->|(y & -> & Hy)];
      [in_cols|done|done|]. cbn.
    unfold in_int64, int64_min, int64_max.
    apply andb_true_iff; split; apply Z.leb_le; lia. }
  unfold wait_error, elapsed_error, purchased, delivered, estimated.
  rewrite !uniform_naive, !aware_naive by (apply Hcol; in_cols).
  cbn [andb negb xorb].
  rewrite (Hfits 1%nat "order_delivered_customer_date") by in_cols.
  by rewrite (Hfits 2%nat "order_estimated_delivery_date") by in_cols.
Qed.


End wait_claims.

(** ** Running the assembler twice *)

Section reruns.

Variables P1 P2 : nat → series → cell → option (Z * option Z).
Variable great_circle_km : Q → Q → Q → Q → Q.

Lemma same_reading_spec ks i col r :
  same_reading P1 P2 ks = true → (i, col) ∈ stamp_columns → r ∈ ks →
  read P1 i ks col r = read P2 i ks col r.
Proof.
  unfold same_reading. rewrite forallb_forall. intros H Hic%list_elem_of_In Hr.
  apply H in Hic. cbn [fst snd] in Hic. rewrite forallb_forall in Hic.
  apply list_elem_of_In, Hic in Hr. by apply bool_decide_eq_true in Hr.
Qed.

Lemma same_reading_column ks i col :
  same_reading P1 P2 ks = true → (i, col) ∈ stamp_columns →
  map (read P1 i ks col) ks = map (read P2 i ks col) ks.
Proof.
  intros H Hic. apply map_ext_in. intros r Hr%list_elem_of_In.
  by apply same_reading_spec.
Qed.

(** Readers that agree on the kept orders give the same wait-time table,
    or the same error. *)
Lemma wait_time_table_same d orders :
  same_reading P1 P2 (kept_orders d orders) = true →
  wait_time_table P1 d orders = wait_time_table P2 d orders.
Proof.
  intros H. rewrite !wait_time_table_closed.
  destruct (missing_col _ _); [done|].
  set (ks := kept_orders d orders) in *.
  assert (wait_error P1 ks = wait_error P2 ks) as ->.
  { unfold wait_error, purchased, delivered, estimated.
    by rewrite !(same_reading_column ks _ _ H) by in_cols. }
  destruct (wait_error P2 ks); [done|]. do 2 f_equal.
  unfold wait_rows. fold ks. apply map_ext_in. intros r Hr%list_elem_of_In.
  unfold wait_row. by rewrite !(same_reading_spec ks _ _ r H) by (done || in_cols).
Qed.

Lemma training_of_same self h d w orders :
  dataset self h "orders" = Ok orders →
  same_reading P1 P2 (kept_orders d orders) = true →
  training_of P1 great_circle_km self h d w = training_of P2 great_circle_km self h d w.
Proof.
  intros Ho H. unfold training_of, features_of, wait_time_of. rewrite Ho.
  cbn [mbind result_bind]. by rewrite (wait_time_table_same d orders H).
Qed.


End reruns.


(** ** Grouping *)

Lemma mapR_Forall2 {A B} (f : A → result B) l l' :
  mapR f l = Ok l' → Forall2 (λ x y, f x = Ok y) l l'.
Proof.
  revert l'. induction l as [|x l IH]; intros l'; cbn.
  - intros [= <-]. constructor.
  - destruct (f x) as [y|] eqn:Hy; cbn; [|done].
    destruct (mapR f l) as [ys|]; cbn; [|done].
    intros [= <-]. constructor; auto.
Qed.

Lemma canon_idemp c : canon (canon c) = canon c.
Proof.
  destruct c as [| | |q| | |]; try done. cbn.
  case_decide as Hd; [done|]. cbn.
  rewrite (Qred_complete _ _ (Qred_correct q)). by rewrite decide_False.
Qed.

Lemma group_keys_spec by_ f k :
  k ∈ group_keys by_ f ↔ k ≠ NA ∧ ∃ r, r ∈ rows f ∧ key_of by_ r = k.
Proof.
  unfold group_keys. rewrite merge_sort_Permutation, elem_of_remove_dups.
  rewrite list_elem_of_In, filter_In, in_map_iff. split.
  - intros [(r & <- & Hr) Hk]. split.
    + intros Hna. by rewrite Hna in Hk.
    + exists r. by rewrite list_elem_of_In.
  - intros [Hk (r & Hr & <-)]. split.
    + exists r. by rewrite <- list_elem_of_In.
    + by destruct (key_of by_ r).
Qed.

Lemma group_keys_NoDup by_ f : NoDup (group_keys by_ f).
Proof.
  unfold group_keys. rewrite merge_sort_Permutation. apply NoDup_remove_dups.
Qed.

Lemma group_keys_canon by_ f k : k ∈ group_keys by_ f → canon k = k.
Proof.
  intros (_ & r & _ & <-)%group_keys_spec. apply canon_idemp.
Qed.

(** What a successful grouping returns: one row per key, in key order,
    holding the key and the aggregates of the rows of that key. *)
Lemma groupby_agg_Ok by_ aggs f t :
  groupby_agg by_ aggs f = Ok t →
  columns t = by_ :: map fst aggs
  ∧ Forall2 (λ k r, ∃ vs,
               Forall2 (λ (a : string * (list row → result cell)) (v : string * cell),
                          v.1 = a.1 ∧ a.2 (group_rows by_ f k) = Ok v.2) aggs vs
               ∧ r = mk_row ((by_, k) :: vs))
            (group_keys by_ f) (rows t).
Proof.
  unfold groupby_agg. destruct (has_col by_ f); cbn [negb]; [|done].
  destruct (sortable (group_keys by_ f)); cbn [negb]; [|done].
  destruct (mapR _ (group_keys by_ f)) as [rs|] eqn:Hrs; cbn [mbind result_bind]; [|done].
  intros [= <-]. split; [done|]. cbn [rows].
  apply mapR_Forall2 in Hrs. eapply Forall2_impl; [exact Hrs|].
  intros k r Hr. cbn beta in Hr.
  destruct (mapR _ aggs) as [vs|] eqn:Hvs; cbn [mbind result_bind] in Hr; [|done].
  injection Hr as <-. exists vs. split; [|done].
  apply mapR_Forall2 in Hvs. eapply Forall2_impl; [exact Hvs|].
  intros a v Hv. cbn beta in Hv.
  destruct (a.2 _) as [x|]; cbn [mbind result_bind] in Hv; [|done].
  by injection Hv as <-.
Qed.

Lemma groupby_cols_Ok by_ cols aggs f t :
  groupby_cols by_ cols aggs f = Ok t → groupby_agg by_ aggs f = Ok t.
Proof.
  unfold groupby_cols. destruct (has_col by_ f); cbn [negb]; [|done].
  by destruct (missing_col cols f).
Qed.

(** The key column of a grouped table lists the group keys. *)
Lemma groupby_agg_keys by_ aggs f t :
  groupby_agg by_ aggs f = Ok t →
  map (λ r, cell_at r by_) (rows t) = group_keys by_ f.
Proof.
  intros [_ H]%groupby_agg_Ok. induction H as [|k r ks rs (vs & _ & ->) _ IH]; [done|].
  cbn [map]. rewrite IH. f_equal. apply cell_at_mk_row_eq.
Qed.

(** With one aggregate: the row of a key, and the value in it. *)
Lemma groupby_one_Ok by_ cols name agg f t :
  groupby_cols by_ cols [(name, agg)] f = Ok t →
  by_ ≠ name →
  columns t = [by_; name]
  ∧ (∀ k, k ∈ group_keys by_ f →
          ∃ r, r ∈ rows t ∧ cell_at r by_ = k)
  ∧ (∀ r, r ∈ rows t →
          cell_at r by_ ∈ group_keys by_ f
          ∧ agg (group_rows by_ f (cell_at r by_)) = Ok (cell_at r name)).
Proof.
  intros Ht%groupby_cols_Ok Hne.
  pose proof (groupby_agg_keys _ _ _ _ Ht) as Hkeys.
  apply groupby_agg_Ok in Ht as [Hc H]. split; [done|]. split.
  - intros k Hk. rewrite <- Hkeys in Hk.
    apply list_elem_of_In, in_map_iff in Hk as (r & <- & Hr).
    exists r. by rewrite list_elem_of_In.
  - intros r Hr.
    destruct (proj1 (list_elem_of_lookup _ _) Hr) as [i Hi].
    destruct (Forall2_lookup_r _ _ _ _ _ H Hi) as (k & Hk & vs & Hvs & ->).
    rewrite cell_at_mk_row_eq. split; [by eapply list_elem_of_lookup_2|].
    apply Forall2_cons_inv_l in Hvs as (v & vs' & [Hv1 Hv2] & Hnil & ->).
    apply Forall2_nil_inv_l in Hnil as ->. destruct v as [n v]. cbn [fst snd] in Hv1, Hv2. subst n.
    rewrite cell_at_mk_row_ne by done. by rewrite cell_at_mk_row_eq.
Qed.

(** ** Item and seller counts *)

Lemma canon_NA c : canon c = NA ↔ c = NA.
Proof.
  destruct c; cbn; try done. by case_decide.
Qed.

Lemma key_of_project by_ cs r : by_ ∈ cs → key_of by_ (project cs r) = key_of by_ r.
Proof. intros. unfold key_of. by rewrite cell_at_project. Qed.

Lemma group_keys_project by_ cs cols cols' rs :
  by_ ∈ cs →
  group_keys by_ (Frame cols (map (project cs) rs)) = group_keys by_ (Frame cols' rs).
Proof.
  intros Hin. unfold group_keys. cbn [rows]. rewrite map_map.
  do 3 f_equal. apply map_ext. intros r. by apply key_of_project.
Qed.

Lemma filter_map_comm {A B} (g : B → bool) (F : A → B) (l : list A) :
  List.filter g (map F l) = map F (List.filter (λ x, g (F x)) l).
Proof.
  induction l as [|x l IH]; [done|]. cbn. destruct (g (F x)); cbn; by rewrite IH.
Qed.

Lemma group_rows_project by_ cs cols cols' rs k :
  by_ ∈ cs →
  group_rows by_ (Frame cols (map (project cs) rs)) k
  = map (project cs) (group_rows by_ (Frame cols' rs) k).
Proof.
  intros Hin. unfold group_rows. cbn [rows]. rewrite filter_map_comm.
  f_equal. apply filter_ext. intros r. by rewrite key_of_project.
Qed.

Lemma length_remove_dups_le {A} `{EqDecision A} (l : list A) :
  (length (remove_dups l) ≤ length l)%nat.
Proof.
  induction l as [|x l IH]; [done|]. cbn. case_decide; cbn; lia.
Qed.

Lemma length_filter_le {A} (g : A → bool) (l : list A) :
  (length (List.filter g l) ≤ length l)%nat.
Proof. induction l as [|x l IH]; [done|]. cbn. destruct (g x); cbn; lia. Qed.

Lemma items_outcome self h :
  valid self h →
  outcome (get_number_items self) h = dataset self h "order_items" ≫= items_table.
Proof. intros. by apply computes_outcome, get_number_items_computes. Qed.

Lemma sellers_outcome self h :
  valid self h →
  outcome (get_number_sellers self) h = dataset self h "order_items" ≫= sellers_table.
Proof. intros. by apply computes_outcome, get_number_sellers_computes. Qed.

Lemma frame_eta f : Frame (columns f) (rows f) = f.
Proof. by destruct f. Qed.

(** C8: for an order that has item lines, [number_of_items] is the number
    of its item-line rows and [number_of_sellers] the number of distinct
    seller identifiers on these rows; so [number_of_sellers] is at most
    [number_of_items]. *)
Theorem item_and_seller_counts self h items ti ts r0 :
  valid self h →
  dataset self h "order_items" = Ok items →
  outcome (get_number_items self) h = Ok ti →
  outcome (get_number_sellers self) h = Ok ts →
  r0 ∈ rows items →
  cell_at r0 "order_id" ≠ NA →
  let k := key_of "order_id" r0 in
  let lines := List.filter (λ r, bool_decide (key_of "order_id" r = k)) (rows items) in
  let sellers := remove_dups (List.filter (λ c, negb (is_na c))
                                (map (key_of "seller_id") lines)) in
  (∃ ri, ri ∈ rows ti ∧ cell_at ri "order_id" = k)
  ∧ (∀ ri, ri ∈ rows ti → cell_at ri "order_id" = k →
           cell_at ri "number_of_items" = Int (Z.of_nat (length lines)))
  ∧ (∃ rs, rs ∈ rows ts ∧ cell_at rs "order_id" = k)
  ∧ (∀ rs, rs ∈ rows ts → cell_at rs "order_id" = k →
           cell_at rs "number_of_sellers" = Int (Z.of_nat (length sellers)))
  ∧ (Z.of_nat (length sellers) <= Z.of_nat (length lines))%Z.
Proof.
  intros Hv Hi Hti Hts Hr0 Hna k lines sellers.
  rewrite items_outcome, Hi in Hti by done.
  rewrite sellers_outcome, Hi in Hts by done.
  cbn [mbind result_bind] in Hti, Hts. unfold items_table in Hti. unfold sellers_table in Hts.
  destruct (getitem_cols ["order_id"] items) as [di|] eqn:Hdi;
    cbn [mbind result_bind] in Hti; [|done].
  destruct (getitem_cols ["order_id"; "seller_id"] items) as [ds|] eqn:Hds;
    cbn [mbind result_bind] in Hts; [|done].
  apply getitem_cols_Ok in Hdi as [-> _]. apply getitem_cols_Ok in Hds as [-> _].
  apply groupby_one_Ok in Hti as (_ & Hti1 & Hti2); [|done].
  apply groupby_one_Ok in Hts as (_ & Hts1 & Hts2); [|done].
  assert (k ∈ group_keys "order_id" (Frame (columns items) (rows items))) as Hk.
  { apply group_keys_spec. split.
    - unfold k, key_of. by rewrite canon_NA.
    - by exists r0. }
  rewrite (group_keys_project _ _ _ (columns items)) in Hti1, Hti2 by in_cols.
  rewrite (group_keys_project _ _ _ (columns items)) in Hts1, Hts2 by in_cols.
  split; [by apply Hti1|]. split.
  { intros ri Hri Hki. destruct (Hti2 ri Hri) as [_ Hagg].
    rewrite Hki, (group_rows_project _ _ _ (columns items)) in Hagg by in_cols.
    unfold agg_size in Hagg. rewrite length_map in Hagg. by injection Hagg as <-. }
  split; [by apply Hts1|]. split.
  { intros rs Hrs Hks. destruct (Hts2 rs Hrs) as [_ Hagg].
    rewrite Hks, (group_rows_project _ _ _ (columns items)) in Hagg by in_cols.
    unfold agg_nunique in Hagg. rewrite map_map in Hagg.
    injection Hagg as <-. reflexivity. }
  apply inj_le. unfold sellers.
  etransitivity; [apply length_remove_dups_le|].
  etransitivity; [apply length_filter_le|]. by rewrite length_map.
Qed.

(** ** Seller-customer distance *)

Lemma numbers_Ok s qs :
  numbers s = Ok qs →
  qs = omap to_num s ∧ Forall (λ c, c = NA ∨ is_Some (to_num c)) s.
Proof.
  revert qs. induction s as [|c s IH]; intros qs; cbn.
  - intros [= <-]. by split.
  - destruct c; cbn;
      try (destruct (numbers s) as [qs'|]; cbn [mbind result_bind]; [|done];
           intros [= <-]; destruct (IH _ eq_refl) as [-> HF];
           split; [done|]; constructor; [right; by eexists|done]);
      try done.
    intros H. destruct (IH _ H) as [-> HF]. split; [done|].
    constructor; [by left|done].
Qed.

Lemma omap_all_NA (s : series) : Forall (λ c, c = NA) s → omap to_num s = [].
Proof. induction 1 as [|c s -> _ IH]; [done|]. by cbn. Qed.

Lemma zip_with_Forall2 {A B C} (P : A → B → Prop) (f : A → B → C) l k x :
  Forall2 P l k → x ∈ zip_with f l k → ∃ a b, P a b ∧ x = f a b.
Proof.
  induction 1 as [|a b l k Hab _ IH]; cbn; intros Hx.
  - by apply elem_of_nil in Hx.
  - apply elem_of_cons in Hx as [->|Hx]; [by exists a, b|auto].
Qed.

Ltac bind_inv H :=
  repeat match type of H with
         | (?r ≫= _) = Ok _ =>
             let E := fresh "E" in
             destruct r eqn:E; cbn [mbind result_bind] in H; [|discriminate H]
         end.

Section distance.

Variable great_circle_km : Q → Q → Q → Q → Q.

Lemma haversine_null a b c d :
  a = NA ∨ b = NA ∨ c = NA ∨ d = NA →
  haversine_distance great_circle_km a b c d = Ok NA.
Proof.
  intros [-> | [-> | [-> | ->]]].
  - done.
  - by destruct a.
  - by destruct a, b.
  - by destruct a, b, c.
Qed.

Lemma lines_table_tail o c s i g L :
  lines_table great_circle_km o c s i g = Ok L →
  ∃ df km, apply_rows (line_distance great_circle_km df) df = Ok km
           ∧ setitem "distance_km" km df = Ok L.
Proof.
  unfold lines_table. intros H. bind_inv H. eauto.
Qed.

Lemma lines_of_tail self h L :
  lines_of great_circle_km self h = Ok L →
  ∃ df km, apply_rows (line_distance great_circle_km df) df = Ok km
           ∧ setitem "distance_km" km df = Ok L.
Proof.
  unfold lines_of. intros H. bind_inv H. by eapply lines_table_tail.
Qed.

Lemma lines_outcome self h :
  valid self h →
  outcome (distance_lines great_circle_km self) h = lines_of great_circle_km self h.
Proof. intros. by apply computes_outcome, distance_lines_computes. Qed.

Lemma distance_outcome self h :
  valid self h →
  outcome (get_distance_seller_customer great_circle_km self) h
  = lines_of great_circle_km self h ≫= distance_table.
Proof. intros. by apply computes_outcome, get_distance_seller_customer_computes. Qed.


End distance.

(** ** Left joins *)

Lemma cell_at_mk_row_app_map (g : string → string) (v : string → cell) cols rest k c0 :
  c0 ∈ cols → g c0 = k → (∀ c, c ∈ cols → g c = k → v c = v c0) →
  cell_at (mk_row (map (λ c, (g c, v c)) cols ++ rest)) k = v c0.
Proof.
  induction cols as [|c cols IH]; intros Hin Hk Hv.
  - by apply elem_of_nil in Hin.
  - cbn [map app]. rewrite cell_at_mk_row_cons. case_decide as Hc.
    + apply Hv; [apply list_elem_of_here|done].
    + apply IH; [|done|].
      * apply elem_of_cons in Hin as [->|?]; [done|done].
      * intros c' Hc'. apply Hv. by apply list_elem_of_further.
Qed.

Section merge.

Variables (on : string) (L R M : frame).
Hypothesis Hmerge : merge_left on L R = Ok M.
Hypothesis Hclash : no_clash on L R = true.

Lemma merge_has_key : on ∈ columns L ∧ on ∈ columns R.
Proof using Hmerge.
  unfold merge_left, has_col in Hmerge.
  destruct (bool_decide (on ∈ columns L)) eqn:HL; cbn [negb] in Hmerge; [|done].
  destruct (bool_decide (on ∈ columns R)) eqn:HR; cbn [negb] in Hmerge; [|done].
  by apply bool_decide_eq_true in HL, HR.
Qed.

Lemma no_clash_name c :
  c ∈ columns L →
  (if bool_decide (c ≠ on) && has_col c L && has_col c R then c +:+ "_x" else c) = c.
Proof using Hclash.
  intros Hc. unfold no_clash in Hclash. rewrite forallb_forall in Hclash.
  apply list_elem_of_In, Hclash in Hc.
  destruct (bool_decide (c ≠ on)) eqn:E1; [|done].
  destruct (has_col c R); [|by rewrite andb_false_r].
  apply bool_decide_eq_true in E1. by rewrite bool_decide_eq_false_2 in Hc.
Qed.

Lemma join_row_key lr rr : cell_at (join_row on L R lr rr) on = cell_at lr on.
Proof using Hmerge Hclash.
  unfold join_row. destruct merge_has_key as [HL _].
  apply (cell_at_mk_row_app_map _ (cell_at lr) _ _ on on HL).
  - by apply no_clash_name.
  - intros c Hc Hn. rewrite no_clash_name in Hn by done. by subst.
Qed.

Lemma merge_rows :
  rows M = flat_map (λ lr, match matches on R lr with
                           | [] => [join_row on L R lr None]
                           | ms => map (λ rr, join_row on L R lr (Some rr)) ms
                           end) (rows L).
Proof using Hmerge.
  unfold merge_left in Hmerge.
  destruct (has_col on L); cbn [negb] in Hmerge; [|done].
  destruct (has_col on R); cbn [negb] in Hmerge; [|done].
  by injection Hmerge as <-.
Qed.

Lemma merge_columns :
  columns M = columns L ++ List.filter (λ c, bool_decide (c ≠ on)) (columns R).
Proof using Hmerge Hclash.
  unfold merge_left in Hmerge.
  destruct (has_col on L); cbn [negb] in Hmerge; [|done].
  destruct (has_col on R); cbn [negb] in Hmerge; [|done].
  injection Hmerge as <-. cbn [columns]. f_equal.
  - rewrite <- (map_id (columns L)) at 2. apply map_ext_in.
    intros c Hc. apply no_clash_name. by apply list_elem_of_In.
  - rewrite <- (map_id (List.filter _ _)) at 2. apply map_ext_in.
    intros c [Hc Hne]%filter_In.
    destruct (bool_decide (c ≠ on)) eqn:E1; [|done].
    destruct (has_col c L) eqn:E2; [|done]. exfalso.
    unfold no_clash in Hclash. rewrite forallb_forall in Hclash.
    apply bool_decide_eq_true in E2. apply list_elem_of_In, Hclash in E2.
    apply bool_decide_eq_true in E1. rewrite bool_decide_eq_false_2 in E2 by done.
    unfold has_col in E2. apply list_elem_of_In in Hc.
    by rewrite bool_decide_eq_true_2 in E2.
Qed.

Lemma matches_length lr :
  length (matches on R lr) = count_key on (key_of on lr) (rows R).
Proof.
  unfold matches, count_key, key_eqb, key_of. f_equal. apply filter_ext.
  intros rr. apply bool_decide_ext. split; congruence.
Qed.

(** A left row of key [k] turns into as many rows of key [k] as the right
    frame has rows of that key, and into one if it has none. *)
Lemma merge_count k :
  count_key on k (rows M)
  = (count_key on k (rows L) * Nat.max 1 (count_key on k (rows R)))%nat.
Proof using Hmerge Hclash.
  rewrite merge_rows. unfold count_key at 1 2.
  induction (rows L) as [|lr ls IH]; [done|].
  cbn [flat_map List.filter]. rewrite List.filter_app, length_app, IH. clear IH.
  set (g := match matches on R lr with
            | [] => [join_row on L R lr None]
            | ms => map (λ rr, join_row on L R lr (Some rr)) ms
            end).
  assert (length g = Nat.max 1 (count_key on (key_of on lr) (rows R))) as Hlen.
  { rewrite <- matches_length. unfold g. destruct (matches on R lr); [done|].
    rewrite length_map. cbn [length]. lia. }
  assert (Forall (λ r, key_of on r = key_of on lr) g) as Hkeys.
  { unfold g. destruct (matches on R lr) as [|m ms].
    - constructor; [|done]. unfold key_of. by rewrite join_row_key.
    - apply Forall_forall. intros r (rr & <- & _)%list_elem_of_In%in_map_iff.
      unfold key_of. by rewrite join_row_key. }
  case_bool_decide as Hk.
  - subst k. cbn [length]. rewrite forallb_filter_id, Hlen; [lia|].
    apply forallb_forall. intros r Hr%list_elem_of_In.
    apply bool_decide_eq_true. by apply (proj1 (Forall_forall _ _) Hkeys).
  - rewrite (filter_ext_in _ (λ _, false)), filter_false; [done|].
    intros r Hr%list_elem_of_In. apply bool_decide_eq_false.
    rewrite (proj1 (Forall_forall _ _) Hkeys r Hr). congruence.
Qed.

End merge.

Lemma NoDup_filter_eq_le (k : cell) (l : list cell) :
  NoDup l → (length (List.filter (λ x, bool_decide (x = k)) l) ≤ 1)%nat.
Proof.
  induction 1 as [|x l Hx _ IH]; cbn; [lia|]. case_bool_decide as Hk; [|done].
  subst x. rewrite (filter_ext_in _ (λ _, false)), filter_false; [done|].
  intros y Hy%list_elem_of_In. apply bool_decide_eq_false. by intros ->.
Qed.

Lemma count_key_unique on k rs :
  NoDup (map (λ r, cell_at r on) rs) →
  (∀ r, r ∈ rs → canon (cell_at r on) = cell_at r on) →
  (count_key on k rs ≤ 1)%nat.
Proof.
  intros Hnd Hcanon. unfold count_key.
  rewrite (filter_ext_in _ (λ r, bool_decide (cell_at r on = k))).
  - rewrite <- (length_map (λ r, cell_at r on)).
    pose proof (filter_map_comm (λ c, bool_decide (c = k)) (λ r, cell_at r on) rs) as E.
    cbn beta in E. rewrite <- E. by apply NoDup_filter_eq_le.
  - intros r Hr%list_elem_of_In. unfold key_of. by rewrite Hcanon.
Qed.

(** A grouped table has its columns in the order key, aggregates, and at
    most one row per key. *)
Lemma groupby_cols_shape by_ cols aggs f t :
  groupby_cols by_ cols aggs f = Ok t →
  columns t = by_ :: map fst aggs ∧ ∀ k, (count_key by_ k (rows t) ≤ 1)%nat.
Proof.
  intros Ht%groupby_cols_Ok. split; [by apply groupby_agg_Ok in Ht as [? _]|].
  intros k. pose proof (groupby_agg_keys _ _ _ _ Ht) as Hkeys.
  apply count_key_unique.
  - rewrite Hkeys. apply group_keys_NoDup.
  - intros r Hr. apply (group_keys_canon by_ f). rewrite <- Hkeys.
    apply list_elem_of_In, (in_map (λ r, cell_at r by_)). by apply list_elem_of_In.
Qed.

(** Joining a table with at most one row per key keeps the number of rows
    of every key. *)
Lemma merge_unique on L R M cl cr :
  merge_left on L R = Ok M →
  columns L = cl → columns R = cr →
  forallb (λ c, bool_decide (c = on) || negb (bool_decide (c ∈ cr))) cl = true →
  (∀ k, (count_key on k (rows R) ≤ 1)%nat) →
  columns M = cl ++ List.filter (λ c, bool_decide (c ≠ on)) cr
  ∧ ∀ k, count_key on k (rows M) = count_key on k (rows L).
Proof.
  intros Hm <- <- Hc Hu. split; [by apply merge_columns|].
  intros k. rewrite (merge_count on L R M Hm Hc). specialize (Hu k). nia.
Qed.

(** ** Reviews and the rows of the training table *)

Section multiply.

Variable parse_datetime : nat → series → cell → option (Z * option Z).
Variable great_circle_km : Q → Q → Q → Q → Q.

Lemma features_outcome self h d w :
  valid self h →
  outcome (merge_features parse_datetime great_circle_km self d w) h
  = features_of parse_datetime great_circle_km self h d w.
Proof. intros. by apply computes_outcome, merge_features_computes. Qed.

Lemma wait_of_shape self h d W :
  wait_time_of parse_datetime self h d = Ok W →
  columns W = ["order_id"; "wait_time"; "expected_wait_time"; "delay_vs_expected";
               "order_status"].
Proof.
  unfold wait_time_of. intros H. bind_inv H. rewrite wait_time_table_closed in H.
  destruct (missing_col _ _); [done|].
  destruct (wait_error _ _); [done|]. by injection H as <-.
Qed.

Lemma review_of_shape self h Rv :
  review_of self h = Ok Rv →
  ∃ reviews, dataset self h "order_reviews" = Ok reviews
             ∧ columns Rv = ["order_id"; "dim_is_five_star"; "dim_is_one_star";
                             "review_score"]
             ∧ rows Rv = map review_row (rows reviews).
Proof.
  unfold review_of. intros H. bind_inv H. rewrite review_table_closed in H.
  destruct (missing_col _ _); [done|]. injection H as <-. eauto.
Qed.

Lemma items_of_shape self h t :
  items_of self h = Ok t →
  columns t = ["order_id"; "number_of_items"]
  ∧ ∀ k, (count_key "order_id" k (rows t) ≤ 1)%nat.
Proof.
  unfold items_of. intros H. bind_inv H. unfold items_table in H. bind_inv H.
  by apply groupby_cols_shape in H.
Qed.

Lemma sellers_of_shape self h t :
  sellers_of self h = Ok t →
  columns t = ["order_id"; "number_of_sellers"]
  ∧ ∀ k, (count_key "order_id" k (rows t) ≤ 1)%nat.
Proof.
  unfold sellers_of. intros H. bind_inv H. unfold sellers_table in H. bind_inv H.
  by apply groupby_cols_shape in H.
Qed.

Lemma price_of_shape self h t :
  price_of self h = Ok t →
  columns t = ["order_id"; "price"; "freight_value"]
  ∧ ∀ k, (count_key "order_id" k (rows t) ≤ 1)%nat.
Proof.
  unfold price_of. intros H. bind_inv H. unfold price_table in H. bind_inv H.
  by apply groupby_cols_shape in H.
Qed.

Lemma distance_of_shape self h t :
  distance_of great_circle_km self h = Ok t →
  columns t = ["order_id"; "distance_seller_customer"]
  ∧ ∀ k, (count_key "order_id" k (rows t) ≤ 1)%nat.
Proof.
  unfold distance_of. intros H. bind_inv H. unfold distance_table in H.
  by apply groupby_cols_shape in H.
Qed.

Lemma count_key_review_rows k rs :
  count_key "order_id" k (map review_row rs) = count_key "order_id" k rs.
Proof.
  unfold count_key. rewrite filter_map_comm, length_map. done.
Qed.

(** The joined features: the reviews multiply the orders, the other
    tables keep their number. *)
Lemma features_count self h d w W Rv F k :
  wait_time_of parse_datetime self h d = Ok W →
  review_of self h = Ok Rv →
  features_of parse_datetime great_circle_km self h d w = Ok F →
  "order_id" ∈ columns F
  ∧ count_key "order_id" k (rows F)
    = (count_key "order_id" k (rows W)
       * Nat.max 1 (count_key "order_id" k (rows Rv)))%nat.
Proof.
  intros HW HR HF. unfold features_of in HF. rewrite HW, HR in HF.
  cbn [mbind result_bind] in HF. bind_inv HF.
  apply wait_of_shape in HW as HWc.
  destruct (review_of_shape _ _ _ HR) as (reviews & _ & HRc & _).
  assert (no_clash "order_id" W Rv = true) as Hnc.
  { unfold no_clash, has_col. by rewrite HWc, HRc. }
  pose proof (merge_columns _ _ _ _ E Hnc) as Hc1. rewrite HWc, HRc in Hc1.
  rewrite <- (merge_count _ _ _ _ E Hnc k).
  destruct (items_of_shape _ _ _ E0) as [Hic Hiu].
  destruct (merge_unique _ _ _ _ _ _ E1 Hc1 Hic eq_refl Hiu) as [Hc2 Hk2].
  destruct (sellers_of_shape _ _ _ E2) as [Hsc Hsu].
  destruct (merge_unique _ _ _ _ _ _ E3 Hc2 Hsc eq_refl Hsu) as [Hc3 Hk3].
  destruct (price_of_shape _ _ _ E4) as [Hpc Hpu].
  destruct (merge_unique _ _ _ _ _ _ E5 Hc3 Hpc eq_refl Hpu) as [Hc4 Hk4].
  destruct w.
  - bind_inv HF. destruct (distance_of_shape _ _ _ E6) as [Hdc Hdu].
    destruct (merge_unique _ _ _ _ _ _ HF Hc4 Hdc eq_refl Hdu) as [Hc5 Hk5].
    split; [rewrite Hc5; in_cols|]. by rewrite Hk5, Hk4, Hk3, Hk2.
  - injection HF as <-. split; [rewrite Hc4; in_cols|]. by rewrite Hk4, Hk3, Hk2.
Qed.


Lemma count_key_project k cs rs :
  "order_id" ∈ cs →
  count_key "order_id" k (map (project cs) rs) = count_key "order_id" k rs.
Proof.
  intros Hin. unfold count_key. rewrite filter_map_comm, length_map.
  f_equal. apply filter_ext. intros r. by rewrite key_of_project.
Qed.

Lemma filter_filter {A} (f g : A → bool) (l : list A) :
  List.filter f (List.filter g l) = List.filter (λ x, f x && g x) l.
Proof.
  induction l as [|x l IH]; [done|]. cbn.
  destruct (g x); cbn; rewrite ?andb_false_r, ?andb_true_r;
    [destruct (f x)|]; by rewrite IH.
Qed.


End multiply.

(** ** The methods on the example data *)

Ltac run := vm_compute; reflexivity.

Example ex_wait_grid :
  grid ex_wait
  = [[Str "o1"; Num (5 # 2); Num 4; Num 0; Str "delivered"];
     [Str "o2"; Num 8; Num 4; Num 4; Str "delivered"];
     [Str "o4"; NA; Num 4; NA; Str "delivered"]].
Proof. run. Qed.

Example ex_review_grid :
  grid ex_review
  = [[Str "o1"; Int 1; Int 0; Int 5]; [Str "o2"; Int 0; Int 1; Int 1];
     [Str "o2"; Int 0; Int 0; Int 3]; [Str "o4"; Int 0; Int 0; Int 7]].
Proof. run. Qed.

Example ex_distance_grid :
  grid ex_distance
  = [[Str "o1"; Num (5328 # 32)]; [Str "o2"; Num (444 # 4)]; [Str "o4"; NA]].
Proof. run. Qed.

Example ex_training_grid :
  map (λ r, [cell_at r "order_id"; cell_at r "review_score";
             cell_at r "number_of_items"; cell_at r "number_of_sellers";
             cell_at r "price"; cell_at r "freight_value"])
      (rows ex_training)
  = [[Str "o1"; Int 5; Int 2; Int 2; Num 15; Num (4 # 4)];
     [Str "o2"; Int 1; Int 1; Int 1; Num 3; Num 1];
     [Str "o2"; Int 3; Int 1; Int 1; Num 3; Num 1]].
Proof. run. Qed.

(** ** The theorems at the example data *)

Lemma value_ok r : is_ok r = true → r = Ok (value r).
Proof. by destruct r. Qed.

Lemma run_ok r : is_ok r = true → r = Ok (run_loc r, run_heap r).
Proof. by destruct r as [[l h]|]. Qed.

Lemma lookup_default {A} (l : list A) i d :
  (i <? length l)%nat = true → l !! i = Some (default d (l !! i)).
Proof.
  intros H%Nat.ltb_lt. by destruct (lookup_lt_is_Some_2 l i H) as [x ->].
Qed.

Lemma elem_default {A} (l : list A) i d :
  (i <? length l)%nat = true → default d (l !! i) ∈ l.
Proof. intros H. eapply list_elem_of_lookup_2. by apply lookup_default. Qed.

(** Closed goals are settled by evaluation. *)
Ltac eval_eq := lazymatch goal with |- ?a = ?b => exact (eq_refl b <: a = b) end.
Ltac eval_dec :=
  apply (bool_decide_unpack _);
  lazymatch goal with |- ?G => exact (I <: G) end.
Ltac ex_valid := unfold valid; eval_dec.
Ltac ex_ok :=
  lazymatch goal with
  | |- ?r = Ok _ => exact (value_ok r (eq_refl true <: is_ok r = true))
  end.
Ltac ex_run :=
  lazymatch goal with
  | |- ?r = Ok _ => exact (run_ok r (eq_refl true <: is_ok r = true))
  end.
Ltac ex_lookup :=
  lazymatch goal with
  | |- ?l !! ?i = Some _ =>
      exact (lookup_default l i ∅ (eq_refl true <: (i <? length l)%nat = true))
  end.
Ltac ex_elem :=
  lazymatch goal with
  | |- ?x ∈ ?l =>
      let y := eval red in x in
      lazymatch y with
      | default ?d (l !! ?i) =>
          exact (elem_default l i d (eq_refl true <: (i <? length l)%nat = true))
      end
  end.

Lemma training_data_null_free_witness :
  valid ex_self ex_heap
  ∧ outcome (get_training_data iso_datetime grid_km ex_self true true) ex_heap
    = Ok ex_training_distance
  ∧ null_free ex_training_distance.
Proof.
  assert (Hv : valid ex_self ex_heap) by ex_valid.
  assert (Ho : outcome (get_training_data iso_datetime grid_km ex_self true true) ex_heap
               = Ok ex_training_distance) by ex_ok.
  exact (conj Hv (conj Ho
    (training_data_null_free iso_datetime grid_km ex_self ex_heap true true
       ex_training_distance Hv Ho))).
Defined.

Lemma training_data_columns_witness :
  valid ex_self ex_heap
  ∧ outcome (get_training_data iso_datetime grid_km ex_self true true) ex_heap
    = Ok ex_training_distance
  ∧ (columns ex_training_distance =
       ["order_id"; "wait_time"; "expected_wait_time"; "delay_vs_expected";
        "order_status"; "dim_is_five_star"; "dim_is_one_star"; "review_score";
        "number_of_items"; "number_of_sellers"; "price"; "freight_value"]
       ++ ["distance_seller_customer"]
     ∧ ("distance_seller_customer" ∈ columns ex_training_distance ↔ true = true)).
Proof.
  assert (Hv : valid ex_self ex_heap) by ex_valid.
  assert (Ho : outcome (get_training_data iso_datetime grid_km ex_self true true) ex_heap
               = Ok ex_training_distance) by ex_ok.
  exact (conj Hv (conj Ho
    (training_data_columns iso_datetime grid_km ex_self ex_heap true true
       ex_training_distance Hv Ho))).
Defined.


Lemma review_indicators_witness :
  valid ex_self ex_heap
  ∧ outcome (get_review_score ex_self) ex_heap = Ok ex_review
  ∧ ex_review_row ∈ rows ex_review
  ∧ let score := cell_at ex_review_row "review_score" in
    let five := cell_at ex_review_row "dim_is_five_star" in
    let one := cell_at ex_review_row "dim_is_one_star" in
    (five = Int 0 ∨ five = Int 1)
    ∧ (one = Int 0 ∨ one = Int 1)
    ∧ ¬ (five = Int 1 ∧ one = Int 1)
    ∧ (five = Int 1 ↔ has_value score 5)
    ∧ (one = Int 1 ↔ has_value score 1)
    ∧ (¬ (∃ q, to_num score = Some q ∧ (1 <= q <= 5)%Q) → five = Int 0 ∧ one = Int 0).
Proof.
  assert (Hv : valid ex_self ex_heap) by ex_valid.
  assert (Ho : outcome (get_review_score ex_self) ex_heap = Ok ex_review) by ex_ok.
  assert (Hr : ex_review_row ∈ rows ex_review) by ex_elem.
  exact (conj Hv (conj Ho (conj Hr
    (review_indicators ex_self ex_heap ex_review ex_review_row Hv Ho Hr)))).
Defined.




Lemma item_and_seller_counts_witness :
  valid ex_self ex_heap
  ∧ dataset ex_self ex_heap "order_items" = Ok ex_items
  ∧ outcome (get_number_items ex_self) ex_heap = Ok ex_number_items
  ∧ outcome (get_number_sellers ex_self) ex_heap = Ok ex_number_sellers
  ∧ ex_item_row ∈ rows ex_items
  ∧ cell_at ex_item_row "order_id" ≠ NA
  ∧ let k := key_of "order_id" ex_item_row in
    let lines := List.filter (λ r, bool_decide (key_of "order_id" r = k))
                   (rows ex_items) in
    let sellers := remove_dups (List.filter (λ c, negb (is_na c))
                                  (map (key_of "seller_id") lines)) in
    (∃ ri, ri ∈ rows ex_number_items ∧ cell_at ri "order_id" = k)
    ∧ (∀ ri, ri ∈ rows ex_number_items → cell_at ri "order_id" = k →
             cell_at ri "number_of_items" = Int (Z.of_nat (length lines)))
    ∧ (∃ rs, rs ∈ rows ex_number_sellers ∧ cell_at rs "order_id" = k)
    ∧ (∀ rs, rs ∈ rows ex_number_sellers → cell_at rs "order_id" = k →
             cell_at rs "number_of_sellers" = Int (Z.of_nat (length sellers)))
    ∧ (Z.of_nat (length sellers) <= Z.of_nat (length lines))%Z.
Proof.
  assert (Hv : valid ex_self ex_heap) by ex_valid.
  assert (Hd : dataset ex_self ex_heap "order_items" = Ok ex_items) by eval_eq.
  assert (Hi : outcome (get_number_items ex_self) ex_heap = Ok ex_number_items)
    by ex_ok.
  assert (Hs : outcome (get_number_sellers ex_self) ex_heap = Ok ex_number_sellers)
    by ex_ok.
  assert (Hr : ex_item_row ∈ rows ex_items) by ex_elem.
  assert (Hn : cell_at ex_item_row "order_id" ≠ NA) by eval_dec.
  exact (conj Hv (conj Hd (conj Hi (conj Hs (conj Hr (conj Hn
    (item_and_seller_counts ex_self ex_heap ex_items ex_number_items
       ex_number_sellers ex_item_row Hv Hd Hi Hs Hr Hn))))))).
Defined.



(** On the example, the order with two reviews is in the training table
    twice. *)
Example ex_order_twice :
  count_key "order_id" (Str "o2") (rows ex_reviews) = 2%nat
  ∧ count_key "order_id" (Str "o2") (rows ex_wait) = 1%nat
  ∧ count_key "order_id" (Str "o2") (rows ex_training) = 2%nat.
Proof. repeat split; vm_compute; reflexivity. Qed.

Ltac ex_frame :=
  lazymatch goal with
  | |- ?l !! ?i = Some _ =>
      exact (lookup_default l i (Frame [] [])
               (eq_refl true <: (i <? length l)%nat = true))
  end.

(** ** Where the specification departs from the code *)

(** C3 fails as stated: an order delivered eight hours (28800 s) after its
    purchase gets the float64 nearest to 1/3 as [wait_time], not the
    fraction 28800/86400. *)
Lemma wait_time_in_days_counterexample :
  valid one_self third_heap
  ∧ ∃ orders r0 t r,
      dataset one_self third_heap "orders" = Ok orders
      ∧ kept_orders true orders !! 0%nat = Some r0
      ∧ instant (read iso_datetime 0 (kept_orders true orders)
                   "order_purchase_timestamp" r0) = Some 1514764800000000000%Z
      ∧ instant (read iso_datetime 1 (kept_orders true orders)
                   "order_delivered_customer_date" r0)
        = Some (1514764800000000000 + 28800 * 1000000000)%Z
      ∧ outcome (get_wait_time iso_datetime one_self true) third_heap = Ok t
      ∧ rows t !! 0%nat = Some r
      ∧ cell_at r "wait_time" = Num (6004799503160661 # 18014398509481984)
      ∧ ¬ (6004799503160661 # 18014398509481984 == 28800 # 86400)%Q.
Proof.
  split; [ex_valid|].
  eexists _, _, _, _. split; [ex_ok|]. split; [ex_lookup|].
  split; [eval_eq|]. split; [eval_eq|]. split; [ex_ok|]. split; [ex_lookup|].
  split; [eval_eq|]. intros H. vm_compute in H. discriminate H.
Qed.

(** C6 fails as stated: on an order whose purchase timestamp carries a UTC
    offset while its delivery timestamp carries none, [get_wait_time]
    raises [TypeError]. *)
Lemma wait_time_never_raises_counterexample :
  valid one_self offset_heap
  ∧ ∃ orders,
      dataset one_self offset_heap "orders" = Ok orders
      ∧ missing_col ["order_id"; "order_status"; "order_purchase_timestamp";
                     "order_delivered_customer_date";
                     "order_estimated_delivery_date"] orders = None
      ∧ outcome (get_wait_time iso_datetime one_self false) offset_heap
        = Err TypeError.
Proof.
  split; [ex_valid|].
  eexists. split; [ex_ok|]. split; eval_eq.
Qed.

(** C9 fails as stated: on an order whose purchase timestamp is the text
    "now", two calls of [get_training_data] a day apart return different
    tables. *)
Lemma training_data_idempotent_counterexample :
  valid one_self now_heap
  ∧ ∃ l1 l2 h2 t1 t2,
      get_training_data first_run grid_km one_self true false now_heap
      = Ok (l1, now_heap_after)
      ∧ get_training_data second_run grid_km one_self true false now_heap_after
        = Ok (l2, h2)
      ∧ now_heap_after !! l1 = Some t1 ∧ h2 !! l2 = Some t2
      ∧ map (λ r, cell_at r "wait_time") (rows t1) = [Num (3 # 2)]
      ∧ map (λ r, cell_at r "wait_time") (rows t2) = [Num (1 # 2)]
      ∧ t1 ≠ t2.
Proof.
  split; [ex_valid|].
  eexists _, _, _, _, _. split; [ex_run|]. split; [ex_run|].
  split; [ex_frame|]. split; [ex_frame|].
  split; [eval_eq|]. split; [eval_eq|].
  intros H.
  apply (f_equal (λ t, map (λ r, cell_at r "wait_time") (rows t))) in H.
  vm_compute in H. discriminate H.
Qed.

(** ** More on [get_wait_time] *)

Section wait_extra.

Variable parse_datetime : nat → series → cell → option (Z * option Z).

Lemma is_delivered_status_spec c :
  is_delivered_status c = true ↔ c = Str "delivered".
Proof.
  unfold is_delivered_status, key_eqb. split.
  - intros [Hna Hk%bool_decide_eq_true]%andb_true_iff.
    destruct c as [| | |q| | |]; cbn in Hk; try done; try congruence.
    by case_decide.
  - intros ->. done.
Qed.

(** X1: With the filter on, [get_wait_time] returns the orders whose status is
    "delivered", and only these; with the filter off it returns all
    orders.  Either way the rows keep the order of the orders table and
    carry the order's [order_id] and [order_status]. *)
Theorem wait_time_rows_of_orders self h d orders W :
  valid self h →
  dataset self h "orders" = Ok orders →
  outcome (get_wait_time parse_datetime self d) h = Ok W →
  let keep r := if d then bool_decide (cell_at r "order_status" = Str "delivered")
                else true in
  map (λ r, cell_at r "order_id") (rows W)
    = map (λ r, cell_at r "order_id") (List.filter keep (rows orders))
  ∧ map (λ r, cell_at r "order_status") (rows W)
    = map (λ r, cell_at r "order_status") (List.filter keep (rows orders))
  ∧ (d = true →
     Forall (λ r, cell_at r "order_status" = Str "delivered") (rows W)).
Proof.
  intros Hv Ho HW keep.
  destruct (wait_table_rows parse_datetime self h d W Hv HW) as (o' & Ho' & _ & Hrows).
  assert (o' = orders) as -> by congruence.
  assert (kept_orders d orders = List.filter keep (rows orders)) as Hk.
  { unfold kept_orders, keep. destruct d.
    - apply filter_ext. intros r. apply eq_true_iff_eq.
      rewrite is_delivered_status_spec. by rewrite bool_decide_eq_true.
    - by rewrite filter_true. }
  rewrite Hrows. unfold wait_rows. cbn zeta. rewrite !map_map, Hk.
  split; [done|]. split; [done|]. intros ->.
  apply Forall_forall. intros r (r0 & <- & Hr0)%list_elem_of_In%in_map_iff.
  apply filter_In in Hr0 as [_ Hr0]. unfold keep in Hr0.
  by apply bool_decide_eq_true in Hr0.
Qed.

End wait_extra.

(** ** Structural failures *)

Lemma computes_Err m h e : computes m h (Err e) → m h = Err e.
Proof.
  unfold computes, wp. destruct (m h) as [[l h']|e'].
  - by intros (_ & f & ? & _).
  - by intros [= ->].
Qed.

Lemma remove_dups_NoDup {A} `{EqDecision A} (l : list A) :
  NoDup l → remove_dups l = l.
Proof.
  induction 1 as [|x l Hx _ IH]; [done|]. cbn [remove_dups].
  destruct (decide_rel (∈) x l); [done|]. by rewrite IH.
Qed.

(** For distinct labels, the missing ones are listed as they are selected. *)
Lemma missing_cols_NoDup cols f :
  NoDup cols → missing_cols cols f = List.filter (λ c, negb (has_col c f)) cols.
Proof.
  intros Hnd. unfold missing_cols. rewrite remove_dups_NoDup, rev_involutive; [done|].
  apply NoDup_ListNoDup, List.NoDup_rev, List.NoDup_filter. by apply NoDup_ListNoDup.
Qed.

Lemma missing_col_filter cols f :
  missing_col cols f = None → List.filter (λ c, negb (has_col c f)) cols = [].
Proof.
  unfold missing_col. induction cols as [|c cols IH]; [done|]. cbn.
  destruct (negb (has_col c f)); [done|]. exact IH.
Qed.

Section failures.

Variable parse_datetime : nat → series → cell → option (Z * option Z).
Variable great_circle_km : Q → Q → Q → Q → Q.

(** X2: Without an "orders" dataset, [get_wait_time] and [get_training_data]
    raise [KeyError: 'orders'], whatever else the dictionary holds. *)
Theorem missing_orders_dataset self h d w :
  data self !! "orders" = None →
  get_wait_time parse_datetime self d h = Err (KeyError "orders")
  ∧ get_training_data parse_datetime great_circle_km self d w h
    = Err (KeyError "orders").
Proof.
  intros Hd.
  assert (get_wait_time parse_datetime self d h = Err (KeyError "orders")) as Hw.
  { unfold get_wait_time, dict_getitem, lift, mbind, M_bind. by rewrite Hd. }
  split; [done|].
  unfold get_training_data, merge_features, mbind, M_bind. fold (@mbind M _).
  unfold mbind, M_bind in Hw. by rewrite Hw.
Qed.


End failures.

(** ** Price and freight, and the keys of the grouped tables *)

Lemma price_outcome self h :
  valid self h →
  outcome (get_price_and_freight self) h = dataset self h "order_items" ≫= price_table.
Proof. intros. by apply computes_outcome, get_price_and_freight_computes. Qed.

(** With two aggregates: the values in the row of a key. *)
Lemma groupby_two_Ok by_ cols n1 a1 n2 a2 f t :
  groupby_cols by_ cols [(n1, a1); (n2, a2)] f = Ok t →
  by_ ≠ n1 → by_ ≠ n2 → n1 ≠ n2 →
  ∀ r, r ∈ rows t →
    cell_at r by_ ∈ group_keys by_ f
    ∧ a1 (group_rows by_ f (cell_at r by_)) = Ok (cell_at r n1)
    ∧ a2 (group_rows by_ f (cell_at r by_)) = Ok (cell_at r n2).
Proof.
  intros Ht%groupby_cols_Ok H1 H2 H12 r Hr.
  apply groupby_agg_Ok in Ht as [_ H].
  destruct (proj1 (list_elem_of_lookup _ _) Hr) as [i Hi].
  destruct (Forall2_lookup_r _ _ _ _ _ H Hi) as (k & Hk & vs & Hvs & ->).
  rewrite cell_at_mk_row_eq. split; [by eapply list_elem_of_lookup_2|].
  apply Forall2_cons_inv_l in Hvs as ([m1 v1] & vs' & [E1 V1] & Hvs & ->).
  apply Forall2_cons_inv_l in Hvs as ([m2 v2] & vs'' & [E2 V2] & Hnil & ->).
  apply Forall2_nil_inv_l in Hnil as ->. cbn [fst snd] in *. subst m1 m2.
  split.
  - rewrite cell_at_mk_row_ne by done. by rewrite cell_at_mk_row_eq.
  - rewrite cell_at_mk_row_ne by done. rewrite cell_at_mk_row_ne by done.
    by rewrite cell_at_mk_row_eq.
Qed.

Lemma integers_Some s zs : integers s = Some zs → omap to_num s = map inject_Z zs.
Proof.
  revert zs. induction s as [|c s IH]; intros zs; cbn.
  - by intros [= <-].
  - destruct c; try done. destruct (integers s) as [zs'|]; cbn; [|done].
    intros [= <-]. cbn. f_equal. by apply IH.
Qed.

Lemma Qsum_inject_Z zs : Qsum (map inject_Z zs) == inject_Z (foldr Z.add 0%Z zs).
Proof.
  induction zs as [|z zs IH]; [done|]. cbn [map foldr Qsum] in *.
  fold (Qsum (map inject_Z zs)). rewrite IH. by rewrite inject_Z_plus.
Qed.

(** [.sum()] adds the numeric values of the non-null cells. *)
Lemma agg_sum_Ok c rs v :
  agg_sum c rs = Ok v →
  ∃ q, to_num v = Some q ∧ q == Qsum (omap to_num (map (λ r, cell_at r c) rs)).
Proof.
  unfold agg_sum. cbn zeta. destruct (integers _) as [zs|] eqn:Hz.
  - intros [= <-]. eexists. split; [done|].
    rewrite (integers_Some _ _ Hz). symmetry. apply Qsum_inject_Z.
  - intros H. bind_inv H. injection H as <-. apply numbers_Ok in E as [-> _].
    eexists. split; [done|]. reflexivity.
Qed.


(** X5: The three tables grouped from the item lines list the same orders in
    the same order: each distinct non-null order identifier of the item
    lines once, and nothing else. *)
Theorem grouped_order_ids self h items ti ts tp :
  valid self h →
  dataset self h "order_items" = Ok items →
  outcome (get_number_items self) h = Ok ti →
  outcome (get_number_sellers self) h = Ok ts →
  outcome (get_price_and_freight self) h = Ok tp →
  let ids t := map (λ r, cell_at r "order_id") (rows t) in
  ids ts = ids ti ∧ ids tp = ids ti ∧ NoDup (ids ti)
  ∧ ∀ k, k ∈ ids ti ↔ k ≠ NA ∧ ∃ l, l ∈ rows items ∧ key_of "order_id" l = k.
Proof.
  intros Hv Hi Hti Hts Htp ids.
  rewrite items_outcome, Hi in Hti by done.
  rewrite sellers_outcome, Hi in Hts by done.
  rewrite price_outcome, Hi in Htp by done.
  cbn [mbind result_bind] in Hti, Hts, Htp.
  unfold items_table in Hti. unfold sellers_table in Hts. unfold price_table in Htp.
  bind_inv Hti. bind_inv Hts. bind_inv Htp.
  apply getitem_cols_Ok in E as [-> _]. apply getitem_cols_Ok in E0 as [-> _].
  apply getitem_cols_Ok in E1 as [-> _].
  apply groupby_cols_Ok, groupby_agg_keys in Hti, Hts, Htp.
  rewrite (group_keys_project _ _ _ (columns items)) in Hti by in_cols.
  rewrite (group_keys_project _ _ _ (columns items)) in Hts by in_cols.
  rewrite (group_keys_project _ _ _ (columns items)) in Htp by in_cols.
  unfold ids. rewrite Hti, Hts, Htp. split; [done|]. split; [done|].
  split; [apply group_keys_NoDup|]. intros k.
  apply (group_keys_spec "order_id" (Frame (columns items) (rows items))).
Qed.

(** ** Where the rows of the training table come from *)

Lemma cell_at_mk_row_app_r l1 l2 c :
  c ∉ map fst l1 → cell_at (mk_row (l1 ++ l2)) c = cell_at (mk_row l2) c.
Proof.
  induction l1 as [|[k v] l1 IH]; [done|]. cbn [map fst app]. intros Hc.
  rewrite cell_at_mk_row_cons. case_decide as E.
  - subst. exfalso. apply Hc. apply list_elem_of_here.
  - apply IH. intros H. apply Hc. by apply list_elem_of_further.
Qed.

Section merge_cells.

Variables (on : string) (L R M : frame).
Hypothesis Hmerge : merge_left on L R = Ok M.
Hypothesis Hclash : no_clash on L R = true.

Lemma join_row_left lr rr c :
  c ∈ columns L → cell_at (join_row on L R lr rr) c = cell_at lr c.
Proof using Hclash.
  intros Hc. unfold join_row.
  apply (cell_at_mk_row_app_map _ (cell_at lr) _ _ c c Hc).
  - by apply (no_clash_name on L R Hclash).
  - intros c' Hc' Hn. rewrite (no_clash_name on L R Hclash) in Hn by done. by subst.
Qed.

Lemma no_clash_right c : c ∈ columns R → c ≠ on → c ∉ columns L.
Proof using Hclash.
  intros HR Hne HL. unfold no_clash in Hclash. rewrite forallb_forall in Hclash.
  apply list_elem_of_In, Hclash in HL.
  rewrite bool_decide_eq_false_2 in HL by done. unfold has_col in HL.
  by rewrite bool_decide_eq_true_2 in HL.
Qed.

Lemma join_row_right lr rr c :
  c ∈ columns R → c ≠ on →
  cell_at (join_row on L R lr rr) c
  = match rr with Some r => right_cell on L R c r | None => NA end.
Proof using Hclash.
  intros HR Hne. unfold join_row.
  assert (∀ c', c' ∈ List.filter (λ c, bool_decide (c ≠ on)) (columns R) →
            (if bool_decide (c' ≠ on) && has_col c' L && has_col c' R
             then c' +:+ "_y" else c') = c') as Hname.
  { intros c' [Hc' Hn]%list_elem_of_In%filter_In. rewrite Hn.
    apply list_elem_of_In in Hc'. apply bool_decide_eq_true in Hn.
    pose proof (no_clash_right c' Hc' Hn) as HL. unfold has_col at 1.
    by rewrite (bool_decide_eq_false_2 _ HL). }
  rewrite cell_at_mk_row_app_r.
  - rewrite <- (app_nil_r (map _ (List.filter _ _))).
    apply (cell_at_mk_row_app_map _
             (λ c, match rr with Some r => right_cell on L R c r | None => NA end)
             _ _ c c).
    + apply list_elem_of_In, filter_In. split; [by apply list_elem_of_In|].
      by apply bool_decide_eq_true.
    + apply Hname. apply list_elem_of_In, filter_In.
      split; [by apply list_elem_of_In|]. by apply bool_decide_eq_true.
    + intros c' Hc' Hn. rewrite Hname in Hn by done. by subst.
  - rewrite map_map. cbn [fst].
    rewrite (map_ext_in _ id), map_id; [by apply no_clash_right|].
    intros c' Hc'%list_elem_of_In. by apply (no_clash_name on L R Hclash).
Qed.

Lemma right_cell_spec c x : same_or_upcast (right_cell on L R c x) (cell_at x c).
Proof.
  unfold right_cell, same_or_upcast.
  destruct (unmatched on L R && int_column c R); auto.
Qed.

(** A row of a left join continues a left row: it has the left row's cells
    and either nulls or the cells of a right row of the same key, integers
    of which may have become float64. *)
Lemma merge_row_cells r :
  r ∈ rows M →
  ∃ lr, lr ∈ rows L
    ∧ (∀ c, c ∈ columns L → cell_at r c = cell_at lr c)
    ∧ ((∀ c, c ∈ columns R → c ≠ on → cell_at r c = NA)
       ∨ ∃ x, x ∈ rows R
              ∧ key_eqb (cell_at r on) (cell_at x on) = true
              ∧ ∀ c, c ∈ columns R → c ≠ on →
                     same_or_upcast (cell_at r c) (cell_at x c)).
Proof using Hmerge Hclash.
  rewrite (merge_rows on L R M Hmerge).
  intros (lr & Hlr & Hr)%list_elem_of_In%in_flat_map.
  exists lr. split; [by apply list_elem_of_In|].
  destruct (matches on R lr) as [|m ms] eqn:Hm.
  - destruct Hr as [<-|[]]. split; [intros c Hc; by apply join_row_left|].
    left. intros c Hc Hne. by rewrite join_row_right.
  - apply in_map_iff in Hr as (x & <- & Hx).
    split; [intros c Hc; by apply join_row_left|].
    right. exists x. rewrite <- Hm in Hx. unfold matches in Hx.
    apply filter_In in Hx as [Hx1 Hx2]. split; [by apply list_elem_of_In|].
    split; [by rewrite (join_row_key on L R M Hmerge Hclash)|].
    intros c Hc Hne. rewrite join_row_right by done. apply right_cell_spec.
Qed.

End merge_cells.

(** One step back along a chain of joins, for a row [f] that agrees with
    the joined row and has a value in a column of the right table. *)
Lemma merge_step on L R M cl cr (f r : row) c0 :
  merge_left on L R = Ok M →
  columns L = cl → columns R = cr →
  forallb (λ c, bool_decide (c = on) || negb (bool_decide (c ∈ cr))) cl = true →
  r ∈ rows M →
  (∀ c, c ∈ columns M → cell_at f c = cell_at r c) →
  c0 ∈ cr → c0 ≠ on → cell_at f c0 ≠ NA →
  columns M = cl ++ List.filter (λ c, bool_decide (c ≠ on)) cr
  ∧ (∃ lr, lr ∈ rows L ∧ ∀ c, c ∈ cl → cell_at f c = cell_at lr c)
  ∧ (∃ x, x ∈ rows R
          ∧ key_eqb (cell_at f on) (cell_at x on) = true
          ∧ ∀ c, c ∈ cr → c ≠ on → same_or_upcast (cell_at f c) (cell_at x c)).
Proof.
  intros Hm <- <- Hc Hr Hf Hc0 Hne Hna.
  pose proof (merge_columns on L R M Hm Hc) as HM.
  destruct (merge_has_key on L R M Hm) as [HonL _].
  assert (∀ c, c ∈ columns L → c ∈ columns M) as HLM.
  { intros c Hin. rewrite HM. apply elem_of_app. by left. }
  assert (∀ c, c ∈ columns R → c ≠ on → c ∈ columns M) as HRM.
  { intros c Hin Hn. rewrite HM. apply elem_of_app. right.
    apply list_elem_of_In, filter_In. split; [by apply list_elem_of_In|].
    by apply bool_decide_eq_true. }
  split; [done|].
  destruct (merge_row_cells on L R M Hm Hc r Hr) as (lr & Hlr & HL & HR).
  split.
  { exists lr. split; [done|]. intros c Hin. rewrite Hf by auto. by apply HL. }
  destruct HR as [HR|(x & Hx & Hk & HR)].
  { exfalso. apply Hna. rewrite Hf by auto. by apply HR. }
  exists x. split; [done|]. split; [by rewrite Hf by auto|].
  intros c Hin Hn. rewrite Hf by auto. by apply HR.
Qed.

Lemma sub_cols (a b : list string) :
  forallb (λ c, bool_decide (c ∈ b)) a = true → ∀ c, c ∈ a → c ∈ b.
Proof.
  rewrite forallb_forall. intros H c Hc%list_elem_of_In.
  specialize (H c Hc). by apply bool_decide_eq_true in H.
Qed.

Section provenance.

Variable parse_datetime : nat → series → cell → option (Z * option Z).
Variable great_circle_km : Q → Q → Q → Q → Q.

End provenance.

(** ** Loading the datasets *)

Section olist_proofs.

Variable listing : list string.
Variable suffix : string → string.
Variable read_csv : string → result frame.

Lemma zip_key_names (ps : list string) :
  zip (map key_name ps) ps = map (λ p, (key_name p, p)) ps.
Proof. induction ps as [|p ps IH]; [done|]. cbn. by rewrite IH. Qed.

Lemma last_cons_filter k p ps :
  last (List.filter (λ p, bool_decide (key_name p = k)) (p :: ps))
  = match last (List.filter (λ p, bool_decide (key_name p = k)) ps) with
    | Some q => Some q
    | None => if bool_decide (key_name p = k) then Some p else None
    end.
Proof.
  cbn [List.filter]. destruct (bool_decide (key_name p = k)); [|by destruct (last _)].
  destruct (List.filter _ ps) as [|q qs]; [done|]. rewrite last_cons.
  by destruct (last (q :: qs)).
Qed.

Lemma read_all_spec ps acc h d h' :
  read_all read_csv (map (λ p, (key_name p, p)) ps) acc h = Ok (d, h') →
  map_Forall (λ _ l, (l < length h)%nat) acc →
  h `prefix_of` h'
  ∧ length h' = (length h + length ps)%nat
  ∧ map_Forall (λ _ l, (l < length h')%nat) d
  ∧ (∀ k l, d !! k = Some l → acc !! k = Some l ∨ (length h ≤ l)%nat)
  ∧ ∀ k, dataset {| data := d |} h' k
         = match last (List.filter (λ p, bool_decide (key_name p = k)) ps) with
           | Some p => read_csv p
           | None => dataset {| data := acc |} h' k
           end.
Proof.
  revert acc h. induction ps as [|p ps IH]; intros acc h Hrun Hacc.
  - cbn in Hrun. injection Hrun as <- <-. split; [done|]. split; [cbn; lia|].
    split; [done|]. split; [by left|]. done.
  - cbn [map read_all] in Hrun. unfold mbind, M_bind, lift, alloc in Hrun.
    fold (@mbind M _) in Hrun.
    destruct (read_csv p) as [f|e] eqn:Hp; [|done].
    apply IH in Hrun as (Hpre & Hlen & Hd & Hfresh & Hdata).
    2:{ apply map_Forall_insert_2.
        - rewrite length_app. cbn. lia.
        - eapply map_Forall_impl; [exact Hacc|]. cbn. intros _ l Hl.
          rewrite length_app. cbn. lia. }
    rewrite length_app in Hlen, Hfresh. cbn [length] in Hlen, Hfresh.
    split; [etransitivity; [|exact Hpre]; by apply prefix_app_r|].
    split; [cbn [length]; lia|]. split; [done|]. split.
    { intros k l Hk. destruct (Hfresh k l Hk) as [Hin|Hge]; [|right; lia].
      destruct (decide (key_name p = k)) as [<-|Hne].
      - rewrite lookup_insert_eq in Hin. injection Hin as <-. right. lia.
      - rewrite lookup_insert_ne in Hin by done. by left. }
    intros k. rewrite Hdata, last_cons_filter.
    destruct (last _) as [q|]; [done|].
    case_bool_decide as Hk.
    + subst k. unfold dataset. cbn [data]. rewrite lookup_insert_eq.
      assert ((h ++ [f]) !! length h = Some f) as Hf.
      { rewrite lookup_app_r by lia. by rewrite Nat.sub_diag. }
      by rewrite (prefix_lookup_Some _ _ _ _ Hf Hpre).
    + unfold dataset. cbn [data]. by rewrite lookup_insert_ne.
Qed.

(** X7: [Order()] returns a valid instance: the heap grows by one DataFrame
    per csv file, the dictionary refers to these new objects only, and the
    dataset under a key is what [read_csv] gave for the last csv file of
    the listing with that key; a key of no csv file is a [KeyError]. *)
Theorem init_datasets h self h' :
  __init__ listing suffix read_csv h = Ok (self, h') →
  valid self h'
  ∧ h `prefix_of` h'
  ∧ length h' = (length h + length (file_paths listing suffix))%nat
  ∧ (∀ k l, data self !! k = Some l → (length h ≤ l)%nat)
  ∧ ∀ k, dataset self h' k = match file_of listing suffix k with
                              | Some p => read_csv p
                              | None => Err (KeyError k)
                              end.
Proof.
  unfold __init__, get_data, key_names. rewrite zip_key_names.
  unfold mbind at 1, M_bind.
  destruct (read_all _ _ _ h) as [[d h'']|] eqn:Hrun; [|done].
  intros [= <- <-]. apply read_all_spec in Hrun as (Hpre & Hlen & Hd & Hfresh & Hdata);
    [|apply map_Forall_empty].
  split; [done|]. split; [done|]. split; [done|]. split.
  { intros k l Hk. by destruct (Hfresh k l Hk) as [?|?]. }
  intros k. rewrite Hdata. unfold file_of. by destruct (last _).
Qed.

Lemma read_all_ok ps acc h :
  is_ok (read_all read_csv (map (λ p, (key_name p, p)) ps) acc h)
  = forallb (λ p, is_ok (read_csv p)) ps.
Proof.
  revert acc h. induction ps as [|p ps IH]; intros acc h; [done|].
  cbn [map read_all forallb]. unfold mbind, M_bind, lift, alloc. fold (@mbind M _).
  destruct (read_csv p); [|done]. cbn [is_ok andb]. apply IH.
Qed.

(** X8: [Order()] returns exactly when every csv file of the listing can be
    read; files with another suffix are not looked at. *)
Theorem init_returns_iff h :
  is_ok (__init__ listing suffix read_csv h)
  = forallb (λ p, is_ok (read_csv p)) (file_paths listing suffix).
Proof.
  rewrite <- (read_all_ok _ ∅ h). unfold __init__, get_data, key_names.
  rewrite zip_key_names. unfold mbind at 1, M_bind.
  by destruct (read_all _ _ _ h) as [[d h'']|].
Qed.

Lemma read_all_raises ps1 p ps2 e acc h :
  forallb (λ q, is_ok (read_csv q)) ps1 = true →
  read_csv p = Err e →
  read_all read_csv (map (λ p, (key_name p, p)) (ps1 ++ p :: ps2)) acc h = Err e.
Proof.
  revert acc h. induction ps1 as [|q ps1 IH]; intros acc h Hok Hp.
  - cbn [app map read_all]. unfold mbind, M_bind, lift. by rewrite Hp.
  - cbn [forallb] in Hok. apply andb_true_iff in Hok as [Hq Hok].
    cbn [app map read_all]. unfold mbind, M_bind, lift, alloc. fold (@mbind M _).
    destruct (read_csv q); [|done]. by apply IH.
Qed.

(** X9: [Order()] raises what [read_csv] raises for the first csv file of the
    listing that cannot be read. *)
Theorem init_raises h ps1 p ps2 e :
  file_paths listing suffix = ps1 ++ p :: ps2 →
  forallb (λ q, is_ok (read_csv q)) ps1 = true →
  read_csv p = Err e →
  __init__ listing suffix read_csv h = Err e.
Proof.
  intros Hfiles Hok Hp. unfold __init__, get_data, key_names.
  rewrite zip_key_names, Hfiles. unfold mbind at 1, M_bind.
  by rewrite (read_all_raises _ _ _ e).
Qed.

(** X10: The review table of a fresh [Order()] is computed from the last csv
    file whose key is "order_reviews"; without such a file the method
    raises [KeyError: 'order_reviews']. *)
Theorem init_then_review_score h self h' :
  __init__ listing suffix read_csv h = Ok (self, h') →
  outcome (get_review_score self) h'
  = match file_of listing suffix "order_reviews" with
    | Some p => read_csv p ≫= review_table
    | None => Err (KeyError "order_reviews")
    end.
Proof.
  unfold __init__, get_data, key_names. rewrite zip_key_names.
  unfold mbind at 1, M_bind.
  destruct (read_all _ _ _ h) as [[d h'']|] eqn:Hrun; [|done].
  intros [= <- <-]. apply read_all_spec in Hrun as (_ & _ & Hv & _ & Hdata);
    [|apply map_Forall_empty].
  rewrite review_outcome, Hdata by done. unfold file_of. by destruct (last _).
Qed.

End olist_proofs.

(** ** Keys from file names *)

Lemma append_cons a (s t : string) : String a s +:+ t = String a (s +:+ t).
Proof. done. Qed.

Lemma append_nil_r (s : string) : s +:+ "" = s.
Proof. induction s as [|x s IH]; [done|]. by rewrite append_cons, IH. Qed.

Lemma append_assoc (a b c : string) : (a +:+ b) +:+ c = a +:+ (b +:+ c).
Proof. induction a as [|x a IH]; [done|]. by rewrite !append_cons, IH. Qed.

Lemma length_append (s t : string) :
  String.length (s +:+ t) = (String.length s + String.length t)%nat.
Proof. induction s as [|x s IH]; [done|]. rewrite append_cons. cbn. by rewrite IH. Qed.

Lemma prefix_app_irrelevant p u v :
  (String.length p ≤ String.length u)%nat →
  String.prefix p (u +:+ v) = String.prefix p u.
Proof.
  revert u. induction p as [|a p IH]; intros u Hlen;
    [destruct u; [by destruct v|done]|].
  destruct u as [|b u]; [cbn in Hlen; lia|]. rewrite append_cons. cbn.
  destruct (ascii_dec a b); [|done]. apply IH. cbn in Hlen. lia.
Qed.

Lemma prefix_self_app p s : String.prefix p (p +:+ s) = true.
Proof.
  induction p as [|a p IH]; [by destruct s|]. rewrite append_cons. cbn.
  by destruct (ascii_dec a a).
Qed.

Lemma replace_from_skip old new t s :
  replace_from old new (String.length t) (t +:+ s) = replace_from old new 0 s.
Proof. induction t as [|a t IH]; [done|]. by rewrite append_cons. Qed.

Lemma replace_head a o new s :
  replace (String a o) new (String a o +:+ s) = new +:+ replace (String a o) new s.
Proof.
  unfold replace. rewrite append_cons. cbn [replace_from].
  rewrite <- append_cons, prefix_self_app.
  replace (String.length (String a o) - 1)%nat with (String.length o)
    by (cbn [String.length]; lia).
  by rewrite replace_from_skip.
Qed.

Lemma replace_absent old new s : occurs old s = false → replace old new s = s.
Proof.
  unfold replace. induction s as [|a s IH]; [done|]. cbn [occurs replace_from].
  intros [Hp Ho]%orb_false_iff. rewrite Hp. by rewrite IH.
Qed.

(** An occurrence at the end, when it is the first one, is cut off. *)
Lemma replace_end o z x :
  occurs (o +:+ String z "") (x +:+ o) = false →
  replace (o +:+ String z "") "" (x +:+ (o +:+ String z "")) = x.
Proof.
  set (old := o +:+ String z "").
  assert (∃ a o', old = String a o') as (a & o' & Hold).
  { unfold old. destruct o; [by eexists _, _|]. rewrite append_cons. by eexists _, _. }
  induction x as [|c x IH].
  - intros _. change ("" +:+ old) with old. rewrite <- (append_nil_r old) at 2.
    rewrite Hold. rewrite replace_head. by rewrite replace_absent.
  - rewrite !append_cons. cbn [occurs]. intros [Hp Ho]%orb_false_iff.
    unfold replace. cbn [replace_from].
    replace (String.prefix old (String c (x +:+ old))) with false.
    + f_equal. by apply IH.
    + rewrite <- Hp.
      replace (String c (x +:+ old)) with (String c (x +:+ o) +:+ String z "")
        by (unfold old; by rewrite append_cons, append_assoc).
      symmetry. apply prefix_app_irrelevant.
      unfold old. cbn [String.length].
      rewrite !length_append. cbn [String.length]. lia.
Qed.

(** X11: The key of an Olist file name [olist_<b>_dataset.csv] is [<b>],
    provided each of the three parts cut off occurs where expected for the
    first time: ".csv" and "_dataset" at the end of what is left, and
    "olist_" not again in [<b>]. *)
Theorem key_name_olist b :
  occurs ".csv" ("olist_" +:+ b +:+ "_dataset.cs") = false →
  occurs "_dataset" ("olist_" +:+ b +:+ "_datase") = false →
  occurs "olist_" b = false →
  key_name ("olist_" +:+ b +:+ "_dataset.csv") = b.
Proof.
  intros H1 H2 H3. unfold key_name.
  assert (replace ".csv" "" ("olist_" +:+ b +:+ "_dataset.csv")
          = "olist_" +:+ b +:+ "_dataset") as ->.
  { pose proof (replace_end ".cs" "v" ("olist_" +:+ b +:+ "_dataset")) as E.
    rewrite !append_assoc in E. exact (E H1). }
  assert (replace "_dataset" "" ("olist_" +:+ b +:+ "_dataset") = "olist_" +:+ b) as ->.
  { pose proof (replace_end "_datase" "t" ("olist_" +:+ b)) as E.
    rewrite !append_assoc in E. exact (E H2). }
  rewrite (replace_head "o" "list_" "" b). by apply replace_absent.
Qed.

(** ** Methods that cannot fail on the cells *)

Lemma missing_col_present cols f :
  Forall (λ c, c ∈ columns f) cols → missing_col cols f = None.
Proof.
  unfold missing_col. induction 1 as [|c cs Hc _ IH]; [done|]. cbn [List.find].
  unfold has_col at 1. by rewrite (bool_decide_eq_true_2 _ Hc).
Qed.

(** X12: On a reviews table that has the columns "order_id" and
    "review_score", [get_review_score] returns whatever the cells hold, and
    the two columns come back unchanged, row by row. *)
Theorem review_score_total self h reviews :
  valid self h →
  dataset self h "order_reviews" = Ok reviews →
  "order_id" ∈ columns reviews →
  "review_score" ∈ columns reviews →
  ∃ t, outcome (get_review_score self) h = Ok t
       ∧ map (λ r, cell_at r "order_id") (rows t)
         = map (λ r, cell_at r "order_id") (rows reviews)
       ∧ map (λ r, cell_at r "review_score") (rows t)
         = map (λ r, cell_at r "review_score") (rows reviews).
Proof.
  intros Hv Hd Hid Hsc. rewrite review_outcome, Hd by done.
  cbn [mbind result_bind]. rewrite review_table_closed.
  rewrite missing_col_present by (by repeat constructor).
  eexists. split; [done|]. cbn [rows]. by rewrite !map_map.
Qed.

Lemma mapR_total {A B} (f : A → result B) l :
  Forall (λ x, is_ok (f x) = true) l → is_ok (mapR f l) = true.
Proof.
  induction 1 as [|x l Hx _ IH]; [done|]. cbn [mapR].
  destruct (f x); [|done]. cbn [mbind result_bind].
  by destruct (mapR f l).
Qed.

(** Keys that are text or numbers can be sorted. *)
Lemma text_or_number_sortable by_ f :
  Forall (λ r, text_or_number (cell_at r by_) = true) (rows f) →
  sortable (group_keys by_ f) = true.
Proof.
  intros H. unfold sortable.
  assert (∀ k, k ∈ List.filter (λ k, negb (is_text k)) (group_keys by_ f) →
               kind k = 1%nat) as Hk.
  { intros k [Hin Ht]%list_elem_of_In%filter_In.
    apply list_elem_of_In, group_keys_spec in Hin as (Hna & r & Hr & <-).
    rewrite Forall_forall in H. specialize (H r Hr). unfold key_of in *.
    destruct (cell_at r by_) as [| | |q| | |]; try done.
    cbn in *. by case_decide. }
  destruct (List.filter _ (group_keys by_ f)) as [|k ks]; [done|].
  apply forallb_forall. intros k' Hk'%list_elem_of_In. apply Nat.eqb_eq.
  rewrite (Hk k) by apply list_elem_of_here.
  apply Hk. by apply list_elem_of_further.
Qed.

Lemma groupby_cols_total by_ cols aggs f :
  by_ ∈ columns f →
  Forall (λ c, c ∈ columns f) cols →
  sortable (group_keys by_ f) = true →
  Forall (λ a : string * (list row → result cell), ∀ rs, is_ok (a.2 rs) = true) aggs →
  is_ok (groupby_cols by_ cols aggs f) = true.
Proof.
  intros Hby Hcols Hsort Haggs. unfold groupby_cols, groupby_agg, has_col.
  rewrite (bool_decide_eq_true_2 _ Hby). cbn [negb].
  rewrite missing_col_present by done. rewrite Hsort. cbn [negb].
  match goal with |- context [mapR ?g (group_keys by_ f)] =>
    pose proof (mapR_total g (group_keys by_ f)) as Hk end.
  destruct (mapR _ (group_keys by_ f)); [done|]. apply Hk.
  apply Forall_forall. intros k _.
  match goal with |- context [mapR ?g aggs] =>
    pose proof (mapR_total g aggs) as Ha end.
  destruct (mapR _ aggs); [done|]. exfalso. enough (false = true) by done.
  apply Ha. eapply Forall_impl; [exact Haggs|]. intros a Hok. cbn beta.
  specialize (Hok (group_rows by_ f k)). by destruct (a.2 _).
Qed.


(** ** The further theorems at the example data *)

Lemma new_ok r : is_ok r = true → r = Ok (new_self r, new_heap r).
Proof. by destruct r as [[s h]|]. Qed.

Lemma wait_time_rows_of_orders_witness :
  valid ex_self ex_heap
  ∧ dataset ex_self ex_heap "orders" = Ok ex_orders
  ∧ outcome (get_wait_time iso_datetime ex_self true) ex_heap = Ok ex_wait
  ∧ let keep r := bool_decide (cell_at r "order_status" = Str "delivered") in
    map (λ r, cell_at r "order_id") (rows ex_wait)
      = map (λ r, cell_at r "order_id") (List.filter keep (rows ex_orders))
    ∧ map (λ r, cell_at r "order_status") (rows ex_wait)
      = map (λ r, cell_at r "order_status") (List.filter keep (rows ex_orders))
    ∧ (true = true →
       Forall (λ r, cell_at r "order_status" = Str "delivered") (rows ex_wait)).
Proof.
  assert (Hv : valid ex_self ex_heap) by ex_valid.
  assert (Hd : dataset ex_self ex_heap "orders" = Ok ex_orders) by reflexivity.
  assert (Ho : outcome (get_wait_time iso_datetime ex_self true) ex_heap = Ok ex_wait)
    by ex_ok.
  exact (conj Hv (conj Hd (conj Ho
    (wait_time_rows_of_orders iso_datetime ex_self ex_heap true ex_orders ex_wait
       Hv Hd Ho)))).
Defined.

Lemma missing_orders_dataset_witness :
  data {| data := ∅ |} !! "orders" = None
  ∧ get_wait_time iso_datetime {| data := ∅ |} true ex_heap = Err (KeyError "orders")
  ∧ get_training_data iso_datetime grid_km {| data := ∅ |} true false ex_heap
    = Err (KeyError "orders").
Proof.
  assert (Hd : data {| data := ∅ |} !! "orders" = None) by reflexivity.
  exact (conj Hd
    (missing_orders_dataset iso_datetime grid_km {| data := ∅ |} ex_heap true false Hd)).
Defined.



Lemma grouped_order_ids_witness :
  valid ex_self ex_heap
  ∧ dataset ex_self ex_heap "order_items" = Ok ex_items
  ∧ outcome (get_number_items ex_self) ex_heap = Ok ex_number_items
  ∧ outcome (get_number_sellers ex_self) ex_heap = Ok ex_number_sellers
  ∧ outcome (get_price_and_freight ex_self) ex_heap = Ok ex_price
  ∧ let ids t := map (λ r, cell_at r "order_id") (rows t) in
    ids ex_number_sellers = ids ex_number_items
    ∧ ids ex_price = ids ex_number_items
    ∧ NoDup (ids ex_number_items)
    ∧ ∀ k, k ∈ ids ex_number_items
           ↔ k ≠ NA ∧ ∃ l, l ∈ rows ex_items ∧ key_of "order_id" l = k.
Proof.
  assert (Hv : valid ex_self ex_heap) by ex_valid.
  assert (Hd : dataset ex_self ex_heap "order_items" = Ok ex_items) by reflexivity.
  assert (Hi : outcome (get_number_items ex_self) ex_heap = Ok ex_number_items)
    by ex_ok.
  assert (Hs : outcome (get_number_sellers ex_self) ex_heap = Ok ex_number_sellers)
    by ex_ok.
  assert (Hp : outcome (get_price_and_freight ex_self) ex_heap = Ok ex_price) by ex_ok.
  exact (conj Hv (conj Hd (conj Hi (conj Hs (conj Hp
    (grouped_order_ids ex_self ex_heap ex_items ex_number_items ex_number_sellers
       ex_price Hv Hd Hi Hs Hp)))))).
Defined.


Lemma init_datasets_witness :
  __init__ ex_listing path_suffix ex_read_csv [] = Ok (ex_new_self, ex_new_heap)
  ∧ valid ex_new_self ex_new_heap
  ∧ [] `prefix_of` ex_new_heap
  ∧ length ex_new_heap = (length (@nil frame) + length (file_paths ex_listing path_suffix))%nat
  ∧ (∀ k l, data ex_new_self !! k = Some l → (length (@nil frame) ≤ l)%nat)
  ∧ ∀ k, dataset ex_new_self ex_new_heap k
         = match file_of ex_listing path_suffix k with
           | Some p => ex_read_csv p
           | None => Err (KeyError k)
           end.
Proof.
  assert (Ho : __init__ ex_listing path_suffix ex_read_csv []
               = Ok (ex_new_self, ex_new_heap)).
  { exact (new_ok _ (eq_refl true
             <: is_ok (__init__ ex_listing path_suffix ex_read_csv []) = true)). }
  exact (conj Ho
    (init_datasets ex_listing path_suffix ex_read_csv [] ex_new_self ex_new_heap Ho)).
Defined.

Lemma init_raises_witness :
  file_paths (ex_listing ++ ["empty.csv"; "sellers.csv"]) path_suffix
    = ["olist_orders_dataset.csv"; "olist_order_reviews_dataset.csv"; "orders.csv"]
      ++ "empty.csv" :: ["sellers.csv"]
  ∧ forallb (λ q, is_ok (ex_read_csv q))
      ["olist_orders_dataset.csv"; "olist_order_reviews_dataset.csv"; "orders.csv"]
    = true
  ∧ ex_read_csv "empty.csv" = Err ValueError
  ∧ __init__ (ex_listing ++ ["empty.csv"; "sellers.csv"]) path_suffix ex_read_csv []
    = Err ValueError.
Proof.
  assert (Hf : file_paths (ex_listing ++ ["empty.csv"; "sellers.csv"]) path_suffix
               = ["olist_orders_dataset.csv"; "olist_order_reviews_dataset.csv";
                  "orders.csv"] ++ "empty.csv" :: ["sellers.csv"]) by reflexivity.
  assert (Hok : forallb (λ q, is_ok (ex_read_csv q))
                  ["olist_orders_dataset.csv"; "olist_order_reviews_dataset.csv";
                   "orders.csv"] = true) by reflexivity.
  assert (He : ex_read_csv "empty.csv" = Err ValueError) by reflexivity.
  exact (conj Hf (conj Hok (conj He
    (init_raises (ex_listing ++ ["empty.csv"; "sellers.csv"]) path_suffix ex_read_csv
       [] _ _ _ _ Hf Hok He)))).
Defined.

Lemma init_then_review_score_witness :
  __init__ ex_listing path_suffix ex_read_csv [] = Ok (ex_new_self, ex_new_heap)
  ∧ outcome (get_review_score ex_new_self) ex_new_heap
    = match file_of ex_listing path_suffix "order_reviews" with
      | Some p => ex_read_csv p ≫= review_table
      | None => Err (KeyError "order_reviews")
      end.
Proof.
  assert (Ho : __init__ ex_listing path_suffix ex_read_csv []
               = Ok (ex_new_self, ex_new_heap)).
  { exact (new_ok _ (eq_refl true
             <: is_ok (__init__ ex_listing path_suffix ex_read_csv []) = true)). }
  exact (conj Ho
    (init_then_review_score ex_listing path_suffix ex_read_csv [] ex_new_self
       ex_new_heap Ho)).
Defined.

Lemma key_name_olist_witness :
  occurs ".csv" ("olist_" +:+ "order_items" +:+ "_dataset.cs") = false
  ∧ occurs "_dataset" ("olist_" +:+ "order_items" +:+ "_datase") = false
  ∧ occurs "olist_" "order_items" = false
  ∧ key_name ("olist_" +:+ "order_items" +:+ "_dataset.csv") = "order_items".
Proof.
  assert (H1 : occurs ".csv" ("olist_" +:+ "order_items" +:+ "_dataset.cs") = false)
    by reflexivity.
  assert (H2 : occurs "_dataset" ("olist_" +:+ "order_items" +:+ "_datase") = false)
    by reflexivity.
  assert (H3 : occurs "olist_" "order_items" = false) by reflexivity.
  exact (conj H1 (conj H2 (conj H3 (key_name_olist "order_items" H1 H2 H3)))).
Defined.

Lemma review_score_total_witness :
  valid ex_self ex_heap
  ∧ dataset ex_self ex_heap "order_reviews" = Ok ex_reviews
  ∧ "order_id" ∈ columns ex_reviews
  ∧ "review_score" ∈ columns ex_reviews
  ∧ ∃ t, outcome (get_review_score ex_self) ex_heap = Ok t
         ∧ map (λ r, cell_at r "order_id") (rows t)
           = map (λ r, cell_at r "order_id") (rows ex_reviews)
         ∧ map (λ r, cell_at r "review_score") (rows t)
           = map (λ r, cell_at r "review_score") (rows ex_reviews).
Proof.
  assert (Hv : valid ex_self ex_heap) by ex_valid.
  assert (Hd : dataset ex_self ex_heap "order_reviews" = Ok ex_reviews) by reflexivity.
  assert (H1 : "order_id" ∈ columns ex_reviews) by eval_dec.
  assert (H2 : "review_score" ∈ columns ex_reviews) by eval_dec.
  exact (conj Hv (conj Hd (conj H1 (conj H2
    (review_score_total ex_self ex_heap ex_reviews Hv Hd H1 H2))))).
Defined.


(** ** What the extractors leave alone *)

Lemma computes_prefix m h r l h' :
  computes m h r → m h = Ok (l, h') → h `prefix_of` h'.
Proof. unfold computes, wp. intros H E. rewrite E in H. by destruct H. Qed.

Section frame.

Variable parse_datetime : nat → series → cell → option (Z * option Z).
Variable great_circle_km : Q → Q → Q → Q → Q.

(** X14: The six extractors work on copies: after a call that returns, every
    dataset of the instance is the frame it was before. *)
Theorem extractors_keep_datasets self h :
  valid self h →
  let kept (m : M loc) :=
    ∀ l h', m h = Ok (l, h') →
            valid self h' ∧ ∀ name, dataset self h' name = dataset self h name in
  (∀ d, kept (get_wait_time parse_datetime self d))
  ∧ kept (get_review_score self)
  ∧ kept (get_number_items self)
  ∧ kept (get_number_sellers self)
  ∧ kept (get_price_and_freight self)
  ∧ kept (get_distance_seller_customer great_circle_km self).
Proof.
  intros Hv kept.
  assert (∀ m r, computes m h r → kept m) as Hk.
  { intros m r Hm l h' E. pose proof (computes_prefix m h r l h' Hm E) as Hp.
    split; [by eapply valid_ext|]. intros name. by apply dataset_ext. }
  split; [intros d; eapply Hk; by apply get_wait_time_computes|].
  split; [eapply Hk; by apply get_review_score_computes|].
  split; [eapply Hk; by apply get_number_items_computes|].
  split; [eapply Hk; by apply get_number_sellers_computes|].
  split; [eapply Hk; by apply get_price_and_freight_computes|].
  eapply Hk; by apply get_distance_seller_customer_computes.
Qed.

(** X15: Without the distance flag, [get_training_data] reads the datasets
    "orders", "order_reviews" and "order_items" only: two instances that
    agree on these three give the same outcome, whatever else they hold
    or lack. *)
Theorem training_reads_three_datasets self self' h d :
  valid self h →
  valid self' h →
  (∀ name, name ∈ ["orders"; "order_reviews"; "order_items"] →
           data self !! name = data self' !! name) →
  outcome (get_training_data parse_datetime great_circle_km self d false) h
  = outcome (get_training_data parse_datetime great_circle_km self' d false) h.
Proof.
  intros Hv Hv' Hsame. rewrite !training_outcome by done.
  assert (∀ name, name ∈ ["orders"; "order_reviews"; "order_items"] →
            dataset self h name = dataset self' h name) as Hd.
  { intros name Hn. unfold dataset. by rewrite (Hsame name Hn). }
  unfold training_of, features_of, wait_time_of, review_of, items_of, sellers_of, price_of.
  rewrite !Hd by in_cols. done.
Qed.

End frame.

(** ** The orders of the distance table *)

(** A left join keeps the values of a left column: every left row is
    continued, and every joined row continues a left row. *)
Lemma merge_left_column on L R M c :
  merge_left on L R = Ok M →
  no_clash on L R = true →
  c ∈ columns L →
  ∀ v, v ∈ map (λ r, cell_at r c) (rows M) ↔ v ∈ map (λ r, cell_at r c) (rows L).
Proof.
  intros Hm Hc Hin v. split.
  - intros (r & <- & Hr)%list_elem_of_In%in_map_iff. apply list_elem_of_In in Hr.
    destruct (merge_row_cells on L R M Hm Hc r Hr) as (lr & Hlr & Hcells & _).
    rewrite (Hcells c Hin). apply list_elem_of_In.
    apply (in_map (λ r, cell_at r c)). by apply list_elem_of_In.
  - intros (lr & <- & Hlr)%list_elem_of_In%in_map_iff.
    rewrite (merge_rows on L R M Hm). apply list_elem_of_In, in_map_iff.
    destruct (matches on R lr) as [|m ms] eqn:Hms.
    + exists (join_row on L R lr None). split; [by apply join_row_left|].
      apply in_flat_map. exists lr. split; [done|]. rewrite Hms. by left.
    + exists (join_row on L R lr (Some m)). split; [by apply join_row_left|].
      apply in_flat_map. exists lr. split; [done|]. rewrite Hms. by left.
Qed.

(** Renaming other columns keeps the cells of a column, unless another
    column is renamed to its name. *)
Lemma rename_column m f c :
  c ∈ columns f →
  rename_col m c = c →
  (∀ c', c' ∈ columns f → rename_col m c' = c → c' = c) →
  map (λ r, cell_at r c) (rows (rename m f)) = map (λ r, cell_at r c) (rows f).
Proof.
  intros Hin Hc Hother. unfold rename. cbn [rows]. rewrite map_map.
  apply map_ext. intros r. rewrite <- (app_nil_r (map _ (columns f))).
  apply (cell_at_mk_row_app_map (rename_col m) (cell_at r) _ _ c c Hin Hc).
  intros c' Hc' Hn. by rewrite (Hother c' Hc' Hn).
Qed.

Lemma setitem_column c' s f t c :
  setitem c' s f = Ok t → c ≠ c' →
  map (λ r, cell_at r c) (rows t) = map (λ r, cell_at r c) (rows f).
Proof.
  unfold setitem. case_decide as Hlen; [|done]. intros [= <-] Hne. cbn [rows].
  revert s Hlen. induction (rows f) as [|r rs IH]; intros [|v s] Hlen; try done.
  cbn [zip_with map]. rewrite cell_at_insert_ne by done. f_equal.
  apply IH. cbn in Hlen. lia.
Qed.

Section distance_orders.

Variable great_circle_km : Q → Q → Q → Q → Q.

(** The joined lines of the distance computation carry the order
    identifiers of the item table, as a set: every identifier of the item
    table is on some joined line and no other identifier is.  The number
    of lines is not kept: a join repeats a line once per matching row. *)
Lemma lines_order_ids self h items L :
  dataset self h "order_items" = Ok items →
  lines_of great_circle_km self h = Ok L →
  ∀ v, v ∈ map (λ r, cell_at r "order_id") (rows L)
       ↔ v ∈ map (λ r, cell_at r "order_id") (rows items).
Proof.
  intros Hi HL. unfold lines_of in HL. rewrite Hi in HL.
  bind_inv HL. unfold lines_table in HL. bind_inv HL.
  apply getitem_cols_Ok in E0 as [-> _]. apply getitem_cols_Ok in E2 as [-> _].
  apply getitem_cols_Ok in E4 as [-> _]. apply getitem_cols_Ok in E5 as [-> _].
  apply groupby_cols_shape in E7 as [Hc7 _]. cbn [map fst] in Hc7.
  pose proof (merge_columns _ _ _ _ E8 eq_refl) as Hc8. cbn in Hc8.
  pose proof (merge_columns _ _ _ _ E9 eq_refl) as Hc9. cbn in Hc9.
  set (os := rename [("seller_zip_code_prefix", "seller_zip")] a9) in *.
  assert (columns os = ["order_id"; "seller_id"; "seller_zip"]) as Hcos.
  { unfold os, rename. cbn [columns]. by rewrite Hc9. }
  apply getitem_cols_Ok in E10 as [-> _].
  assert (no_clash "order_id" os
            (Frame ["order_id"; "customer_zip"]
               (map (project ["order_id"; "customer_zip"])
                  (rows (rename [("customer_zip_code_prefix", "customer_zip")] a8))))
          = true) as Hn11.
  { unfold no_clash, has_col. by rewrite Hcos. }
  pose proof (merge_columns _ _ _ _ E11 Hn11) as Hc11. rewrite Hcos in Hc11. cbn in Hc11.
  set (gs := rename _ a7) in E12. set (gc := rename _ a7) in E13.
  assert (columns gs = ["seller_zip"; "seller_lat"; "seller_lng"]) as Hcgs.
  { unfold gs, rename. cbn [columns]. by rewrite Hc7. }
  assert (columns gc = ["customer_zip"; "customer_lat"; "customer_lng"]) as Hcgc.
  { unfold gc, rename. cbn [columns]. by rewrite Hc7. }
  assert (no_clash "seller_zip" a11 gs = true) as Hn12.
  { unfold no_clash, has_col. by rewrite Hc11, Hcgs. }
  pose proof (merge_columns _ _ _ _ E12 Hn12) as Hc12.
  rewrite Hc11, Hcgs in Hc12. cbn in Hc12.
  assert (no_clash "customer_zip" a12 gc = true) as Hn13.
  { unfold no_clash, has_col. by rewrite Hc12, Hcgc. }
  intros v.
  rewrite (setitem_column _ _ _ _ "order_id" HL) by done.
  rewrite (merge_left_column _ _ _ _ "order_id" E13 Hn13) by (rewrite Hc12; in_cols).
  rewrite (merge_left_column _ _ _ _ "order_id" E12 Hn12) by (rewrite Hc11; in_cols).
  rewrite (merge_left_column _ _ _ _ "order_id" E11 Hn11) by (rewrite Hcos; in_cols).
  unfold os. rewrite rename_column.
  - rewrite (merge_left_column _ _ _ _ "order_id" E9 eq_refl) by in_cols.
    cbn [rows]. rewrite map_map.
    rewrite (map_ext (λ x, cell_at (project ["order_id"; "seller_id"] x) "order_id")
                     (λ x, cell_at x "order_id")); [done|].
    intros r. apply cell_at_project. in_cols.
  - rewrite Hc9. in_cols.
  - done.
  - rewrite Hc9. intros c' Hc'.
    repeat (apply elem_of_cons in Hc' as [->|Hc']; [by vm_compute|]).
    by apply elem_of_nil in Hc'.
Qed.


End distance_orders.

Lemma extractors_keep_datasets_witness :
  valid ex_self ex_heap
  ∧ let kept (m : M loc) :=
      ∀ l h', m ex_heap = Ok (l, h') →
              valid ex_self h'
              ∧ ∀ name, dataset ex_self h' name = dataset ex_self ex_heap name in
    (∀ d, kept (get_wait_time iso_datetime ex_self d))
    ∧ kept (get_review_score ex_self)
    ∧ kept (get_number_items ex_self)
    ∧ kept (get_number_sellers ex_self)
    ∧ kept (get_price_and_freight ex_self)
    ∧ kept (get_distance_seller_customer grid_km ex_self).
Proof.
  assert (Hv : valid ex_self ex_heap) by ex_valid.
  exact (conj Hv (extractors_keep_datasets iso_datetime grid_km ex_self ex_heap Hv)).
Defined.

Lemma training_reads_three_datasets_witness :
  valid ex_self ex_heap
  ∧ valid one_self ex_heap
  ∧ (∀ name, name ∈ ["orders"; "order_reviews"; "order_items"] →
             data ex_self !! name = data one_self !! name)
  ∧ outcome (get_training_data iso_datetime grid_km ex_self true false) ex_heap
    = outcome (get_training_data iso_datetime grid_km one_self true false) ex_heap.
Proof.
  assert (Hv : valid ex_self ex_heap) by ex_valid.
  assert (Hv' : valid one_self ex_heap) by ex_valid.
  assert (Hs : ∀ name, name ∈ ["orders"; "order_reviews"; "order_items"] →
                       data ex_self !! name = data one_self !! name).
  { intros name Hn. apply list_elem_of_In in Hn.
    destruct Hn as [<-|[<-|[<-|[]]]]; reflexivity. }
  exact (conj Hv (conj Hv' (conj Hs
    (training_reads_three_datasets iso_datetime grid_km ex_self one_self ex_heap true
       Hv Hv' Hs)))).
Defined.


(** ** The order of the grouped rows *)

Lemma cell_leb_total a b : cell_leb a b = true ∨ cell_leb b a = true.
Proof.
  assert (∀ x y, Qle_bool x y = true ∨ Qle_bool y x = true) as HQ.
  { intros x y. rewrite !Qle_bool_iff. destruct (Qlt_le_dec x y) as [?%Qlt_le_weak|?]; auto. }
  assert (∀ n m : nat, (n <=? m)%nat = true ∨ (m <=? n)%nat = true) as HN.
  { intros n m. rewrite !Nat.leb_le. lia. }
  assert (∀ x y : Z, (x <=? y)%Z = true ∨ (y <=? x)%Z = true) as HZ.
  { intros x y. rewrite !Z.leb_le. lia. }
  destruct a, b; cbn; auto using String.leb_total.
Qed.

Section sorted.

Variable great_circle_km : Q → Q → Q → Q → Q.


End sorted.

